(** * Automated flight tracking system: issue-tracker workflow

    A shallow embedding of [automated_flight_tracking_system.py] and the
    properties of its key-rotating text generator, its response parser, its
    tracker client and its workflow.

    The program talks to two remote services. Both are oracles of the
    environment: the n-th generation attempt and the n-th HTTP request of a
    run get the outcome the oracle gives for that ordinal and request, so
    every run of the program against every behaviour of the services is a
    run of the model. Two functions of the Python runtime are taken from
    the environment as well: [str()] and [json.loads]. A run leaves a
    trace of what it printed, how long it slept and what it asked the
    services; the properties of the workflow are stated on that trace.

    Python values are the values JSON has, with integers for numbers;
    strings are byte strings. Outside the model: transport failures inside
    [requests] (the oracle answers every request with an HTTP response),
    JSON numbers with a fraction or an exponent, and white space outside
    ASCII in [str.strip]. *)

From Stdlib Require Import ZArith Lia Ascii String List.
From stdpp Require Import base tactics option list strings pretty gmap.

Set Warnings "-register-all,-clear-no-such-hyp".
Local Open Scope string_scope.
Local Open Scope Z_scope.

(** ** Python values *)

(** What [json.loads] and [response.json()] build, and [None]. A dict is
    kept as an association list in insertion order; the first binding of a
    key is the live one. *)
Inductive pyval : Type :=
| VNone
| VBool (b : bool)
| VInt (z : Z)
| VStr (s : string)
| VList (l : list pyval)
| VDict (d : list (string * pyval)).

Inductive exn : Type :=
| ConnectionError (msg : string)
| RemoteError (msg : string)
| JSONDecodeError (msg : string)
| RecursionError
| KeyError (key : string)
| TypeError
| AttributeError
| IndexError.

Inductive result (A : Type) : Type :=
| Ret (a : A)
| Raise (e : exn).
Arguments Ret {A} a.
Arguments Raise {A} e.

Definition rbind {A B} (r : result A) (k : A -> result B) : result B :=
  match r with
  | Ret a => k a
  | Raise e => Raise e
  end.

Fixpoint rmap {A B} (f : A -> result B) (l : list A) : result (list B) :=
  match l with
  | [] => Ret []
  | x :: l' => rbind (f x) (λ y, rbind (rmap f l') (λ ys, Ret (y :: ys)))
  end.

Definition is_Raise {A} (r : result A) : Prop :=
  match r with Raise _ => True | Ret _ => False end.

Module Py.

Fixpoint dict_lookup (k : string) (d : list (string * pyval)) : option pyval :=
  match d with
  | [] => None
  | (k', v) :: d' => if String.eqb k k' then Some v else dict_lookup k d'
  end.

Fixpoint dict_keys (d : list (string * pyval)) : list string :=
  match d with
  | [] => []
  | (k, _) :: d' => k :: filter (λ k', k' ≠ k) (dict_keys d')
  end.

(** [d[k] = v] *)
Fixpoint dict_set (k : string) (v : pyval) (d : list (string * pyval))
  : list (string * pyval) :=
  match d with
  | [] => [(k, v)]
  | (k', v') :: d' =>
      if String.eqb k k' then (k', v) :: d' else (k', v') :: dict_set k v d'
  end.

(** [bool(v)] *)
Definition truthy (v : pyval) : bool :=
  match v with
  | VNone => false
  | VBool b => b
  | VInt z => negb (Z.eqb z 0)
  | VStr s => negb (String.eqb s "")
  | VList l => match l with [] => false | _ => true end
  | VDict d => match d with [] => false | _ => true end
  end.

(** [v[k]] for a string subscript [k] *)
Definition getitem (v : pyval) (k : string) : result pyval :=
  match v with
  | VDict d =>
      match dict_lookup k d with
      | Some x => Ret x
      | None => Raise (KeyError k)
      end
  | _ => Raise TypeError
  end.

(** [v.get(k, default)] *)
Definition get (v : pyval) (k : string) (default : pyval) : result pyval :=
  match v with
  | VDict d => Ret (from_option id default (dict_lookup k d))
  | _ => Raise AttributeError
  end.

Fixpoint chars (s : string) : list pyval :=
  match s with
  | EmptyString => []
  | String c s' => VStr (String c EmptyString) :: chars s'
  end.

(** the items a [for] loop, [enumerate] or [join] draws from [v] *)
Definition iter (v : pyval) : result (list pyval) :=
  match v with
  | VList l => Ret l
  | VStr s => Ret (chars s)
  | VDict d => Ret (VStr <$> dict_keys d)
  | _ => Raise TypeError
  end.

(** [len(v)] *)
Definition len (v : pyval) : result nat :=
  match v with
  | VList l => Ret (length l)
  | VStr s => Ret (String.length s)
  | VDict d => Ret (length (dict_keys d))
  | _ => Raise TypeError
  end.

(** [v[i]] for an integer subscript [i >= 0] *)
Definition getindex (v : pyval) (i : nat) : result pyval :=
  match v with
  | VList l =>
      match l !! i with
      | Some x => Ret x
      | None => Raise IndexError
      end
  | VStr s =>
      match chars s !! i with
      | Some x => Ret x
      | None => Raise IndexError
      end
  | VDict _ => Raise (KeyError (pretty i))
  | _ => Raise TypeError
  end.

(** [t == v] for a string [t], as [t in [...]] compares *)
Definition eq_str (t : string) (v : pyval) : bool :=
  match v with
  | VStr s => String.eqb t s
  | _ => false
  end.

(** [sep.join(items)]: every item has to be a [str] *)
Fixpoint join_items (sep : string) (items : list pyval) : result string :=
  match items with
  | [] => Ret ""
  | VStr s :: rest =>
      match rest with
      | [] => Ret s
      | _ =>
          match join_items sep rest with
          | Ret r => Ret (s +:+ sep +:+ r)
          | Raise e => Raise e
          end
      end
  | _ :: _ => Raise TypeError
  end.

Definition join (sep : string) (v : pyval) : result string :=
  match iter v with
  | Ret items => join_items sep items
  | Raise e => Raise e
  end.

(** Keys of a Python dict: values that hash. [True == 1] and
    [False == 0] are the same key as the integer. *)
Inductive key : Type :=
| KNone
| KNum (z : Z)
| KStr (s : string).

Definition hash (v : pyval) : result key :=
  match v with
  | VNone => Ret KNone
  | VBool b => Ret (KNum (if b then 1 else 0))
  | VInt z => Ret (KNum z)
  | VStr s => Ret (KStr s)
  | VList _ | VDict _ => Raise TypeError
  end.

End Py.

#[global] Instance key_eq_dec : EqDecision Py.key.
Proof. solve_decision. Defined.

#[global] Program Instance key_countable : Countable Py.key :=
  inj_countable'
    (λ k, match k with
          | Py.KNone => inl ()
          | Py.KNum z => inr (inl z)
          | Py.KStr s => inr (inr s)
          end)
    (λ x, match x with
          | inl () => Py.KNone
          | inr (inl z) => Py.KNum z
          | inr (inr s) => Py.KStr s
          end) _.
Next Obligation. by intros []. Qed.

(** ** Strings *)

Module Str.

Definition nl : string := String "010"%char EmptyString.
Definition dq : string := String "034"%char EmptyString.
Definition quoted (s : string) : string := dq +:+ s +:+ dq.

(** the lines of a multi-line literal, joined by newlines *)
Fixpoint lines (l : list string) : string :=
  match l with
  | [] => ""
  | [x] => x
  | x :: rest => x +:+ nl +:+ lines rest
  end.

(** [s.find(c)]: index of the first [c], or -1 *)
Fixpoint find (c : ascii) (s : string) : Z :=
  match s with
  | EmptyString => -1
  | String a s' =>
      if Ascii.eqb a c then 0
      else let r := find c s' in if Z.eqb r (-1) then -1 else r + 1
  end.

(** [s.rfind(c)]: index of the last [c], or -1 *)
Fixpoint rfind (c : ascii) (s : string) : Z :=
  match s with
  | EmptyString => -1
  | String a s' =>
      let r := rfind c s' in
      if Z.eqb r (-1) then (if Ascii.eqb a c then 0 else -1) else r + 1
  end.

(** [s[i:j]] for [0 <= i <= j] *)
Definition slice (i j : Z) (s : string) : string :=
  substring (Z.to_nat i) (Z.to_nat (j - i)) s.

(** [needle in hay] *)
Fixpoint contains (needle hay : string) : bool :=
  if String.prefix needle hay then true
  else match hay with
       | EmptyString => false
       | String _ hay' => contains needle hay'
       end.

Definition is_space (c : ascii) : bool :=
  let n := nat_of_ascii c in
  ((9 <=? n)%nat && (n <=? 13)%nat) || ((28 <=? n)%nat && (n <=? 32)%nat).

Fixpoint lstrip (s : string) : string :=
  match s with
  | String c s' => if is_space c then lstrip s' else s
  | EmptyString => EmptyString
  end.

Fixpoint rstrip (s : string) : string :=
  match s with
  | EmptyString => EmptyString
  | String c s' =>
      match rstrip s' with
      | EmptyString => if is_space c then EmptyString else String c EmptyString
      | r => String c r
      end
  end.

(** [s.strip()] *)
Definition strip (s : string) : string := rstrip (lstrip s).

End Str.

(** ** The environment and the state of a run *)

(** Outcome of the [try] body of one generation attempt: the text of the
    response, or the message of whatever the client library raised. *)
Inductive GenOutcome : Type :=
| GenText (text : string)
| GenError (msg : string).

Inductive Request : Type :=
| PostIssue (title : pyval) (description : string)
| PostSubtask (parent : pyval) (title : string) (description : string)
| GetSearch
| GetLinkTypes
| PostLink (outward inward : pyval) (type_name : pyval).

(** [json] is what [response.json()] gives: it raises when the body is not
    JSON. *)
Record Response : Type := mkResponse {
  status_code : Z;
  text : string;
  json : result pyval
}.

Record Env : Type := mkEnv {
  py_str : pyval -> string;
  json_loads : string -> result pyval;
  gemini_api_keys : list (option string);
  gemini : nat -> option string -> string -> GenOutcome;
  jira : nat -> Request -> Response
}.

Inductive Event : Type :=
| EvPrint (line : string)
| EvSleep (seconds : nat)
| EvGenerate (key_index : nat) (outcome : GenOutcome)
| EvHttp (req : Request) (resp : Response).

(** [active_gemini_key_index] is the module's global cursor; [generations]
    and [requests] count the remote calls made so far; [trace] is what the
    run did, oldest first. *)
Record World : Type := mkWorld {
  active_gemini_key_index : nat;
  generations : nat;
  requests : nat;
  trace : list Event
}.

Definition initial_world : World := mkWorld 0 0 0 [].

(** State and exceptions. *)
Definition M (A : Type) : Type := World -> result A * World.

Definition ret {A} (a : A) : M A := λ w, (Ret a, w).
Definition raise {A} (e : exn) : M A := λ w, (Raise e, w).
Definition bind {A B} (m : M A) (k : A -> M B) : M B :=
  λ w, match m w with
       | (Ret a, w') => k a w'
       | (Raise e, w') => (Raise e, w')
       end.
Definition lift {A} (r : result A) : M A := λ w, (r, w).

Declare Scope py_scope.
Delimit Scope py_scope with py.
Notation "x <- m ;; k" := (bind m (λ x, k))
  (at level 100, m at next level, right associativity) : py_scope.
Notation "m ;; k" := (bind m (λ _, k))
  (at level 100, right associativity) : py_scope.
Local Open Scope py_scope.

(** [try: body / except Exception as e: handler e] *)
Definition try_except {A} (body : M A) (handler : exn -> M A) : M A :=
  λ w, match body w with
       | (Ret a, w') => (Ret a, w')
       | (Raise e, w') => handler e w'
       end.

(** [try: body / except json.JSONDecodeError as e: handler msg] *)
Definition try_except_decode {A} (body : M A) (handler : string -> M A) : M A :=
  λ w, match body w with
       | (Raise (JSONDecodeError msg), w') => handler msg w'
       | other => other
       end.

Definition emit (e : Event) : M unit :=
  λ w, (Ret tt, mkWorld (active_gemini_key_index w) (generations w)
                        (requests w) (trace w ++ [e])%list).
Definition print (line : string) : M unit := emit (EvPrint line).
Definition sleep (seconds : nat) : M unit := emit (EvSleep seconds).

Definition get_index : M nat := λ w, (Ret (active_gemini_key_index w), w).
Definition set_index (i : nat) : M unit :=
  λ w, (Ret tt, mkWorld i (generations w) (requests w) (trace w)).

Fixpoint for_each {A} (body : A -> M unit) (items : list A) : M unit :=
  match items with
  | [] => ret tt
  | x :: rest => body x ;; for_each body rest
  end.

(** [str(error)] *)
Definition exn_str (e : exn) : string :=
  match e with
  | ConnectionError msg | RemoteError msg | JSONDecodeError msg => msg
  | RecursionError => "maximum recursion depth exceeded"
  | KeyError k => "'" +:+ k +:+ "'"
  | TypeError => "TypeError"
  | AttributeError => "AttributeError"
  | IndexError => "list index out of range"
  end.

Definition str_of_key (key : option string) : string :=
  match key with Some k => k | None => "None" end.

Section Program.

Variable env : Env.

Definition http (req : Request) : M Response :=
  λ w, let resp := jira env (requests w) req in
       (Ret resp, mkWorld (active_gemini_key_index w) (generations w)
                          (S (requests w)) (trace w ++ [EvHttp req resp])%list).

(** *** Gemini: key rotation *)

(** [gemini_api_keys[active_gemini_key_index]] *)
Definition current_key : M (option string) :=
  λ w, match gemini_api_keys env !! active_gemini_key_index w with
       | Some key => (Ret key, w)
       | None => (Raise IndexError, w)
       end.

(** The configured model is the key it was configured with. *)
Definition initialize_gemini_model : M (option string) := current_key.

(** [generative_model.generate_content(prompt_text)] and [.text] *)
Definition generate_content (model : option string) (prompt_text : string)
  : M string :=
  λ w, let outcome := gemini env (generations w) model prompt_text in
       let w' := mkWorld (active_gemini_key_index w) (S (generations w))
                   (requests w)
                   (trace w ++ [EvGenerate (active_gemini_key_index w) outcome])%list in
       match outcome with
       | GenText t => (Ret t, w')
       | GenError msg => (Raise (RemoteError msg), w')
       end.

(** The [while num_attempts < len(gemini_api_keys)] loop, with
    [remaining = len(gemini_api_keys) - num_attempts]: the counter grows
    by one on each failure and nowhere else. *)
Fixpoint attempt_loop (remaining : nat) (prompt_text : string)
    (start_index : nat) : M string :=
  match remaining with
  | O => raise (ConnectionError "All Gemini API keys failed after multiple attempts")
  | S remaining' =>
      try_except
        (generative_model <- initialize_gemini_model ;;
         generate_content generative_model prompt_text)
        (λ error,
           key <- current_key ;;
           print ("Gemini key " +:+ str_of_key key +:+
                  " encountered an error: " +:+ exn_str error) ;;
           let error_string := exn_str error in
           (if Str.contains "429" error_string || Str.contains "quota" error_string
            then sleep 1 else ret tt) ;;
           i <- get_index ;;
           set_index ((i + 1) mod length (gemini_api_keys env))%nat ;;
           i' <- get_index ;;
           (if (i' =? start_index)%nat then sleep 2 else ret tt) ;;
           attempt_loop remaining' prompt_text start_index)
  end.

Definition generate_with_gemini_resilience (prompt_text : string) : M string :=
  start_index <- get_index ;;
  attempt_loop (length (gemini_api_keys env)) prompt_text start_index.

(** *** Jira *)

Definition create_jira_issue (title : pyval) (issue_description : string)
  : M pyval :=
  response <- http (PostIssue title issue_description) ;;
  if status_code response =? 201 then
    created_issue <- lift (json response) ;;
    key <- lift (Py.getitem created_issue "key") ;;
    print ("Successfully created Jira issue: " +:+ py_str env key) ;;
    ret key
  else
    print ("Error creating Jira issue: " +:+ pretty (status_code response)
           +:+ " - " +:+ text response) ;;
    ret VNone.

Definition create_jira_child_issue (parent_issue_key : pyval)
    (title issue_description : string) : M pyval :=
  response <- http (PostSubtask parent_issue_key title issue_description) ;;
  if status_code response =? 201 then
    created_issue <- lift (json response) ;;
    key <- lift (Py.getitem created_issue "key") ;;
    print ("Created subtask " +:+ py_str env key +:+ " for parent "
           +:+ py_str env parent_issue_key) ;;
    ret key
  else
    print ("Error creating subtask for " +:+ py_str env parent_issue_key
           +:+ ": " +:+ pretty (status_code response) +:+ " - "
           +:+ text response) ;;
    ret VNone.

Definition print_issue (issue : pyval) : M unit :=
  fields <- lift (Py.get issue "fields" (VDict [])) ;;
  assignee_info <- lift (Py.get fields "assignee" VNone) ;;
  assignee_name <-
    (if Py.truthy assignee_info
     then d <- lift (Py.getitem assignee_info "displayName") ;; ret (py_str env d)
     else ret "Unassigned") ;;
  key <- lift (Py.getitem issue "key") ;;
  summary <- lift (Py.getitem fields "summary") ;;
  status <- lift (Py.getitem fields "status") ;;
  name <- lift (Py.getitem status "name") ;;
  print ("- " +:+ py_str env key +:+ ": " +:+ py_str env summary
         +:+ " [Status: " +:+ py_str env name +:+ "] (Assignee: "
         +:+ assignee_name +:+ ")").

Definition get_project_issues : M pyval :=
  response <- http GetSearch ;;
  if status_code response =? 200 then
    body <- lift (json response) ;;
    issues_data <- lift (Py.get body "issues" (VList [])) ;;
    n <- lift (Py.len issues_data) ;;
    print (Str.nl +:+ "Found " +:+ pretty n
           +:+ " visible issues in project CPG:" +:+ Str.nl) ;;
    issues <- lift (Py.iter issues_data) ;;
    for_each print_issue issues ;;
    ret issues_data
  else
    print ("Failed to fetch issues: " +:+ pretty (status_code response)
           +:+ " - " +:+ text response) ;;
    ret (VList []).

Definition print_link_type (link_type : pyval) : M unit :=
  name <- lift (Py.getitem link_type "name") ;;
  inward <- lift (Py.getitem link_type "inward") ;;
  outward <- lift (Py.getitem link_type "outward") ;;
  print ("  - " +:+ py_str env name +:+ " (Inward: '" +:+ py_str env inward
         +:+ "', Outward: '" +:+ py_str env outward +:+ "')").

Definition get_jira_issue_link_types : M pyval :=
  response <- http GetLinkTypes ;;
  if status_code response =? 200 then
    body <- lift (json response) ;;
    link_types_data <- lift (Py.get body "issueLinkTypes" (VList [])) ;;
    print (Str.nl +:+ "Available Jira issue link types:") ;;
    link_types <- lift (Py.iter link_types_data) ;;
    for_each print_link_type link_types ;;
    ret link_types_data
  else
    print ("Failed to get link types: " +:+ pretty (status_code response)
           +:+ " - " +:+ text response) ;;
    ret (VList []).

Definition link_jira_issues (source_issue target_issue relationship_type : pyval)
  : M pyval :=
  print ("Attempting to link " +:+ py_str env source_issue +:+ " to "
         +:+ py_str env target_issue +:+ " as '"
         +:+ py_str env relationship_type +:+ "'...") ;;
  response <- http (PostLink source_issue target_issue relationship_type) ;;
  if status_code response =? 201 then
    print ("Successfully linked " +:+ py_str env source_issue +:+ " and "
           +:+ py_str env target_issue +:+ ".") ;;
    ret (VBool true)
  else
    print ("Failed to link issues. Status: " +:+ pretty (status_code response)
           +:+ ", Response: " +:+ text response) ;;
    ret (VBool false).

(** *** Generation of tasks and test cases *)

Definition parse_json_from_text (raw_text : string) : M pyval :=
  try_except_decode
    (let json_start_index := Str.find "[" raw_text in
     let json_end_index := Str.rfind "]" raw_text + 1 in
     if negb (json_start_index =? -1) && (json_end_index >? json_start_index)
     then
       let json_string := Str.slice json_start_index json_end_index raw_text in
       lift (json_loads env json_string)
     else lift (json_loads env raw_text))
    (λ e,
       print ("JSON parsing error: " +:+ e +:+ Str.nl
              +:+ "Raw text received: " +:+ raw_text) ;;
       ret VNone).

Definition subtasks_prompt (main_requirement : string) : string :=
  Str.lines
    [ "";
      "    Based on the software requirement below, generate 3 to 5 distinct, high-level subtasks.";
      "    Requirement: " +:+ Str.quoted main_requirement;
      "";
      "    Guidelines:";
      "    - Produce between 3 and 5 unique subtasks.";
      "    - Each subtask must be a major development phase (e.g., Backend, Frontend, Testing).";
      "    - Avoid overlapping responsibilities between subtasks.";
      "    - Suggest a relevant category and component name for each.";
      "    - Summaries should be concise (under 100 words).";
      "";
      "    Provide the output in this exact JSON format:";
      "    [";
      "      {";
      "        " +:+ Str.quoted "summary" +:+ ": "
        +:+ Str.quoted "A comprehensive summary of the subtask." +:+ ",";
      "        " +:+ Str.quoted "category" +:+ ": "
        +:+ Str.quoted "Backend | Frontend | API | DevOps | Testing" +:+ ",";
      "        " +:+ Str.quoted "component" +:+ ": "
        +:+ Str.quoted "A suggested component/module name" +:+ ",";
      "        " +:+ Str.quoted "title" +:+ ": "
        +:+ Str.quoted "A short, descriptive title for the subtask";
      "      }";
      "    ]";
      "    Ensure the final output is a valid JSON array of 3 to 5 items.";
      "    " ].

Definition generate_subtasks_from_requirement (main_requirement : string)
  : M pyval :=
  let prompt := subtasks_prompt main_requirement in
  raw_response <- generate_with_gemini_resilience prompt ;;
  parse_json_from_text raw_response.

Definition test_cases_prompt (task_summary parent_key : pyval) : string :=
  Str.lines
    [ "";
      "    For the development task detailed below, create 3 to 5 comprehensive test cases.";
      "    Task: " +:+ Str.quoted (py_str env task_summary)
        +:+ " (Parent Ticket: " +:+ py_str env parent_key +:+ ")";
      "";
      "    Guidelines:";
      "    - Generate between 3 and 5 unique test cases.";
      "    - Each should cover a critical function or edge case.";
      "    - Include specific steps, expected results, and a priority level.";
      "    - Ensure test cases are actionable and not trivial.";
      "";
      "    Provide the output in this exact JSON format:";
      "    [";
      "      {";
      "        " +:+ Str.quoted "test_id" +:+ ": " +:+ Str.quoted "TC-1" +:+ ",";
      "        " +:+ Str.quoted "test_name" +:+ ": "
        +:+ Str.quoted "A short, descriptive test case name" +:+ ",";
      "        " +:+ Str.quoted "description" +:+ ": "
        +:+ Str.quoted "A detailed description of the test case" +:+ ",";
      "        " +:+ Str.quoted "steps" +:+ ": [" +:+ Str.quoted "Step 1" +:+ ", "
        +:+ Str.quoted "Step 2" +:+ ", " +:+ Str.quoted "Step 3" +:+ "],";
      "        " +:+ Str.quoted "expected_result" +:+ ": "
        +:+ Str.quoted "The expected outcome after executing the steps" +:+ ",";
      "        " +:+ Str.quoted "priority" +:+ ": "
        +:+ Str.quoted "High | Medium | Low";
      "      }";
      "    ]";
      "    Ensure the final output is a valid JSON array of 3 to 5 items.";
      "    " ].

Definition generate_test_cases_for_task (task_summary parent_key : pyval)
  : M pyval :=
  let prompt := test_cases_prompt task_summary parent_key in
  print (Str.nl +:+ "Generating test cases for task "
         +:+ py_str env parent_key +:+ "...") ;;
  raw_response <- generate_with_gemini_resilience prompt ;;
  parse_json_from_text raw_response.

(** *** Workflow *)

Definition preferred_link_types : list string :=
  ["Relates"; "Relates to"; "Dependency"; "Blocks"].

(** [[lt["name"] for lt in available_link_types]] *)
Definition link_type_names (available_link_types : pyval) : result (list pyval) :=
  rbind (Py.iter available_link_types) (rmap (λ lt, Py.getitem lt "name")).

(** Lines 259 to 263 of [create_and_link_tasks]: the [next(...)] over the
    preferred names, then the fallback to the first available type. *)
Definition select_link_type (available_link_types : pyval) : result pyval :=
  rbind (link_type_names available_link_types) (λ names,
    let link_type_to_use :=
      match List.find (λ t, existsb (Py.eq_str t) names) preferred_link_types with
      | Some t => VStr t
      | None => VNone
      end in
    if negb (Py.truthy link_type_to_use) && Py.truthy available_link_types
    then rbind (Py.getindex available_link_types 0) (λ first,
           Py.getitem first "name")
    else Ret link_type_to_use).

(** The [for task in task_definitions] loop; [acc] holds
    [created_issue_keys] and [issue_data_mapping]. *)
Fixpoint create_tasks (parent_ticket_key link_type_to_use : pyval)
    (tasks : list pyval) (acc : list pyval * gmap Py.key pyval)
  : M (list pyval * gmap Py.key pyval) :=
  match tasks with
  | [] => ret acc
  | task :: rest =>
      summary <- lift (Py.getitem task "summary") ;;
      category <- lift (Py.getitem task "category") ;;
      component <- lift (Py.getitem task "component") ;;
      let full_description :=
        py_str env summary +:+ Str.nl +:+ Str.nl
        +:+ "Category: " +:+ py_str env category +:+ Str.nl
        +:+ "Component: " +:+ py_str env component +:+ Str.nl
        +:+ "Parent Requirement: " +:+ py_str env parent_ticket_key in
      title <- lift (Py.getitem task "title") ;;
      new_issue_key <- create_jira_issue title full_description ;;
      if Py.truthy new_issue_key then
        let created_issue_keys := (acc.1 ++ [new_issue_key])%list in
        k <- lift (Py.hash new_issue_key) ;;
        let issue_data_mapping := <[k := task]> (acc.2) in
        (if Py.truthy link_type_to_use then
           sleep 1 ;;
           link_jira_issues parent_ticket_key new_issue_key link_type_to_use ;;
           ret tt
         else ret tt) ;;
        create_tasks parent_ticket_key link_type_to_use rest
          (created_issue_keys, issue_data_mapping)
      else
        create_tasks parent_ticket_key link_type_to_use rest acc
  end.

Definition create_and_link_tasks (parent_ticket_key task_definitions : pyval)
  : M (list pyval * gmap Py.key pyval) :=
  available_link_types <- get_jira_issue_link_types ;;
  link_type_to_use <- lift (select_link_type available_link_types) ;;
  (if Py.truthy link_type_to_use
   then print ("Using link type: '" +:+ py_str env link_type_to_use +:+ "'")
   else print "Warning: No suitable issue link types found. Tasks will not be linked.") ;;
  tasks <- lift (Py.iter task_definitions) ;;
  create_tasks parent_ticket_key link_type_to_use tasks ([], ∅).

(** [[f"{i}. {step}" for i, step in enumerate(steps, i)]] *)
Fixpoint numbered (i : nat) (steps : list pyval) : list string :=
  match steps with
  | [] => []
  | step :: rest => (pretty i +:+ ". " +:+ py_str env step) :: numbered (S i) rest
  end.

(** One round of the [for test_case in test_case_definitions] loop. A
    field read a second time is bound once: the dict has not changed. *)
Definition create_test_case (task_key test_case : pyval) : M pyval :=
  test_id <- lift (Py.getitem test_case "test_id") ;;
  test_name <- lift (Py.getitem test_case "test_name") ;;
  priority <- lift (Py.getitem test_case "priority") ;;
  print (Str.nl +:+ "--- " +:+ py_str env test_id +:+ ": " +:+ py_str env test_name
         +:+ " (Priority: " +:+ py_str env priority +:+ ") ---") ;;
  description <- lift (Py.getitem test_case "description") ;;
  print ("Description: " +:+ py_str env description) ;;
  steps <- lift (Py.getitem test_case "steps") ;;
  joined <- lift (Py.join ", " steps) ;;
  print ("Steps: " +:+ joined) ;;
  expected_result <- lift (Py.getitem test_case "expected_result") ;;
  print ("Expected Result: " +:+ py_str env expected_result) ;;
  step_items <- lift (Py.iter steps) ;;
  let steps_string := Str.lines (numbered 1 step_items) in
  let subtask_desc :=
    Str.lines
      [ "";
        "            Test Case: " +:+ py_str env test_name;
        "            Description: " +:+ py_str env description;
        "            ";
        "            Steps:";
        "            " +:+ steps_string;
        "            ";
        "            Expected Result: " +:+ py_str env expected_result;
        "            Priority: " +:+ py_str env priority;
        "            " ] in
  let subtask_title :=
    "Test: " +:+ py_str env test_name +:+ " [" +:+ py_str env priority +:+ "]" in
  create_jira_child_issue task_key subtask_title (Str.strip subtask_desc).

Fixpoint create_test_cases (task_key : pyval) (test_cases : list pyval)
    (created_test_keys : list pyval) : M (list pyval) :=
  match test_cases with
  | [] => ret created_test_keys
  | test_case :: rest =>
      new_subtask_key <- create_test_case task_key test_case ;;
      if Py.truthy new_subtask_key then
        print ("Created test case subtask: " +:+ py_str env new_subtask_key) ;;
        sleep 1 ;;
        create_test_cases task_key rest (created_test_keys ++ [new_subtask_key])%list
      else
        create_test_cases task_key rest created_test_keys
  end.

Definition process_and_create_test_cases (task_key task_data : pyval)
  : M (list pyval) :=
  summary <- lift (Py.getitem task_data "summary") ;;
  test_case_definitions <- generate_test_cases_for_task summary task_key ;;
  if Py.truthy test_case_definitions then
    n <- lift (Py.len test_case_definitions) ;;
    print (Str.nl +:+ "Generated " +:+ pretty n +:+ " test cases for "
           +:+ py_str env task_key +:+ ":") ;;
    test_cases <- lift (Py.iter test_case_definitions) ;;
    create_test_cases task_key test_cases []
  else ret [].

(** [task_data_map.get(task_key)] *)
Definition map_get (task_data_map : gmap Py.key pyval) (task_key : pyval)
  : result pyval :=
  rbind (Py.hash task_key) (λ k, Ret (default VNone (task_data_map !! k))).

Definition missing_data_warning (task_key : pyval) : string :=
  "Warning: Could not find data for task " +:+ py_str env task_key
  +:+ ". Skipping test case generation.".

(** The [if task_data:] branch of the loop over [created_task_keys]. *)
Definition run_task_tests (task_key task_data : pyval) : M unit :=
  title <- lift (Py.getitem task_data "title") ;;
  print (Str.nl +:+ "--- Processing task " +:+ py_str env task_key +:+ ": "
         +:+ py_str env title +:+ " ---") ;;
  test_keys <- process_and_create_test_cases task_key task_data ;;
  print ("Created " +:+ pretty (length test_keys)
         +:+ " test case subtasks for " +:+ py_str env task_key) ;;
  sleep 2.

(** Body of [for task_key in created_task_keys] in [main]. *)
Definition process_task (task_data_map : gmap Py.key pyval) (task_key : pyval)
  : M unit :=
  task_data <- lift (map_get task_data_map task_key) ;;
  if Py.truthy task_data then run_task_tests task_key task_data
  else print (missing_data_warning task_key).

(** [for i, task in enumerate(subtask_definitions, i): print(...)] *)
Fixpoint print_titles (i : nat) (tasks : list pyval) : M unit :=
  match tasks with
  | [] => ret tt
  | task :: rest =>
      title <- lift (Py.getitem task "title") ;;
      print (pretty i +:+ ". " +:+ py_str env title) ;;
      print_titles (S i) rest
  end.

(** [main_requirement] is the line [input()] read. *)
Definition main (main_requirement : string) : M unit :=
  print (Str.nl +:+ "Creating a parent ticket for the main requirement...") ;;
  parent_ticket_key <-
    create_jira_issue
      (VStr ("Epic: " +:+ main_requirement))
      ("This is the main parent ticket for the requirement: " +:+ main_requirement) ;;
  if negb (Py.truthy parent_ticket_key) then
    print "Could not create a parent ticket. Aborting."
  else
    print (Str.nl +:+ "Generating development tasks with Gemini...") ;;
    subtask_definitions <- generate_subtasks_from_requirement main_requirement ;;
    (if Py.truthy subtask_definitions then
       print (Str.nl +:+ "Gemini generated the following tasks:") ;;
       tasks <- lift (Py.iter subtask_definitions) ;;
       print_titles 1 tasks ;;
       print (Str.nl +:+ "Creating and linking Jira tickets for these tasks...") ;;
       created <- create_and_link_tasks parent_ticket_key subtask_definitions ;;
       let created_task_keys := created.1 in
       let task_data_map := created.2 in
       match created_task_keys with
       | [] => ret tt
       | _ :: _ =>
           print (Str.nl +:+ "== Generating Test Cases for "
                  +:+ pretty (length created_task_keys) +:+ " Tasks ==") ;;
           for_each (process_task task_data_map) created_task_keys
       end
     else print "Gemini did not generate any subtasks.") ;;
    get_project_issues ;;
    ret tt.

End Program.

(** ** A runtime to run the model on

    [Json.loads] reads the JSON texts whose numbers are integer literals and
    whose strings have no [\u] escape, the way [json.loads] does; on any
    other text it reports a decode error. [Render.str] is [str()] on
    strings, integers, booleans and [None], and [repr]-like on containers.
    Both are used to evaluate the model on concrete inputs; the theorems
    about the program hold for every runtime. *)

Module Json.

Definition is_ws (c : ascii) : bool :=
  Ascii.eqb c " " || Ascii.eqb c "009" || Ascii.eqb c "010" || Ascii.eqb c "013".

Fixpoint skip_ws (s : string) : string :=
  match s with
  | String c s' => if is_ws c then skip_ws s' else s
  | EmptyString => EmptyString
  end.

Definition digit (c : ascii) : option Z :=
  let n := nat_of_ascii c in
  if (48 <=? n)%nat && (n <=? 57)%nat then Some (Z.of_nat n - 48) else None.

Fixpoint digits (acc : Z) (s : string) : Z * string :=
  match s with
  | String c s' =>
      match digit c with
      | Some d => digits (10 * acc + d) s'
      | None => (acc, s)
      end
  | EmptyString => (acc, s)
  end.

Definition starts_fraction (s : string) : bool :=
  match s with
  | String c _ => Ascii.eqb c "." || Ascii.eqb c "e" || Ascii.eqb c "E"
  | EmptyString => false
  end.

(** [0] or a digit string without a leading zero, not followed by a
    fraction or an exponent *)
Definition natural (s : string) : option (Z * string) :=
  match s with
  | String c s' =>
      match digit c with
      | Some 0 => if starts_fraction s' then None
                  else match s' with
                       | String c' _ =>
                           match digit c' with
                           | Some _ => None
                           | None => Some (0, s')
                           end
                       | EmptyString => Some (0, s')
                       end
      | Some d => let '(n, r) := digits d s' in
                  if starts_fraction r then None else Some (n, r)
      | None => None
      end
  | EmptyString => None
  end.

Definition unescape (c : ascii) : option ascii :=
  if Ascii.eqb c "034" then Some "034"%char
  else if Ascii.eqb c "\" then Some "\"%char
  else if Ascii.eqb c "/" then Some "/"%char
  else if Ascii.eqb c "b" then Some "008"%char
  else if Ascii.eqb c "f" then Some "012"%char
  else if Ascii.eqb c "n" then Some "010"%char
  else if Ascii.eqb c "r" then Some "013"%char
  else if Ascii.eqb c "t" then Some "009"%char
  else None.

(** the characters after an opening quote, up to the closing one *)
Fixpoint string_body (s : string) : option (string * string) :=
  match s with
  | EmptyString => None
  | String c s' =>
      if Ascii.eqb c "034" then Some (EmptyString, s')
      else if Ascii.eqb c "\" then
        match s' with
        | String e s'' =>
            match unescape e, string_body s'' with
            | Some c', Some (body, r) => Some (String c' body, r)
            | _, _ => None
            end
        | EmptyString => None
        end
      else if (nat_of_ascii c <? 32)%nat then None
      else match string_body s' with
           | Some (body, r) => Some (String c body, r)
           | None => None
           end
  end.

Definition literal (word : string) (v : pyval) (s : string)
  : option (pyval * string) :=
  if String.prefix word s
  then Some (v, substring (String.length word)
                  (String.length s - String.length word) s)
  else None.

Fixpoint value (fuel : nat) (s : string) : option (pyval * string) :=
  match fuel with
  | O => None
  | S fuel' =>
      match skip_ws s with
      | EmptyString => None
      | String c r =>
          if Ascii.eqb c "[" then
            match skip_ws r with
            | String c' r' =>
                if Ascii.eqb c' "]" then Some (VList [], r')
                else match elements fuel' r with
                     | Some (vs, r'') => Some (VList vs, r'')
                     | None => None
                     end
            | EmptyString => None
            end
          else if Ascii.eqb c "{" then
            match skip_ws r with
            | String c' r' =>
                if Ascii.eqb c' "}" then Some (VDict [], r')
                else match members fuel' r with
                     | Some (kvs, r'') =>
                         Some (VDict (fold_left (λ d kv, Py.dict_set kv.1 kv.2 d) kvs []), r'')
                     | None => None
                     end
            | EmptyString => None
            end
          else if Ascii.eqb c "034" then
            match string_body r with
            | Some (body, r') => Some (VStr body, r')
            | None => None
            end
          else if Ascii.eqb c "-" then
            match natural r with
            | Some (n, r') => Some (VInt (- n), r')
            | None => None
            end
          else if Ascii.eqb c "n" then literal "null" VNone (String c r)
          else if Ascii.eqb c "t" then literal "true" (VBool true) (String c r)
          else if Ascii.eqb c "f" then literal "false" (VBool false) (String c r)
          else match natural (String c r) with
               | Some (n, r') => Some (VInt n, r')
               | None => None
               end
      end
  end
with elements (fuel : nat) (s : string) : option (list pyval * string) :=
  match fuel with
  | O => None
  | S fuel' =>
      match value fuel' s with
      | Some (v, r) =>
          match skip_ws r with
          | String c r' =>
              if Ascii.eqb c "," then
                match elements fuel' r' with
                | Some (vs, r'') => Some (v :: vs, r'')
                | None => None
                end
              else if Ascii.eqb c "]" then Some ([v], r')
              else None
          | EmptyString => None
          end
      | None => None
      end
  end
with members (fuel : nat) (s : string) : option (list (string * pyval) * string) :=
  match fuel with
  | O => None
  | S fuel' =>
      match skip_ws s with
      | String q r =>
          if Ascii.eqb q "034" then
            match string_body r with
            | Some (k, r1) =>
                match skip_ws r1 with
                | String colon r2 =>
                    if Ascii.eqb colon ":" then
                      match value fuel' r2 with
                      | Some (v, r3) =>
                          match skip_ws r3 with
                          | String c r4 =>
                              if Ascii.eqb c "," then
                                match members fuel' r4 with
                                | Some (kvs, r5) => Some ((k, v) :: kvs, r5)
                                | None => None
                                end
                              else if Ascii.eqb c "}" then Some ([(k, v)], r4)
                              else None
                          | EmptyString => None
                          end
                      | None => None
                      end
                    else None
                | EmptyString => None
                end
            | None => None
            end
          else None
      | EmptyString => None
      end
  end.

Definition loads (s : string) : result pyval :=
  match value (S (String.length s)) s with
  | Some (v, r) =>
      match skip_ws r with
      | EmptyString => Ret v
      | _ => Raise (JSONDecodeError "Extra data")
      end
  | None => Raise (JSONDecodeError "Expecting value")
  end.

End Json.

Module Render.

(** [repr(v)] when [quote], [str(v)] otherwise *)
Fixpoint render (quote : bool) (v : pyval) : string :=
  match v with
  | VNone => "None"
  | VBool true => "True"
  | VBool false => "False"
  | VInt z => pretty z
  | VStr s => if quote then "'" +:+ s +:+ "'" else s
  | VList l =>
      "[" +:+ (fix go (l : list pyval) : string :=
                 match l with
                 | [] => ""
                 | [x] => render true x
                 | x :: rest => render true x +:+ ", " +:+ go rest
                 end) l +:+ "]"
  | VDict d =>
      "{" +:+ (fix go (d : list (string * pyval)) : string :=
                 match d with
                 | [] => ""
                 | [(k, x)] => "'" +:+ k +:+ "': " +:+ render true x
                 | (k, x) :: rest =>
                     "'" +:+ k +:+ "': " +:+ render true x +:+ ", " +:+ go rest
                 end) d +:+ "}"
  end.

Definition str : pyval -> string := render false.

End Render.


(** ** What a run did *)

(** The generation attempts of a piece of trace: key index and outcome. *)
Fixpoint attempts (evs : list Event) : list (nat * GenOutcome) :=
  match evs with
  | [] => []
  | EvGenerate i o :: rest => (i, o) :: attempts rest
  | _ :: rest => attempts rest
  end.

(** The HTTP requests of a piece of trace, with their responses. *)
Fixpoint exchanges (evs : list Event) : list (Request * Response) :=
  match evs with
  | [] => []
  | EvHttp req resp :: rest => (req, resp) :: exchanges rest
  | _ :: rest => exchanges rest
  end.

Definition is_text (o : GenOutcome) : bool :=
  match o with GenText _ => true | GenError _ => false end.

Definition exhausted : exn :=
  ConnectionError "All Gemini API keys failed after multiple attempts".

(** The [j]-th attempt of a call entered at cursor [c] after [g] earlier
    generation attempts: the key index it lands on and what the remote
    service answers there. *)
Definition attempt_at (env : Env) (prompt_text : string) (c g j : nat)
  : nat * GenOutcome :=
  let i := ((c + j) mod length (gemini_api_keys env))%nat in
  (i, gemini env (g + j) (nth i (gemini_api_keys env) None) prompt_text).

(** What [create_jira_issue] and [create_jira_child_issue] return for a
    response. *)
Definition created_key_of (response : Response) : result pyval :=
  if status_code response =? 201
  then rbind (json response) (λ body, Py.getitem body "key")
  else Ret VNone.

(** The key of a creation the workflow goes on with: status 201 and a key
    that is true. *)
Definition created_key (response : Response) : option pyval :=
  match created_key_of response with
  | Ret key => if Py.truthy key then Some key else None
  | Raise _ => None
  end.

(** The issue creations of a piece of trace, and the keys they produced. *)
Definition issue_posts (evs : list Event) : list (pyval * Response) :=
  omap (λ x, match x.1 with
             | PostIssue title _ => Some (title, x.2)
             | _ => None
             end) (exchanges evs).

Definition created_keys (evs : list Event) : list pyval :=
  omap (λ post, created_key post.2) (issue_posts evs).

(** The tasks of [tasks] whose creation succeeded, [tasks] being the tasks
    the issue creations of the trace were made for, in order. *)
Definition tasks_created (tasks : list pyval) (evs : list Event) : list pyval :=
  omap (λ tp, match created_key tp.2.2 with
              | Some _ => Some tp.1
              | None => None
              end) (zip tasks (issue_posts evs)).

(** The link requests of a piece of trace: outward, inward and type. *)
Definition link_attempts (evs : list Event) : list (pyval * pyval * pyval) :=
  omap (λ x, match x.1 with
             | PostLink outward inward type_name => Some (outward, inward, type_name)
             | _ => None
             end) (exchanges evs).

(** The last HTTP request of a trace. *)
Definition last_request (evs : list Event) : option Request :=
  fst <$> last (exchanges evs).

(** [w'] is [w] after the events [d]. *)
Definition extends (w w' : World) (d : list Event) : Prop :=
  trace w' = (trace w ++ d)%list.

(** What a returning run of the task loop leaves behind, [d] being what it
    did and [acc] the key list and mapping it started from: one creation
    request per task, in order; the keys of the creations that succeeded;
    one link request per such key when a link type is in use; an entry
    in the mapping for each of them, which holds the task the key was
    created for when the keys differ. *)
Definition loop_outcome (parent_ticket_key link_type_to_use : pyval)
    (tasks : list pyval) (acc : list pyval * gmap Py.key pyval)
    (d : list Event) (keys : list pyval) (mapping : gmap Py.key pyval) : Prop :=
  Forall2 (λ task post, Py.getitem task "title" = Ret post.1) tasks (issue_posts d) ∧
  keys = (acc.1 ++ created_keys d)%list ∧
  link_attempts d
    = (if Py.truthy link_type_to_use
       then (λ k, (parent_ticket_key, k, link_type_to_use)) <$> created_keys d
       else []) ∧
  Forall (λ task, Py.truthy task = true) tasks ∧
  ∃ kks,
    Forall2 (λ k kk, Py.hash k = Ret kk) (created_keys d) kks ∧
    dom mapping = dom acc.2 ∪ list_to_set kks ∧
    (∀ kk, kk ∈ kks → ∃ task, task ∈ tasks ∧ mapping !! kk = Some task) ∧
    (∀ kk, kk ∉ kks → mapping !! kk = acc.2 !! kk) ∧
    (NoDup kks →
     Forall2 (λ kk task, mapping !! kk = Some task) kks (tasks_created tasks d)).

(** A task definition with the four fields the workflow reads. *)
Definition well_formed_task (task : pyval) : Prop :=
  ∃ summary category component title,
    Py.getitem task "summary" = Ret summary ∧
    Py.getitem task "category" = Ret category ∧
    Py.getitem task "component" = Ret component ∧
    Py.getitem task "title" = Ret title.

(** A creation response the client can read: a 201 comes with a body that
    has a [key], and a key that is true can be a dict key. *)
Definition well_formed_creation (response : Response) : Prop :=
  match created_key_of response with
  | Ret key => Py.truthy key = true → ∃ kk, Py.hash key = Ret kk
  | Raise _ => False
  end.

(** The fields [process_and_create_test_cases] reads of a test case, in
    the order of their first read. *)
Definition test_case_fields : list string :=
  ["test_id"; "test_name"; "priority"; "description"; "steps"; "expected_result"].

Definition first_missing (d : list (string * pyval)) : option string :=
  List.find (λ field, match Py.dict_lookup field d with
                      | None => true
                      | Some _ => false
                      end) test_case_fields.

(** ** Scripted environments *)

Module Scenario.

Definition unavailable : Response :=
  mkResponse 503 "Service Unavailable" (Raise (JSONDecodeError "Expecting value")).

Definition created (k : string) : Response :=
  mkResponse 201 "" (Ret (VDict [("key", VStr k)])).

(** The n-th generation attempt gets the n-th outcome of [gen], the n-th
    HTTP request the n-th response of [resp]; past the end of the script
    the services fail. *)
Definition scripted (keys : list (option string)) (gen : list GenOutcome)
    (resp : list Response) : Env :=
  mkEnv Render.str Json.loads keys
    (λ n _ _, nth n gen (GenError "503 unavailable"))
    (λ n _, nth n resp unavailable).

Definition two_keys : list (option string) := [Some "key-1"; Some "key-2"].

Definition all_keys_fail : Env := scripted two_keys [] [].

Definition second_key_answers : Env :=
  scripted two_keys [GenError "429 quota exceeded"; GenText "[]"] [].

Definition task (title : string) : pyval :=
  VDict [("summary", VStr ("Build the " +:+ title));
         ("category", VStr "Backend");
         ("component", VStr title);
         ("title", VStr title)].

Definition three_tasks : pyval := VList [task "api"; task "ui"; task "tests"].

Definition link_types (names : list string) : Response :=
  mkResponse 200 ""
    (Ret (VDict [("issueLinkTypes",
                  VList ((λ n, VDict [("name", VStr n); ("inward", VStr "in");
                                      ("outward", VStr "out")]) <$> names))])).

Definition linked : Response := mkResponse 201 "" (Raise (JSONDecodeError "Expecting value")).

Definition no_issues : Response := mkResponse 200 "" (Ret (VDict [("issues", VList [])])).

(** A tracker that knows the link types [names], refuses to create the
    issue titled "ui" and creates any other one under a key made from
    its title. *)
Definition refusing_ui (names : list string) (req : Request) : Response :=
  match req with
  | GetLinkTypes => link_types names
  | PostIssue (VStr title) _ =>
      if String.eqb title "ui" then unavailable else created ("CPG-" +:+ title)
  | PostIssue _ _ => unavailable
  | PostSubtask _ title _ => created ("CPG-" +:+ title)
  | PostLink _ _ _ => linked
  | GetSearch => no_issues
  end.

Definition second_creation_fails : Env :=
  mkEnv Render.str Json.loads two_keys
    (λ _ _ _, GenError "503 unavailable") (λ _, refusing_ui ["Blocks"]).

(** The same tracker with link types none of which is preferred. *)
Definition unfamiliar_link_types : Env :=
  mkEnv Render.str Json.loads two_keys
    (λ _ _ _, GenError "503 unavailable") (λ _, refusing_ui ["Cloners"; "Duplicate"]).

(** The mapping the tracker above leaves for [three_tasks]. *)
Definition two_created : gmap Py.key pyval :=
  <[Py.KStr "CPG-tests" := task "tests"]> (<[Py.KStr "CPG-api" := task "api"]> ∅).

End Scenario.

Module TestCaseExample.

(** [[{"test_id": "TC-1"}]]: valid JSON, but not a test case. *)
Definition shapeless : string :=
  "[{" +:+ Str.quoted "test_id" +:+ ": " +:+ Str.quoted "TC-1" +:+ "}]".

Definition env : Env :=
  Scenario.scripted Scenario.two_keys [GenText shapeless] [].

End TestCaseExample.

Module MainExample.

Definition requirement : string := "Add login page".

(** No request to the tracker succeeds. *)
Definition tracker_down : Env := Scenario.scripted Scenario.two_keys [] [].

(** The parent is created, then the generator answers prose. *)
Definition prose_answer : Env :=
  Scenario.scripted Scenario.two_keys [GenText "Sorry, I cannot help with that."]
    [Scenario.created "CPG-10"; Scenario.no_issues].

(** The parent is created, then every key of the generator fails. *)
Definition generator_down : Env :=
  Scenario.scripted Scenario.two_keys [] [Scenario.created "CPG-10"; Scenario.no_issues].

(** The JSON text of [Scenario.task title]. *)
Definition task_json (title : string) : string :=
  "{" +:+ Str.quoted "summary" +:+ ": " +:+ Str.quoted ("Build the " +:+ title) +:+ ", "
  +:+ Str.quoted "category" +:+ ": " +:+ Str.quoted "Backend" +:+ ", "
  +:+ Str.quoted "component" +:+ ": " +:+ Str.quoted title +:+ ", "
  +:+ Str.quoted "title" +:+ ": " +:+ Str.quoted title +:+ "}".

Definition three_tasks_answer : string :=
  "Here are the subtasks: [" +:+ task_json "api" +:+ ", " +:+ task_json "ui" +:+ ", "
  +:+ task_json "tests" +:+ "] Good luck!".

(** The parent is created and three tasks are planned, then the tracker
    refuses every task. *)
Definition tasks_refused : Env :=
  Scenario.scripted Scenario.two_keys [GenText three_tasks_answer]
    [Scenario.created "CPG-10"; Scenario.link_types ["Relates"];
     Scenario.unavailable; Scenario.unavailable; Scenario.unavailable;
     Scenario.no_issues].

End MainExample.

Module ParseExample.

(** ["noise [ {"a":1} ] trailing"] *)
Definition noisy : string :=
  "noise [ {" +:+ Str.quoted "a" +:+ ":1} ] trailing".

(** ["{"a":1}"] *)
Definition bare_object : string := "{" +:+ Str.quoted "a" +:+ ":1}".

Definition prose : string := "not json".

Definition env : Env := Scenario.scripted [] [] [].

End ParseExample.
(** ** More scripted environments *)

Module StageExample.

Definition parent : pyval := VStr "CPG-10".

(** The second task has a title and nothing else. *)
Definition untitled : pyval := VDict [("title", VStr "ui")].

Definition incomplete_tasks : pyval :=
  VList [Scenario.task "api"; untitled; Scenario.task "tests"].

(** The tracker offers one link type, which has a name only. *)
Definition bare_link_type : Env :=
  Scenario.scripted Scenario.two_keys []
    [mkResponse 200 "" (Ret (VDict [("issueLinkTypes",
                                     VList [VDict [("name", VStr "Blocks")]])]))].

(** [[{"test_id": "TC-1", ...}]]: one test case with two steps. *)
Definition one_test_case : string :=
  "[{" +:+ Str.quoted "test_id" +:+ ": " +:+ Str.quoted "TC-1" +:+ ", "
  +:+ Str.quoted "test_name" +:+ ": " +:+ Str.quoted "Login" +:+ ", "
  +:+ Str.quoted "description" +:+ ": " +:+ Str.quoted "A user logs in" +:+ ", "
  +:+ Str.quoted "steps" +:+ ": [" +:+ Str.quoted "open" +:+ ", "
  +:+ Str.quoted "submit" +:+ "], "
  +:+ Str.quoted "expected_result" +:+ ": " +:+ Str.quoted "welcome" +:+ ", "
  +:+ Str.quoted "priority" +:+ ": " +:+ Str.quoted "High" +:+ "}]".

(** Key 0 is over quota, key 1 plans one test case, the tracker creates
    its subtask. *)
Definition one_subtask : Env :=
  Scenario.scripted Scenario.two_keys
    [GenError "429 quota exceeded"; GenText one_test_case]
    [Scenario.created "CPG-21"].

(** The generator plans no test case. *)
Definition nothing_planned : Env :=
  Scenario.scripted Scenario.two_keys [GenText "[]"] [].

(** The tracker answers the parent request with 201 and no body. *)
Definition parent_unreadable : Env :=
  Scenario.scripted Scenario.two_keys [] [Scenario.linked].

(** The parent is created, then the generator answers a JSON object
    where the array of tasks is expected. *)
Definition object_answer : Env :=
  Scenario.scripted Scenario.two_keys
    [GenText ("{" +:+ Str.quoted "summary" +:+ ": " +:+ Str.quoted "Build it" +:+ "}")]
    [Scenario.created "CPG-10"].

(** The search returns one issue that has a key and no fields. *)
Definition issue_without_fields : Env :=
  Scenario.scripted Scenario.two_keys []
    [mkResponse 200 "" (Ret (VDict [("issues", VList [VDict [("key", VStr "CPG-3")]])]))].

(** The tracker gives the same key to two creations. *)
Definition same_key_twice : Env :=
  Scenario.scripted Scenario.two_keys []
    [Scenario.link_types ["Relates"]; Scenario.created "CPG-7"; Scenario.linked;
     Scenario.created "CPG-7"; Scenario.linked].

Definition two_tasks : pyval := VList [Scenario.task "api"; Scenario.task "ui"].

(** The tracker answers the first creation with 201 and no body. *)
Definition creation_unreadable : Env :=
  Scenario.scripted Scenario.two_keys []
    [Scenario.link_types ["Relates"]; Scenario.linked].

(** The one link type the tracker offers has the empty name; every task
    but the one titled "ui" is created. *)
Definition empty_link_type_name : Env :=
  mkEnv Render.str Json.loads Scenario.two_keys
    (λ _ _ _, GenError "503 unavailable") (λ _, Scenario.refusing_ui [""]).

Definition three_other_tasks : pyval :=
  VList [Scenario.task "api"; Scenario.task "db"; Scenario.task "tests"].

End StageExample.

(** ** More of what a run did *)

(** The pauses of a piece of trace, in seconds, and the lines it printed. *)
Fixpoint pauses (evs : list Event) : list nat :=
  match evs with
  | [] => []
  | EvSleep seconds :: rest => seconds :: pauses rest
  | _ :: rest => pauses rest
  end.

Fixpoint printed (evs : list Event) : list string :=
  match evs with
  | [] => []
  | EvPrint line :: rest => line :: printed rest
  | _ :: rest => printed rest
  end.

(** The test [generate_with_gemini_resilience] makes on [str(error)]. *)
Definition rate_limited (error_string : string) : bool :=
  Str.contains "429" error_string || Str.contains "quota" error_string.

(** One second for each failed attempt whose error is a rate limit. *)
Definition short_pauses (atts : list (nat * GenOutcome)) : list nat :=
  flat_map (λ a, match a.2 with
                 | GenError msg => if rate_limited msg then [1%nat] else []
                 | GenText _ => []
                 end) atts.

(** The line printed for a failed attempt with the key at [i]. *)
Definition failure_line (env : Env) (i : nat) (msg : string) : string :=
  "Gemini key " +:+ str_of_key (nth i (gemini_api_keys env) None)
  +:+ " encountered an error: " +:+ msg.

Definition failure_lines (env : Env) (atts : list (nat * GenOutcome)) : list string :=
  omap (λ a, match a.2 with
             | GenError msg => Some (failure_line env a.1 msg)
             | GenText _ => None
             end) atts.

(** [m] takes every state to a state related to it by [R]. *)
Definition respects (R : World → World → Prop) {A} (m : M A) : Prop :=
  ∀ w, R w (m w).2.

(** The cursor points into the pool of keys. *)
Definition in_pool (env : Env) (w : World) : Prop :=
  (active_gemini_key_index w < length (gemini_api_keys env))%nat.

(** The state of the generator: the cursor and the count of attempts. *)
Definition same_generator_state (w w' : World) : Prop :=
  active_gemini_key_index w' = active_gemini_key_index w ∧
  generations w' = generations w.

(** From [w] to [w'] the run did nothing that [obs] sees. *)
Definition without {B} (obs : list Event → list B) (w w' : World) : Prop :=
  ∃ d, extends w w' d ∧ obs d = [].

(** From [w] to [w'] the trace was only added to. *)
Definition grows (w w' : World) : Prop := ∃ d, extends w w' d.

(** The subtask creations of a piece of trace, and the keys they produced. *)
Definition subtask_posts (evs : list Event) : list (pyval * Response) :=
  omap (λ x, match x.1 with
             | PostSubtask parent _ _ => Some (parent, x.2)
             | _ => None
             end) (exchanges evs).

Definition subtask_keys (evs : list Event) : list pyval :=
  omap (λ post, created_key post.2) (subtask_posts evs).

(** What the loop over [n] tasks stays within: its requests are issue
    creations and link requests, at most one creation per task, no more
    links than created keys, and one pause of a second per link request
    and no other pause. *)
Definition paced (n : nat) (d : list Event) : Prop :=
  length (exchanges d) = (length (issue_posts d) + length (link_attempts d))%nat ∧
  (length (issue_posts d) ≤ n)%nat ∧
  (length (link_attempts d) ≤ length (created_keys d))%nat ∧
  pauses d = replicate (length (link_attempts d)) 1%nat.

(** The requests of a piece of trace that are not [allowed]. *)
Definition outside (allowed : Request → bool) (evs : list Event)
  : list (Request * Response) :=
  List.filter (λ x, negb (allowed x.1)) (exchanges evs).

(** The requests of the task stage and those of the test-case stage. *)
Definition task_stage_request (req : Request) : bool :=
  match req with
  | GetLinkTypes | PostIssue _ _ | PostLink _ _ _ => true
  | _ => false
  end.

Definition subtask_request (req : Request) : bool :=
  match req with
  | PostSubtask _ _ _ => true
  | _ => false
  end.

(** ** The model on concrete inputs *)

Example find_first : Str.find "[" "ab[c[" = 2.
Proof. reflexivity. Qed.
Example rfind_last : Str.rfind "]" "a]b]c" = 3.
Proof. reflexivity. Qed.
Example rfind_none : Str.rfind "]" "abc" = -1.
Proof. reflexivity. Qed.
Example slice_mid : Str.slice 2 5 "ab[c]d" = "[c]".
Proof. reflexivity. Qed.
Example strip_both : Str.strip ("  a b " +:+ Str.nl) = "a b".
Proof. reflexivity. Qed.
Example contains_quota : Str.contains "quota" "exceeded quota today" = true.
Proof. reflexivity. Qed.
Example pretty_nat_ex : pretty (12%nat) = "12".
Proof. reflexivity. Qed.
Example loads_array :
  Json.loads ("[ {" +:+ Str.quoted "a" +:+ ":1} ]") = Ret (VList [VDict [("a", VInt 1)]]).
Proof. vm_compute. reflexivity. Qed.
Example loads_nested :
  Json.loads ("{" +:+ Str.quoted "k" +:+ ": [true, null, -12, " +:+ Str.quoted "x"
              +:+ "], " +:+ Str.quoted "k2" +:+ " : {} }")
  = Ret (VDict [("k", VList [VBool true; VNone; VInt (-12); VStr "x"]); ("k2", VDict [])]).
Proof. vm_compute. reflexivity. Qed.
Example loads_prose : Json.loads "not json" = Raise (JSONDecodeError "Expecting value").
Proof. vm_compute. reflexivity. Qed.
Example loads_trailing : Json.loads "[1] x" = Raise (JSONDecodeError "Extra data").
Proof. vm_compute. reflexivity. Qed.
Example str_list : Render.str (VList [VStr "a"; VInt 2; VNone]) = "['a', 2, None]".
Proof. vm_compute. reflexivity. Qed.

(** ** The key-rotating generator *)

Lemma attempts_app evs1 evs2 :
  attempts (evs1 ++ evs2) = (attempts evs1 ++ attempts evs2)%list.
Proof.
  induction evs1 as [|e evs1 IH]; [done|].
  destruct e; simpl; by rewrite ?IH.
Qed.

Lemma rotation_injective (n c j j' : nat) :
  (j < n)%nat → (j' < n)%nat → ((c + j) mod n = (c + j') mod n)%nat → j = j'.
Proof.
  intros Hj Hj' Heq.
  pose proof (Nat.div_mod_eq (c + j) n) as H1.
  pose proof (Nat.div_mod_eq (c + j') n) as H2.
  rewrite Heq in H1.
  generalize dependent ((c + j) / n)%nat. generalize dependent ((c + j') / n)%nat.
  intros q' H2 q H1.
  destruct (Nat.lt_trichotomy q q') as [Hlt|[->|Hlt]]; [|lia|].
  - assert (n * S q ≤ n * q')%nat by (apply Nat.mul_le_mono_l; lia). lia.
  - assert (n * S q' ≤ n * q)%nat by (apply Nat.mul_le_mono_l; lia). lia.
Qed.


Section Generator.

Variable env : Env.
Local Abbreviation N := (length (gemini_api_keys env)).

Lemma rotate_step c j : (((c + 1) mod N + j) mod N = (c + S j) mod N)%nat.
Proof.
  rewrite Nat.Div0.add_mod_idemp_l. f_equal. lia.
Qed.

Lemma attempt_at_next prompt_text c g j :
  attempt_at env prompt_text ((c + 1) mod N) (S g) j = attempt_at env prompt_text c g (S j).
Proof.
  unfold attempt_at. rewrite rotate_step. do 2 f_equal. lia.
Qed.

Lemma attempts_next prompt_text c g m :
  attempt_at env prompt_text ((c + 1) mod N) (S g) <$> seq 0 m
  = attempt_at env prompt_text c g <$> seq 1 m.
Proof.
  rewrite <- fmap_S_seq, <- list_fmap_compose. apply list_fmap_ext.
  intros _ j _. apply attempt_at_next.
Qed.

Lemma attempt_at_first prompt_text c g :
  (c < N)%nat →
  attempt_at env prompt_text c g 0
  = (c, gemini env g (nth c (gemini_api_keys env) None) prompt_text).
Proof.
  intros Hc. unfold attempt_at. by rewrite !Nat.add_0_r, Nat.mod_small.
Qed.

(** The loop, attempt by attempt: it makes [m <= remaining] attempts at
    consecutive cursor positions, all but the last one failing; it
    returns right after an attempt that answered, with the cursor on
    that key, and raises once [remaining] attempts have failed. *)
Lemma attempt_loop_run prompt_text start_index remaining :
  ∀ w r w', (active_gemini_key_index w < N)%nat →
  attempt_loop env remaining prompt_text start_index w = (r, w') →
  ∃ m d,
    (m ≤ remaining)%nat ∧
    trace w' = (trace w ++ d)%list ∧
    attempts d
      = attempt_at env prompt_text (active_gemini_key_index w) (generations w) <$> seq 0 m ∧
    requests w' = requests w ∧
    generations w' = (generations w + m)%nat ∧
    match r with
    | Ret t =>
        ∃ m', m = S m' ∧
          attempt_at env prompt_text (active_gemini_key_index w) (generations w) m'
            = (active_gemini_key_index w', GenText t) ∧
          last d = Some (EvGenerate (active_gemini_key_index w') (GenText t)) ∧
          Forall (λ a, is_text a.2 = false)
            (attempt_at env prompt_text (active_gemini_key_index w) (generations w)
               <$> seq 0 m')
    | Raise e =>
        e = exhausted ∧ m = remaining ∧
        active_gemini_key_index w'
          = ((active_gemini_key_index w + remaining) mod N)%nat ∧
        Forall (λ a, is_text a.2 = false)
          (attempt_at env prompt_text (active_gemini_key_index w) (generations w)
             <$> seq 0 m)
    end.
Proof.
  induction remaining as [|remaining IH]; intros w r w' Hc Hrun.
  - injection Hrun as <- <-. exists 0%nat, []. simpl.
    rewrite app_nil_r, Nat.mod_small by lia.
    repeat split; auto with lia.
  - destruct (lookup_lt_is_Some_2 _ _ Hc) as [key Hkey].
    assert (Hnth : nth (active_gemini_key_index w) (gemini_api_keys env) None = key).
    { by apply nth_lookup_Some with (d := None) in Hkey. }
    cbn [attempt_loop] in Hrun.
    unfold try_except, bind, initialize_gemini_model, current_key in Hrun.
    rewrite Hkey in Hrun. unfold generate_content in Hrun.
    destruct (gemini env (generations w) key prompt_text) as [t|msg] eqn:Ho.
    + injection Hrun as <- <-.
      exists 1%nat, [EvGenerate (active_gemini_key_index w) (GenText t)]. cbn.
      rewrite attempt_at_first, Hnth, Ho by done.
      repeat split; auto with lia.
      exists 0%nat. rewrite attempt_at_first, Hnth, Ho by done.
      repeat split; auto.
    + cbn [active_gemini_key_index generations requests trace] in Hrun.
      rewrite Hkey in Hrun.
      unfold print, sleep, emit, get_index, set_index, ret in Hrun.
      assert (Hnext : ((active_gemini_key_index w + 1) mod N < N)%nat)
        by (apply Nat.mod_upper_bound; lia).
      destruct (Str.contains "429" (exn_str (RemoteError msg))
                || Str.contains "quota" (exn_str (RemoteError msg)));
        cbn in Hrun;
        destruct (((active_gemini_key_index w + 1) mod N =? start_index)%nat);
        cbn in Hrun;
        apply IH in Hrun as (m & d & Hm & Htr & Hatt & Hreq & Hgen & Hres);
        cbn [active_gemini_key_index generations requests trace] in *;
        try done;
        (exists (S m); eexists; split; [lia|];
         split; [rewrite Htr, <- !app_assoc; reflexivity|];
         cbn [app attempts seq fmap list_fmap];
         rewrite Hatt, attempts_next, attempt_at_first, Hnth, Ho by done;
         split; [done|]; split; [done|]; split; [lia|];
         destruct r as [t|e];
         [ destruct Hres as (m' & -> & Htext & Hlast & Herr); exists (S m');
           rewrite <- attempt_at_next, Htext;
           split; [done|]; split; [done|];
           split; [by rewrite !last_cons, Hlast|];
           cbn [seq fmap list_fmap]; rewrite attempt_at_first, Hnth, Ho by done;
           constructor; [done|]; by rewrite <- attempts_next
         | destruct Hres as (-> & -> & Hidx & Herr);
           rewrite Hidx, rotate_step;
           split; [done|]; split; [done|]; split; [done|];
           constructor; [done|]; by rewrite <- attempts_next ]).
Qed.

Lemma generate_run prompt_text w r w' :
  (active_gemini_key_index w < N)%nat →
  generate_with_gemini_resilience env prompt_text w = (r, w') →
  ∃ m d,
    (m ≤ N)%nat ∧
    trace w' = (trace w ++ d)%list ∧
    attempts d
      = attempt_at env prompt_text (active_gemini_key_index w) (generations w) <$> seq 0 m ∧
    requests w' = requests w ∧
    generations w' = (generations w + m)%nat ∧
    match r with
    | Ret t =>
        ∃ m', m = S m' ∧
          attempt_at env prompt_text (active_gemini_key_index w) (generations w) m'
            = (active_gemini_key_index w', GenText t) ∧
          last d = Some (EvGenerate (active_gemini_key_index w') (GenText t)) ∧
          Forall (λ a, is_text a.2 = false)
            (attempt_at env prompt_text (active_gemini_key_index w) (generations w)
               <$> seq 0 m')
    | Raise e =>
        e = exhausted ∧ m = N ∧
        active_gemini_key_index w' = active_gemini_key_index w ∧
        Forall (λ a, is_text a.2 = false)
          (attempt_at env prompt_text (active_gemini_key_index w) (generations w)
             <$> seq 0 m)
    end.
Proof.
  intros Hc Hrun. unfold generate_with_gemini_resilience, bind, get_index in Hrun.
  apply attempt_loop_run in Hrun as (m & d & Hm & Htr & Hatt & Hreq & Hgen & Hres);
    [|done].
  exists m, d. repeat (split; [done|]).
  destruct r as [t|e]; [done|].
  destruct Hres as (-> & -> & Hidx & Herr). repeat (split; [done|]). split; [|done].
  rewrite Hidx. replace (active_gemini_key_index w + N)%nat
    with (active_gemini_key_index w + 1 * N)%nat by lia.
  rewrite Nat.Div0.mod_add. by apply Nat.mod_small.
Qed.

Lemma generate_keeps_cursor prompt_text w :
  (active_gemini_key_index w < N)%nat →
  (active_gemini_key_index (generate_with_gemini_resilience env prompt_text w).2 < N)%nat.
Proof.
  intros Hc.
  destruct (generate_with_gemini_resilience env prompt_text w) as [r w'] eqn:Hrun.
  apply generate_run in Hrun as (m & d & _ & _ & _ & _ & _ & Hres); [|done].
  destruct r as [t|e]; cbn.
  - destruct Hres as (m' & _ & Hat & _). injection Hat as <- _.
    apply Nat.mod_upper_bound. lia.
  - destruct Hres as (_ & _ & -> & _). done.
Qed.





(** The first attempt of a call that answers ends the call. *)
Lemma generate_first_answer prompt_text w j t :
  (active_gemini_key_index w < N)%nat → (j < N)%nat →
  Forall (λ a, is_text a.2 = false)
    (attempt_at env prompt_text (active_gemini_key_index w) (generations w) <$> seq 0 j) →
  (attempt_at env prompt_text (active_gemini_key_index w) (generations w) j).2 = GenText t →
  ∃ w' d,
    generate_with_gemini_resilience env prompt_text w = (Ret t, w') ∧
    trace w' = (trace w ++ d)%list ∧
    attempts d
      = attempt_at env prompt_text (active_gemini_key_index w) (generations w)
          <$> seq 0 (S j) ∧
    last d = Some (EvGenerate ((active_gemini_key_index w + j) mod N)%nat (GenText t)) ∧
    active_gemini_key_index w' = ((active_gemini_key_index w + j) mod N)%nat.
Proof.
  intros Hc Hj Hfail Hanswer.
  destruct (generate_with_gemini_resilience env prompt_text w) as [r w'] eqn:Hrun.
  apply generate_run in Hrun as (m & d & Hm & Htr & Hatt & _ & _ & Hres); [|done].
  assert (Hat : ∀ l i, (i < l)%nat →
            Forall (λ a, is_text a.2 = false)
              (attempt_at env prompt_text (active_gemini_key_index w) (generations w)
                 <$> seq 0 l) →
            is_text (attempt_at env prompt_text (active_gemini_key_index w)
                       (generations w) i).2 = false).
  { intros l i Hi Hall. apply (proj1 (Forall_forall _ _) Hall).
    apply list_elem_of_fmap. exists i. split; [done|]. apply elem_of_seq. lia. }
  destruct r as [t'|e].
  - destruct Hres as (m' & -> & Htext & Hlast & Herr).
    assert (m' = j) as ->.
    { destruct (Nat.lt_trichotomy m' j) as [Hlt|[->|Hlt]]; [|done|].
      - pose proof (Hat j m' Hlt Hfail) as Hno. by rewrite Htext in Hno.
      - pose proof (Hat m' j Hlt Herr) as Hno. by rewrite Hanswer in Hno. }
    rewrite Htext in Hanswer. injection Hanswer as ->.
    assert (Hidx : active_gemini_key_index w'
                   = ((active_gemini_key_index w + j) mod N)%nat)
      by (by injection Htext as <- _).
    exists w', d. rewrite <- Hidx. by repeat split.
  - destruct Hres as (_ & -> & _ & Herr).
    pose proof (Hat N j Hj Herr) as Hno. by rewrite Hanswer in Hno.
Qed.

(** A call whose attempts all fail, one per key, raises after them. *)
Lemma generate_exhausts prompt_text w :
  (active_gemini_key_index w < N)%nat →
  Forall (λ a, is_text a.2 = false)
    (attempt_at env prompt_text (active_gemini_key_index w) (generations w) <$> seq 0 N) →
  ∃ w' d,
    generate_with_gemini_resilience env prompt_text w = (Raise exhausted, w') ∧
    trace w' = (trace w ++ d)%list ∧
    attempts d
      = attempt_at env prompt_text (active_gemini_key_index w) (generations w)
          <$> seq 0 N.
Proof.
  intros Hc Hfail.
  destruct (generate_with_gemini_resilience env prompt_text w) as [r w'] eqn:Hrun.
  apply generate_run in Hrun as (m & d & Hm & Htr & Hatt & _ & _ & Hres); [|done].
  destruct r as [t|e].
  - destruct Hres as (m' & -> & Htext & _).
    assert (Hno : is_text (attempt_at env prompt_text (active_gemini_key_index w)
                             (generations w) m').2 = false).
    { apply (proj1 (Forall_forall _ _) Hfail). apply list_elem_of_fmap.
      exists m'. split; [done|]. apply elem_of_seq. lia. }
    by rewrite Htext in Hno.
  - destruct Hres as (-> & -> & _). by exists w', d.
Qed.

(** C8. The first attempt of a call that answers ends the call: the call
    returns the text of that attempt, made no attempt after it, and has
    that attempt as the last thing it did, with the shared cursor on the
    key it used (it is not put back on the first key). Conversely a call
    that returns a text returns the text of its last attempt, every
    earlier attempt having failed. When the first attempt answers, the
    cursor is the one of call entry. The next call makes its first
    attempt with the key the cursor was left on. *)
Theorem success_leaves_cursor_on_key prompt_text w :
  (active_gemini_key_index w < N)%nat →
  (∀ j t,
     (j < N)%nat →
     Forall (λ a, is_text a.2 = false)
       (attempt_at env prompt_text (active_gemini_key_index w) (generations w)
          <$> seq 0 j) →
     (attempt_at env prompt_text (active_gemini_key_index w) (generations w) j).2
       = GenText t →
     ∃ w' d,
       generate_with_gemini_resilience env prompt_text w = (Ret t, w') ∧
       trace w' = (trace w ++ d)%list ∧
       attempts d
         = attempt_at env prompt_text (active_gemini_key_index w) (generations w)
             <$> seq 0 (S j) ∧
       last d = Some (EvGenerate ((active_gemini_key_index w + j) mod N)%nat
                        (GenText t)) ∧
       active_gemini_key_index w' = ((active_gemini_key_index w + j) mod N)%nat) ∧
  (∀ t w',
     generate_with_gemini_resilience env prompt_text w = (Ret t, w') →
     (∃ d j,
        (j < N)%nat ∧
        trace w' = (trace w ++ d)%list ∧
        attempts d
          = attempt_at env prompt_text (active_gemini_key_index w) (generations w)
              <$> seq 0 (S j) ∧
        Forall (λ a, is_text a.2 = false)
          (attempt_at env prompt_text (active_gemini_key_index w) (generations w)
             <$> seq 0 j) ∧
        attempt_at env prompt_text (active_gemini_key_index w) (generations w) j
          = (active_gemini_key_index w', GenText t) ∧
        last d = Some (EvGenerate (active_gemini_key_index w') (GenText t)) ∧
        active_gemini_key_index w' = ((active_gemini_key_index w + j) mod N)%nat ∧
        length (attempts d) = S j) ∧
     (is_text (gemini env (generations w)
                 (nth (active_gemini_key_index w) (gemini_api_keys env) None)
                 prompt_text) = true →
      active_gemini_key_index w' = active_gemini_key_index w) ∧
     (∀ next_prompt r'' w'',
        generate_with_gemini_resilience env next_prompt w' = (r'', w'') →
        ∃ d' o rest, trace w'' = (trace w' ++ d')%list ∧
                     attempts d' = (active_gemini_key_index w', o) :: rest)).
Proof.
  intros Hc. split; [intros j t; by apply generate_first_answer|].
  intros t w' Hrun.
  pose proof (generate_keeps_cursor prompt_text w Hc) as Hc'. rewrite Hrun in Hc'.
  cbn in Hc'.
  apply generate_run in Hrun as (m & d & Hm & Htr & Hatt & _ & _ & Hres); [|done].
  destruct Hres as (m' & -> & Hat & Hlast & Herr).
  split; [|split].
  - exists d, m'. split; [lia|]. do 5 (split; [done|]).
    split; [by injection Hat as <- _|].
    by rewrite Hatt, length_fmap, length_seq.
  - intros Hfirst. destruct m' as [|m'].
    + rewrite attempt_at_first in Hat by done. by injection Hat as <- _.
    + cbn [seq fmap list_fmap] in Herr. apply Forall_cons_1 in Herr as [Herr _].
      rewrite attempt_at_first in Herr by done. cbn in Herr. congruence.
  - intros next_prompt r'' w'' Hnext.
    apply generate_run in Hnext as (m2 & d' & _ & Htr' & Hatt' & _ & _ & Hres'); [|done].
    assert (∃ m3, m2 = S m3) as [m3 ->].
    { destruct r''; [destruct Hres' as (m3 & -> & _); eauto|].
      destruct Hres' as (_ & -> & _). exists (pred N). lia. }
    exists d'. eexists _, _. split; [done|]. rewrite Hatt'.
    cbn [seq fmap list_fmap]. by rewrite attempt_at_first.
Qed.

End Generator.


(** Key 0 is over quota and key 1 answers: the call returns the answer
    of key 1 after two attempts and the cursor stays on key 1. *)
Lemma success_leaves_cursor_on_key_witness :
  ∃ w' d,
    generate_with_gemini_resilience Scenario.second_key_answers "p" initial_world
      = (Ret "[]", w') ∧
    trace w' = (trace initial_world ++ d)%list ∧
    attempts d = [(0%nat, GenError "429 quota exceeded"); (1%nat, GenText "[]")] ∧
    last d = Some (EvGenerate 1 (GenText "[]")) ∧
    active_gemini_key_index w' = 1%nat.
Proof.
  apply (proj1 (success_leaves_cursor_on_key Scenario.second_key_answers "p"
                  initial_world ltac:(cbn; lia))
           1%nat "[]").
  - cbn. lia.
  - by repeat constructor.
  - reflexivity.
Defined.

(** ** The response parser *)

Lemma append_cons (x : ascii) (a b : string) : String x a +:+ b = String x (a +:+ b).
Proof. reflexivity. Qed.

Lemma append_nil (b : string) : "" +:+ b = b.
Proof. reflexivity. Qed.

Lemma append_assoc (a b c : string) : (a +:+ b) +:+ c = a +:+ (b +:+ c).
Proof.
  induction a as [|x a IH]; [done|]. rewrite !append_cons. by rewrite IH.
Qed.

Lemma append_length (a b : string) :
  String.length (a +:+ b) = (String.length a + String.length b)%nat.
Proof.
  induction a as [|x a IH]; [done|]. rewrite append_cons. cbn [String.length].
  by rewrite IH.
Qed.

Lemma find_lower c s : -1 ≤ Str.find c s.
Proof.
  induction s as [|a s IH]; simpl; [lia|].
  destruct (Ascii.eqb a c); [lia|]. destruct (Z.eqb_spec (Str.find c s) (-1)); lia.
Qed.

Lemma rfind_lower c s : -1 ≤ Str.rfind c s.
Proof.
  induction s as [|a s IH]; simpl; [lia|].
  destruct (Z.eqb_spec (Str.rfind c s) (-1)); [|lia]. destruct (Ascii.eqb a c); lia.
Qed.

(** The first [c] of [pre + c + rest] is at [len(pre)] when [pre] has none. *)
Lemma find_first_occurrence c pre rest :
  Str.find c pre = -1 →
  Str.find c (pre +:+ String c rest) = Z.of_nat (String.length pre).
Proof.
  induction pre as [|a pre IH]; intros Hpre.
  - rewrite append_nil. simpl. by rewrite Ascii.eqb_refl.
  - rewrite append_cons. simpl in *. destruct (Ascii.eqb a c); [done|].
    destruct (Z.eqb_spec (Str.find c pre) (-1)) as [Hnone|Hsome].
    + rewrite IH by done. destruct (Z.eqb_spec (Z.of_nat (String.length pre)) (-1)); lia.
    + pose proof (find_lower c pre). lia.
Qed.

(** The last [c] of [s + c + post] is at [len(s)] when [post] has none. *)
Lemma rfind_last_occurrence c s post :
  Str.rfind c post = -1 →
  Str.rfind c (s +:+ String c post) = Z.of_nat (String.length s).
Proof.
  intros Hpost. induction s as [|a s IH].
  - rewrite append_nil. simpl. by rewrite Hpost, Ascii.eqb_refl.
  - rewrite append_cons. simpl. rewrite IH.
    destruct (Z.eqb_spec (Z.of_nat (String.length s)) (-1)); lia.
Qed.

Lemma substring_prefix (x post : string) :
  substring 0 (String.length x) (x +:+ post) = x.
Proof.
  induction x as [|a x IH]; [by destruct post|].
  rewrite append_cons. simpl. by rewrite IH.
Qed.

Lemma substring_middle (pre x post : string) :
  substring (String.length pre) (String.length x) (pre +:+ x +:+ post) = x.
Proof.
  induction pre as [|a pre IH]; [rewrite append_nil; apply substring_prefix|].
  rewrite append_cons. simpl. done.
Qed.

Lemma slice_bracketed (pre mid post : string) :
  Str.slice (Z.of_nat (String.length pre))
    (Z.of_nat (String.length (pre +:+ String "[" mid)) + 1)
    (pre +:+ String "[" (mid +:+ String "]" post))
  = String "[" (mid +:+ "]").
Proof.
  unfold Str.slice. rewrite append_length. cbn [String.length].
  replace (Z.to_nat _) with (String.length pre) by lia.
  replace (Z.to_nat _) with (String.length (String "[" (mid +:+ "]")))
    by (cbn [String.length]; rewrite append_length; cbn [String.length]; lia).
  replace (String "[" (mid +:+ String "]" post))
    with (String "[" (mid +:+ "]") +:+ post)
    by (change (String "]" post) with ("]" +:+ post);
        by rewrite <- append_assoc).
  apply substring_middle.
Qed.

Lemma bracketed_assoc (pre mid post : string) :
  pre +:+ String "[" (mid +:+ String "]" post)
  = (pre +:+ String "[" mid) +:+ String "]" post.
Proof. by rewrite append_assoc, append_cons. Qed.

(** With a bracket pair, the parser hands [json.loads] the text from the
    first opening to the last closing bracket. *)
Lemma parse_bracketed env (pre mid post : string) w :
  Str.find "[" pre = -1 → Str.rfind "]" post = -1 →
  parse_json_from_text env (pre +:+ String "[" (mid +:+ String "]" post)) w
  = try_except_decode (lift (json_loads env (String "[" (mid +:+ "]"))))
      (λ e, bind (print ("JSON parsing error: " +:+ e +:+ Str.nl +:+ "Raw text received: "
                         +:+ (pre +:+ String "[" (mid +:+ String "]" post))))
                 (λ _, ret VNone)) w.
Proof.
  intros Hpre Hpost. unfold parse_json_from_text.
  assert (Hrfind : Str.rfind "]" (pre +:+ String "[" (mid +:+ String "]" post))
                   = Z.of_nat (String.length (pre +:+ String "[" mid))).
  { rewrite bracketed_assoc. by apply rfind_last_occurrence. }
  rewrite find_first_occurrence, Hrfind, slice_bracketed by done.
  destruct (Z.eqb_spec (Z.of_nat (String.length pre)) (-1)); [lia|].
  rewrite append_length. cbn [String.length negb andb].
  destruct (Z.gtb_spec (Z.of_nat (String.length pre + S (String.length mid)) + 1)
              (Z.of_nat (String.length pre))); [done|lia].
Qed.

(** Without one, it hands it the whole text. *)
Lemma parse_whole env (raw_text : string) w :
  Str.find "[" raw_text = -1 ∨ Str.rfind "]" raw_text < Str.find "[" raw_text →
  parse_json_from_text env raw_text w
  = try_except_decode (lift (json_loads env raw_text))
      (λ e, bind (print ("JSON parsing error: " +:+ e +:+ Str.nl +:+ "Raw text received: "
                         +:+ raw_text))
                 (λ _, ret VNone)) w.
Proof.
  intros Hnone. unfold parse_json_from_text.
  destruct (Z.eqb_spec (Str.find "[" raw_text) (-1)); [done|].
  destruct (Z.gtb_spec (Str.rfind "]" raw_text + 1) (Str.find "[" raw_text)); [lia|done].
Qed.

Lemma decode_handled {A} (r : result A) (handler : string → M A) w :
  (∀ a, r = Ret a → try_except_decode (lift r) handler w = (Ret a, w)) ∧
  (∀ msg, r = Raise (JSONDecodeError msg) →
     try_except_decode (lift r) handler w = handler msg w) ∧
  (∀ e, r = Raise e → (∀ msg, e ≠ JSONDecodeError msg) →
     try_except_decode (lift r) handler w = (Raise e, w)).
Proof.
  unfold try_except_decode, lift. split; [|split].
  - by intros a ->.
  - by intros msg ->.
  - intros e -> He. destruct e; try done. by destruct (He msg).
Qed.

Lemma parse_never_raises_decode env raw_text w msg :
  (parse_json_from_text env raw_text w).1 ≠ Raise (JSONDecodeError msg).
Proof.
  unfold parse_json_from_text, try_except_decode, lift.
  repeat case_match; simplify_eq; done.
Qed.

(** C5. When the text has an opening bracket with a closing bracket after
    it, the parser decodes the text from the first opening to the last
    closing bracket, both included; otherwise it decodes the whole text. A
    decoded value is returned as it is; a decode error gives [None], and
    no decode error ever leaves the parser. With [json.loads] as decoder:
    the noisy array, the bare object and the prose of the specification. *)
Theorem parse_json_from_text_policy env w :
  (∀ pre mid post,
     Str.find "[" pre = -1 → Str.rfind "]" post = -1 →
     let raw_text := pre +:+ String "[" (mid +:+ String "]" post) in
     let json_string := String "[" (mid +:+ "]") in
     (∀ v, json_loads env json_string = Ret v →
           parse_json_from_text env raw_text w = (Ret v, w)) ∧
     (∀ msg, json_loads env json_string = Raise (JSONDecodeError msg) →
             (parse_json_from_text env raw_text w).1 = Ret VNone)) ∧
  (∀ raw_text,
     Str.find "[" raw_text = -1 ∨ Str.rfind "]" raw_text < Str.find "[" raw_text →
     (∀ v, json_loads env raw_text = Ret v →
           parse_json_from_text env raw_text w = (Ret v, w)) ∧
     (∀ msg, json_loads env raw_text = Raise (JSONDecodeError msg) →
             (parse_json_from_text env raw_text w).1 = Ret VNone)) ∧
  (∀ raw_text msg,
     (parse_json_from_text env raw_text w).1 ≠ Raise (JSONDecodeError msg)) ∧
  parse_json_from_text ParseExample.env ParseExample.noisy initial_world
    = (Ret (VList [VDict [("a", VInt 1)]]), initial_world) ∧
  parse_json_from_text ParseExample.env ParseExample.bare_object initial_world
    = (Ret (VDict [("a", VInt 1)]), initial_world) ∧
  (parse_json_from_text ParseExample.env ParseExample.prose initial_world).1
    = Ret VNone.
Proof.
  split; [|split; [|split; [|split; [|split]]]].
  - intros pre mid post Hpre Hpost raw_text json_string. subst raw_text json_string.
    rewrite parse_bracketed by done. split.
    + intros v Hv. by apply decode_handled.
    + intros msg Hmsg.
      by erewrite (proj1 (proj2 (decode_handled _ _ _))) by exact Hmsg.
  - intros raw_text Hnone. rewrite parse_whole by done. split.
    + intros v Hv. by apply decode_handled.
    + intros msg Hmsg.
      by erewrite (proj1 (proj2 (decode_handled _ _ _))) by exact Hmsg.
  - intros raw_text msg. apply parse_never_raises_decode.
  - vm_compute. reflexivity.
  - vm_compute. reflexivity.
  - vm_compute. reflexivity.
Qed.

(** The policy on the noisy array of the specification. *)
Lemma parse_json_from_text_policy_witness :
  parse_json_from_text ParseExample.env
    ("noise " +:+ String "[" ((" {" +:+ Str.quoted "a" +:+ ":1} ") +:+ String "]" " trailing"))
    initial_world
  = (Ret (VList [VDict [("a", VInt 1)]]), initial_world).
Proof.
  apply (proj1 (parse_json_from_text_policy ParseExample.env initial_world)
           "noise " (" {" +:+ Str.quoted "a" +:+ ":1} ") " trailing").
  - reflexivity.
  - reflexivity.
  - vm_compute. reflexivity.
Defined.

(** ** The tracker client *)




(** ** Traces of the tracker operations *)

Lemma exchanges_app evs1 evs2 :
  exchanges (evs1 ++ evs2) = (exchanges evs1 ++ exchanges evs2)%list.
Proof.
  induction evs1 as [|e evs1 IH]; [done|].
  destruct e; simpl; by rewrite ?IH.
Qed.

Lemma issue_posts_app evs1 evs2 :
  issue_posts (evs1 ++ evs2) = (issue_posts evs1 ++ issue_posts evs2)%list.
Proof. unfold issue_posts. by rewrite exchanges_app, omap_app. Qed.

Lemma created_keys_app evs1 evs2 :
  created_keys (evs1 ++ evs2) = (created_keys evs1 ++ created_keys evs2)%list.
Proof. unfold created_keys. by rewrite issue_posts_app, omap_app. Qed.

Lemma link_attempts_app evs1 evs2 :
  link_attempts (evs1 ++ evs2) = (link_attempts evs1 ++ link_attempts evs2)%list.
Proof. unfold link_attempts. by rewrite exchanges_app, omap_app. Qed.

Lemma extends_refl w : extends w w [].
Proof. unfold extends. by rewrite app_nil_r. Qed.

Lemma extends_trans w1 w2 w3 d1 d2 :
  extends w1 w2 d1 → extends w2 w3 d2 → extends w1 w3 (d1 ++ d2).
Proof. unfold extends. intros H1 H2. by rewrite H2, H1, app_assoc. Qed.

Section Tracker.

Variable env : Env.

Lemma create_jira_issue_run title description w :
  ∃ d w',
    create_jira_issue env title description w
      = (created_key_of (jira env (requests w) (PostIssue title description)), w') ∧
    extends w w' d ∧
    exchanges d = [(PostIssue title description,
                    jira env (requests w) (PostIssue title description))].
Proof.
  unfold create_jira_issue, created_key_of, bind, http, lift, print, emit, ret, extends.
  cbn [requests trace active_gemini_key_index generations].
  destruct (status_code _ =? 201).
  - destruct (json _) as [body|e]; cbn [rbind].
    + destruct (Py.getitem body "key") as [key|e]; eexists _, _;
        (split; [reflexivity|]); cbn [trace]; rewrite <- ?app_assoc;
        (split; [reflexivity|]); done.
    + eexists _, _. split; [reflexivity|]. split; [reflexivity|]. done.
  - eexists _, _. split; [reflexivity|]. cbn [trace]. rewrite <- ?app_assoc.
    split; [reflexivity|]. done.
Qed.

Lemma create_jira_child_issue_run parent title description w :
  ∃ d w',
    create_jira_child_issue env parent title description w
      = (created_key_of (jira env (requests w) (PostSubtask parent title description)), w') ∧
    extends w w' d ∧
    exchanges d = [(PostSubtask parent title description,
                    jira env (requests w) (PostSubtask parent title description))].
Proof.
  unfold create_jira_child_issue, created_key_of, bind, http, lift, print, emit, ret, extends.
  cbn [requests trace active_gemini_key_index generations].
  destruct (status_code _ =? 201).
  - destruct (json _) as [body|e]; cbn [rbind].
    + destruct (Py.getitem body "key") as [key|e]; eexists _, _;
        (split; [reflexivity|]); cbn [trace]; rewrite <- ?app_assoc;
        (split; [reflexivity|]); done.
    + eexists _, _. split; [reflexivity|]. split; [reflexivity|]. done.
  - eexists _, _. split; [reflexivity|]. cbn [trace]. rewrite <- ?app_assoc.
    split; [reflexivity|]. done.
Qed.

Lemma link_jira_issues_run source target relationship w :
  ∃ d w' b,
    link_jira_issues env source target relationship w = (Ret (VBool b), w') ∧
    extends w w' d ∧
    exchanges d = [(PostLink source target relationship,
                    jira env (requests w) (PostLink source target relationship))].
Proof.
  unfold link_jira_issues, bind, http, lift, print, emit, ret, extends.
  cbn [requests trace active_gemini_key_index generations].
  destruct (status_code _ =? 201); eexists _, _, _;
    (split; [reflexivity|]); cbn [trace]; rewrite <- ?app_assoc;
    (split; [reflexivity|]); done.
Qed.

(** A loop whose rounds make no request makes none. *)
Lemma for_each_quiet {A} (body : A → M unit) (items : list A) :
  (∀ x w, ∃ d, extends w (body x w).2 d ∧ exchanges d = []) →
  ∀ w, ∃ d, extends w (for_each body items w).2 d ∧ exchanges d = [].
Proof.
  intros Hbody. induction items as [|x items IH]; intros w.
  - exists []. split; [apply extends_refl|done].
  - cbn [for_each]. unfold bind.
    destruct (Hbody x w) as (d1 & Hd1 & Hq1).
    destruct (body x w) as [[[]|e] w1]; cbn [snd] in *.
    + destruct (IH w1) as (d2 & Hd2 & Hq2). exists (d1 ++ d2)%list.
      split; [by eapply extends_trans|]. by rewrite exchanges_app, Hq1, Hq2.
    + by exists d1.
Qed.

Lemma print_issue_quiet issue w :
  ∃ d, extends w (print_issue env issue w).2 d ∧ exchanges d = [].
Proof.
  unfold print_issue, bind, lift, print, emit, ret, extends.
  repeat (case_match; simplify_eq; cbn [snd trace]);
    first [ by exists []; rewrite app_nil_r | by eexists [_] ].
Qed.

Lemma print_link_type_quiet link_type w :
  ∃ d, extends w (print_link_type env link_type w).2 d ∧ exchanges d = [].
Proof.
  unfold print_link_type, bind, lift, print, emit, ret, extends.
  repeat (case_match; simplify_eq; cbn [snd trace]);
    first [ by exists []; rewrite app_nil_r | by eexists [_] ].
Qed.

(** The report makes one request, the search, whatever comes of it. *)
Lemma get_project_issues_run w :
  ∃ d, extends w (get_project_issues env w).2 d ∧
       exchanges d = [(GetSearch, jira env (requests w) GetSearch)].
Proof.
  unfold get_project_issues, bind, http, lift, print, emit, ret, extends.
  cbn [requests trace active_gemini_key_index generations].
  destruct (status_code _ =? 200); cbn [snd trace].
  - destruct (json _) as [body|e]; [|by eexists [_]].
    destruct (Py.get body "issues" (VList [])) as [issues_data|e]; [|by eexists [_]].
    destruct (Py.len issues_data) as [n|e]; [|by eexists [_]].
    destruct (Py.iter issues_data) as [issues|e]; cbn [snd trace];
      [|eexists [_; _]; by rewrite <- app_assoc].
    match goal with |- context [for_each ?b ?l ?w0] =>
      destruct (for_each_quiet b l (print_issue_quiet) w0) as (d & Hd & Hq);
      destruct (for_each b l w0) as [[[]|e] w1] end;
      cbn [snd trace] in *; unfold extends in Hd; cbn [trace] in Hd;
      (eexists (_ :: _ :: d); split;
       [rewrite Hd, <- !app_assoc; reflexivity | cbn; by rewrite Hq]).
  - eexists [_; _]. by rewrite <- app_assoc.
Qed.

Lemma get_jira_issue_link_types_run w :
  ∃ d, extends w (get_jira_issue_link_types env w).2 d ∧
       exchanges d = [(GetLinkTypes, jira env (requests w) GetLinkTypes)].
Proof.
  unfold get_jira_issue_link_types, bind, http, lift, print, emit, ret, extends.
  cbn [requests trace active_gemini_key_index generations].
  destruct (status_code _ =? 200); cbn [snd trace].
  - destruct (json _) as [body|e]; [|by eexists [_]].
    destruct (Py.get body "issueLinkTypes" (VList [])) as [data|e]; [|by eexists [_]].
    destruct (Py.iter data) as [items|e]; cbn [snd trace];
      [|eexists [_; _]; by rewrite <- app_assoc].
    match goal with |- context [for_each ?b ?l ?w0] =>
      destruct (for_each_quiet b l (print_link_type_quiet) w0) as (d & Hd & Hq);
      destruct (for_each b l w0) as [[[]|e] w1] end;
      cbn [snd trace] in *; unfold extends in Hd; cbn [trace] in Hd;
      (eexists (_ :: _ :: d); split;
       [rewrite Hd, <- !app_assoc; reflexivity | cbn; by rewrite Hq]).
  - eexists [_; _]. by rewrite <- app_assoc.
Qed.

End Tracker.

(** ** Creating and linking the tasks *)

Lemma posted_issue_only title description response d :
  exchanges d = [(PostIssue title description, response)] →
  issue_posts d = [(title, response)] ∧
  created_keys d = from_option (λ k, [k]) [] (created_key response) ∧
  link_attempts d = [].
Proof.
  intros Hex. unfold created_keys, issue_posts, link_attempts. rewrite Hex. cbn.
  by destruct (created_key response).
Qed.

Lemma posted_link_only outward inward type_name response d :
  exchanges d = [(PostLink outward inward type_name, response)] →
  issue_posts d = [] ∧ created_keys d = [] ∧
  link_attempts d = [(outward, inward, type_name)].
Proof.
  intros Hex. unfold created_keys, issue_posts, link_attempts. by rewrite Hex.
Qed.

Lemma tasks_created_cons task rest post d d' :
  issue_posts d = post :: issue_posts d' →
  tasks_created (task :: rest) d
  = (match created_key post.2 with Some _ => [task] | None => [] end
     ++ tasks_created rest d')%list.
Proof.
  intros Hposts. unfold tasks_created. rewrite Hposts. cbn.
  by destruct (created_key post.2).
Qed.

Lemma getitem_truthy task field v :
  Py.getitem task field = Ret v → Py.truthy task = true.
Proof.
  destruct task as [| | | | |d]; try done. by destruct d.
Qed.

Lemma mapping_step (older mapping : gmap Py.key pyval) kk task rest kks :
  dom mapping = dom (<[kk:=task]> older) ∪ list_to_set kks →
  (∀ x, x ∈ kks → ∃ t, t ∈ rest ∧ mapping !! x = Some t) →
  (∀ x, x ∉ kks → mapping !! x = <[kk:=task]> older !! x) →
  dom mapping = dom older ∪ list_to_set (kk :: kks) ∧
  (∀ x, x ∈ kk :: kks → ∃ t, t ∈ task :: rest ∧ mapping !! x = Some t) ∧
  (∀ x, x ∉ kk :: kks → mapping !! x = older !! x).
Proof.
  intros Hdom Hin Hout. split; [|split].
  - rewrite Hdom, dom_insert_L. set_solver.
  - intros x Hx. destruct (decide (x ∈ kks)) as [Hold|Hnew].
    + destruct (Hin x Hold) as (t & Ht & Hlook). exists t. split; [by right|done].
    + assert (x = kk) as -> by set_solver.
      exists task. split; [by left|]. by rewrite Hout, lookup_insert_eq.
  - intros x Hx. rewrite Hout by set_solver. apply lookup_insert_ne. set_solver.
Qed.

Section Tasks.

Variable env : Env.
Variables parent_ticket_key link_type_to_use : pyval.

Local Abbreviation tasks_outcome := (loop_outcome parent_ticket_key link_type_to_use).

Lemma create_tasks_run tasks :
  ∀ acc w r w',
    create_tasks env parent_ticket_key link_type_to_use tasks acc w = (r, w') →
    ∃ d,
      extends w w' d ∧
      (Py.truthy link_type_to_use = false → link_attempts d = []) ∧
      (∀ keys mapping, r = Ret (keys, mapping) → tasks_outcome tasks acc d keys mapping).
Proof.
  induction tasks as [|task rest IH]; intros acc w r w' Hrun.
  - injection Hrun as <- <-.
    exists []. split; [apply extends_refl|]. split; [done|].
    intros keys mapping [= ->]. unfold loop_outcome. cbn.
    rewrite app_nil_r. repeat split; try done; [by destruct (Py.truthy _)|].
    exists []. split; [constructor|]. split; [set_solver|].
    split; [intros kk Hkk; inversion Hkk|]. split; [done|]. intros _. constructor.
  - cbn [create_tasks] in Hrun. unfold bind at 1 2 3 4, lift in Hrun.
    destruct (Py.getitem task "summary") as [summary|e] eqn:Hsummary;
      [|injection Hrun as <- <-; exists []; split; [apply extends_refl|]; by split].
    destruct (Py.getitem task "category") as [category|e];
      [|injection Hrun as <- <-; exists []; split; [apply extends_refl|]; by split].
    destruct (Py.getitem task "component") as [component|e];
      [|injection Hrun as <- <-; exists []; split; [apply extends_refl|]; by split].
    destruct (Py.getitem task "title") as [title|e] eqn:Htitle;
      [|injection Hrun as <- <-; exists []; split; [apply extends_refl|]; by split].
    unfold bind at 1 in Hrun.
    match type of Hrun with context [create_jira_issue env title ?desc w] =>
      destruct (create_jira_issue_run env title desc w) as (d1 & w1 & Hrun1 & Hext1 & Hex1);
      rewrite Hrun1 in Hrun;
      apply posted_issue_only in Hex1 as (Hposts1 & Hkeys1 & Hlinks1);
      set (response := jira env (requests w) (PostIssue title desc)) in *
    end.
    assert (Hcreated : created_key response
                       = match created_key_of response with
                         | Ret key => if Py.truthy key then Some key else None
                         | Raise _ => None
                         end) by done.
    destruct (created_key_of response) as [k|e];
      [|injection Hrun as <- <-; exists d1; split; [done|]; by split].
    destruct (Py.truthy k) eqn:Hk; rewrite Hcreated in Hkeys1;
      cbn [from_option] in Hkeys1.
    + unfold bind at 1, lift in Hrun.
      destruct (Py.hash k) as [kk|e] eqn:Hhash;
        [|injection Hrun as <- <-; exists d1; split; [done|]; by split].
      destruct (Py.truthy link_type_to_use) eqn:Hlt.
      * unfold bind, sleep, emit in Hrun.
        match type of Hrun with context [link_jira_issues env ?a ?b ?c ?w0] =>
          destruct (link_jira_issues_run env a b c w0)
            as (d2 & w2 & linked & Hrun2 & Hext2 & Hex2);
          rewrite Hrun2 in Hrun;
          apply posted_link_only in Hex2 as (Hposts2 & Hkeys2 & Hlinks2)
        end.
        unfold ret in Hrun.
        apply IH in Hrun as (d3 & Hext3 & Hno3 & Hret3).
        exists (d1 ++ [EvSleep 1] ++ d2 ++ d3)%list. split.
        { eapply extends_trans; [done|].
          eapply (extends_trans _ _ _ [EvSleep 1]); [|by eapply extends_trans].
          done. }
        split; [congruence|].
        intros keys mapping Hret.
        destruct (Hret3 keys mapping Hret)
          as (Hp & Hkeys & Hlinks & Htruthy & kks & Hh & Hdom & Hin & Hout & Hexact).
        cbn [fst snd] in *. unfold loop_outcome.
        rewrite (tasks_created_cons task rest (title, response) _ d3)
          by (by rewrite !issue_posts_app, Hposts1, Hposts2).
        rewrite !issue_posts_app, !created_keys_app, !link_attempts_app,
          Hposts1, Hkeys1, Hlinks1, Hposts2, Hkeys2, Hlinks2, Hlinks, Hlt.
        cbn [app fmap list_fmap snd]. rewrite Hcreated. cbn [app].
        split; [by constructor|]. split; [by rewrite Hkeys, <- app_assoc|].
        split; [done|].
        split; [constructor; [by eapply getitem_truthy|done]|].
        exists (kk :: kks). split; [by constructor|].
        destruct (mapping_step _ _ _ _ _ _ Hdom Hin Hout) as (Hdom' & Hin' & Hout').
        repeat (split; [done|]).
        intros [Hfresh Hnodup]%NoDup_cons. constructor; [|by apply Hexact].
        by rewrite Hout, lookup_insert_eq.
      * unfold bind, ret in Hrun.
        apply IH in Hrun as (d3 & Hext3 & Hno3 & Hret3).
        exists (d1 ++ d3)%list. split; [by eapply extends_trans|].
        split; [intros _; by rewrite link_attempts_app, Hlinks1, Hno3|].
        intros keys mapping Hret.
        destruct (Hret3 keys mapping Hret)
          as (Hp & Hkeys & Hlinks & Htruthy & kks & Hh & Hdom & Hin & Hout & Hexact).
        cbn [fst snd] in *. unfold loop_outcome.
        rewrite (tasks_created_cons task rest (title, response) _ d3)
          by (by rewrite !issue_posts_app, Hposts1).
        rewrite !issue_posts_app, !created_keys_app, !link_attempts_app,
          Hposts1, Hkeys1, Hlinks1, Hlinks, Hlt.
        cbn [app fmap list_fmap snd]. rewrite Hcreated. cbn [app].
        split; [by constructor|]. split; [by rewrite Hkeys, <- app_assoc|].
        split; [done|].
        split; [constructor; [by eapply getitem_truthy|done]|].
        exists (kk :: kks). split; [by constructor|].
        destruct (mapping_step _ _ _ _ _ _ Hdom Hin Hout) as (Hdom' & Hin' & Hout').
        repeat (split; [done|]).
        intros [Hfresh Hnodup]%NoDup_cons. constructor; [|by apply Hexact].
        by rewrite Hout, lookup_insert_eq.
    + apply IH in Hrun as (d2 & Hext2 & Hno2 & Hret2).
      exists (d1 ++ d2)%list. split; [by eapply extends_trans|].
      split; [intros Hlt; by rewrite link_attempts_app, Hlinks1, Hno2|].
      intros keys mapping Hret.
      destruct (Hret2 keys mapping Hret)
        as (Hp & Hkeys & Hlinks & Htruthy & kks & Hh & Hdom & Hin & Hout & Hexact).
      unfold loop_outcome.
      rewrite (tasks_created_cons task rest (title, response) _ d2)
        by (by rewrite issue_posts_app, Hposts1).
      rewrite issue_posts_app, created_keys_app, link_attempts_app,
        Hposts1, Hkeys1, Hlinks1.
      cbn [app snd]. rewrite Hcreated. cbn [app].
      split; [by constructor|]. split; [done|]. split; [done|].
      split; [constructor; [by eapply getitem_truthy|done]|].
      exists kks. repeat split; try done.
      intros kk' Hkk'. destruct (Hin kk' Hkk') as (t & Ht & Hlook).
      exists t. split; [by right|done].
Qed.

End Tasks.

Lemma Forall2_compose {A B C} (P : A → B → Prop) (Q : B → C → Prop)
    (R : A → C → Prop) (l1 : list A) (l2 : list B) (l3 : list C) :
  (∀ a b c, P a b → Q b c → R a c) →
  Forall2 P l1 l2 → Forall2 Q l2 l3 → Forall2 R l1 l3.
Proof.
  intros HPQ HP. revert l3.
  induction HP as [|a b l1 l2 Hab _ IH]; intros l3 HQ; inversion HQ; subst.
  - constructor.
  - constructor; [by eapply HPQ|by apply IH].
Qed.

(** C4, as stated for every list of task definitions, fails. A task
    without its fields ends the call with an exception after the first
    task was created, and nothing is returned. So does a link type
    without its fields, before any creation, and a creation answered 201
    without a body. And when the tracker gives the same key to two
    creations, both succeed and the mapping has one entry. *)
Lemma one_entry_per_success_fails :
  ((create_and_link_tasks Scenario.second_creation_fails StageExample.parent
      StageExample.incomplete_tasks initial_world).1 = Raise (KeyError "summary") ∧
   created_keys
     (trace (create_and_link_tasks Scenario.second_creation_fails StageExample.parent
               StageExample.incomplete_tasks initial_world).2)
   = [VStr "CPG-api"]) ∧
  ((create_and_link_tasks StageExample.bare_link_type StageExample.parent
      Scenario.three_tasks initial_world).1 = Raise (KeyError "inward") ∧
   (create_and_link_tasks StageExample.creation_unreadable StageExample.parent
      Scenario.three_tasks initial_world).1
   = Raise (JSONDecodeError "Expecting value")) ∧
  (match (create_and_link_tasks StageExample.same_key_twice StageExample.parent
            StageExample.two_tasks initial_world).1 with
   | Ret (keys, mapping) => keys = [VStr "CPG-7"; VStr "CPG-7"] ∧ size mapping = 1%nat
   | Raise _ => False
   end ∧
   created_keys
     (trace (create_and_link_tasks StageExample.same_key_twice StageExample.parent
               StageExample.two_tasks initial_world).2)
   = [VStr "CPG-7"; VStr "CPG-7"]).
Proof.
  split; [split; vm_compute; reflexivity|].
  split; [split; vm_compute; reflexivity|].
  split; [|vm_compute; reflexivity].
  vm_compute. by split.
Qed.

Section Bookkeeping.

Variable env : Env.

Lemma create_tasks_returns parent_ticket_key link_type_to_use tasks :
  Forall well_formed_task tasks →
  (∀ n title description,
     well_formed_creation (jira env n (PostIssue title description))) →
  ∀ acc w, ∃ keys mapping,
    (create_tasks env parent_ticket_key link_type_to_use tasks acc w).1
    = Ret (keys, mapping).
Proof.
  intros Htasks Hcreation.
  induction Htasks as [|task rest (summary & category & component & title & Hs & Hc & Hm & Ht) _ IH];
    intros acc w.
  - by exists acc.1, acc.2; destruct acc.
  - cbn [create_tasks]. unfold bind at 1 2 3 4, lift. rewrite Hs, Hc, Hm, Ht.
    unfold bind at 1.
    match goal with |- context [create_jira_issue env title ?desc w] =>
      destruct (create_jira_issue_run env title desc w) as (d1 & w1 & Hrun1 & _);
      rewrite Hrun1;
      pose proof (Hcreation (requests w) title desc) as Hwf
    end.
    unfold well_formed_creation in Hwf.
    destruct (created_key_of _) as [k|e]; [|done].
    destruct (Py.truthy k); [|apply IH].
    destruct (Hwf eq_refl) as [kk Hkk].
    unfold bind at 1, lift. rewrite Hkk.
    destruct (Py.truthy link_type_to_use).
    + unfold bind, sleep, emit.
      match goal with |- context [link_jira_issues env ?a ?b ?c ?w0] =>
        destruct (link_jira_issues_run env a b c w0) as (d2 & w2 & linked & Hrun2 & _);
        rewrite Hrun2
      end.
      unfold ret. apply IH.
    + unfold bind, ret. apply IH.
Qed.

Lemma fetched_types_only response d :
  exchanges d = [(GetLinkTypes, response)] →
  issue_posts d = [] ∧ created_keys d = [] ∧ link_attempts d = [].
Proof.
  intros Hex. unfold created_keys, issue_posts, link_attempts. by rewrite Hex.
Qed.

(** The call, once the link types are fetched and one is chosen, is the
    loop over the tasks started from an empty key list and mapping. *)
Lemma create_and_link_tasks_loop parent_ticket_key task_definitions w available w0
    link_type_to_use tasks :
  get_jira_issue_link_types env w = (Ret available, w0) →
  select_link_type available = Ret link_type_to_use →
  Py.iter task_definitions = Ret tasks →
  ∃ line,
    create_and_link_tasks env parent_ticket_key task_definitions w
    = create_tasks env parent_ticket_key link_type_to_use tasks ([], ∅)
        (mkWorld (active_gemini_key_index w0) (generations w0) (requests w0)
                 (trace w0 ++ [EvPrint line])).
Proof.
  intros Hfetch Hselect Hiter. unfold create_and_link_tasks.
  unfold bind at 1. rewrite Hfetch. unfold bind at 1, lift. rewrite Hselect.
  unfold bind at 1.
  destruct (Py.truthy link_type_to_use); unfold print, emit;
    unfold bind at 1; rewrite Hiter; by eexists.
Qed.

(** C4, amended. With task definitions that have their four fields, link
    types that were fetched and chosen from, and a tracker whose
    creation responses can be read, the call returns; it sent one
    creation request per task, in order, whether or not earlier ones
    were refused; the key list is the keys of the creations that
    succeeded; the mapping has an entry for each of these keys and no
    other, hence, when the keys differ, as many entries as there are
    such keys, each holding the task its key was created for; and the
    link requests are one per such key, from the parent, when a link
    type was chosen, and none otherwise. *)
Theorem create_and_link_tasks_bookkeeping parent_ticket_key task_definitions tasks
    w available w0 link_type_to_use :
  get_jira_issue_link_types env w = (Ret available, w0) →
  select_link_type available = Ret link_type_to_use →
  Py.iter task_definitions = Ret tasks →
  Forall well_formed_task tasks →
  (∀ n title description,
     well_formed_creation (jira env n (PostIssue title description))) →
  ∃ keys mapping w' d,
    create_and_link_tasks env parent_ticket_key task_definitions w
      = (Ret (keys, mapping), w') ∧
    extends w w' d ∧
    Forall2 (λ task post, Py.getitem task "title" = Ret post.1) tasks (issue_posts d) ∧
    keys = created_keys d ∧
    (∃ kks, Forall2 (λ k kk, Py.hash k = Ret kk) keys kks ∧
            dom mapping = list_to_set kks ∧
            (NoDup kks →
             size mapping = length keys ∧
             Forall2 (λ k task, map_get mapping k = Ret task)
               keys (tasks_created tasks d))) ∧
    (∀ k, k ∈ keys → ∃ task, task ∈ tasks ∧ map_get mapping k = Ret task) ∧
    link_attempts d
      = (if Py.truthy link_type_to_use
         then (λ k, (parent_ticket_key, k, link_type_to_use)) <$> keys
         else []).
Proof.
  intros Hfetch Hselect Hiter Htasks Hcreation.
  destruct (create_and_link_tasks_loop parent_ticket_key _ _ _ _ _ _ Hfetch Hselect Hiter)
    as [line Hloop].
  rewrite Hloop. set (w1 := mkWorld _ _ _ _).
  destruct (create_tasks_returns parent_ticket_key link_type_to_use tasks
              Htasks Hcreation ([], ∅) w1) as (keys & mapping & Hret).
  destruct (create_tasks env parent_ticket_key link_type_to_use tasks ([], ∅) w1)
    as [r w'] eqn:Hrun.
  cbn [fst] in Hret. subst r.
  apply create_tasks_run in Hrun as (d2 & Hext2 & _ & Hout).
  destruct (Hout keys mapping eq_refl)
    as (Hposts & Hkeys & Hlinks & _ & kks & Hhash & Hdom & Hin & _ & Hexact).
  cbn [fst snd] in *. rewrite dom_empty_L, union_empty_l_L in Hdom.
  destruct (get_jira_issue_link_types_run env w) as (d0 & Hext0 & Hex0).
  rewrite Hfetch in Hext0. cbn [snd] in Hext0.
  apply fetched_types_only in Hex0 as (Hposts0 & Hkeys0 & Hlinks0).
  exists keys, mapping, w', (d0 ++ [EvPrint line] ++ d2)%list.
  split; [done|]. split.
  { eapply extends_trans; [done|]. by eapply (extends_trans w0 w1 w' [EvPrint line]). }
  unfold tasks_created.
  rewrite !issue_posts_app, !created_keys_app, !link_attempts_app,
    Hposts0, Hkeys0, Hlinks0. cbn [app].
  change (issue_posts [EvPrint line]) with (@nil (pyval * Response)).
  change (created_keys [EvPrint line]) with (@nil pyval).
  change (link_attempts [EvPrint line]) with (@nil (pyval * pyval * pyval)).
  cbn [app]. subst keys.
  split; [done|]. split; [done|]. split; [|split; [|done]].
  - exists kks. split; [done|]. split; [done|]. intros Hnodup. split.
    + rewrite <- size_dom, Hdom, size_list_to_set by done.
      symmetry. by eapply Forall2_length.
    + eapply Forall2_compose; [|exact Hhash|exact (Hexact Hnodup)].
      intros k kk task Hk Hlook. unfold map_get. rewrite Hk. cbn. by rewrite Hlook.
  - intros k Hk. apply list_elem_of_lookup_1 in Hk as [i Hi].
    destruct (Forall2_lookup_l _ _ _ _ _ Hhash Hi) as (kk & Hkk & Hhk).
    destruct (Hin kk (list_elem_of_lookup_2 _ _ _ Hkk)) as (task & Htask & Hlook).
    exists task. split; [done|]. unfold map_get. rewrite Hhk. cbn. by rewrite Hlook.
Qed.

(** C9. Every key of the returned key list is a key of the returned
    mapping, and the task stored under it is true: the lookup and the test
    the workflow makes for each created key find the task data, so the
    round runs the test-case stage for it and never the warning branch. *)
Theorem created_keys_have_task_data parent_ticket_key task_definitions w keys mapping w' :
  create_and_link_tasks env parent_ticket_key task_definitions w
    = (Ret (keys, mapping), w') →
  Forall (λ task_key,
            ∃ kk task_data,
              Py.hash task_key = Ret kk ∧
              mapping !! kk = Some task_data ∧
              map_get mapping task_key = Ret task_data ∧
              Py.truthy task_data = true ∧
              ∀ w1, process_task env mapping task_key w1
                    = run_task_tests env task_key task_data w1) keys.
Proof.
  intros Hrun. unfold create_and_link_tasks in Hrun.
  unfold bind at 1 in Hrun.
  destruct (get_jira_issue_link_types env w) as [[available|e] w0]; [|done].
  unfold bind at 1, lift in Hrun.
  destruct (select_link_type available) as [link_type_to_use|e]; [|done].
  unfold bind at 1 in Hrun.
  assert (∃ w1 tasks,
            Py.iter task_definitions = Ret tasks ∧
            create_tasks env parent_ticket_key link_type_to_use tasks ([], ∅) w1
            = (Ret (keys, mapping), w')) as (w1 & tasks & Hiter & Hloop).
  { destruct (Py.truthy link_type_to_use); unfold print, emit in Hrun;
      unfold bind at 1 in Hrun;
      (destruct (Py.iter task_definitions) as [tasks|e]; [|done]); eauto. }
  apply create_tasks_run in Hloop as (d & _ & _ & Hout).
  destruct (Hout keys mapping eq_refl)
    as (_ & Hkeys & _ & Htruthy & kks & Hhash & _ & Hin & _).
  cbn [fst app] in Hkeys. subst keys.
  apply Forall_forall. intros k Hk. apply list_elem_of_lookup_1 in Hk as [i Hi].
  destruct (Forall2_lookup_l _ _ _ _ _ Hhash Hi) as (kk & Hkk & Hhk).
  destruct (Hin kk (list_elem_of_lookup_2 _ _ _ Hkk)) as (task & Htask & Hlook).
  assert (Htrue : Py.truthy task = true).
  { by apply (proj1 (Forall_forall _ _) Htruthy). }
  assert (Hget : map_get mapping k = Ret task).
  { unfold map_get. rewrite Hhk. cbn. by rewrite Hlook. }
  exists kk, task. repeat (split; [done|]).
  intros w2. unfold process_task, bind at 1, lift. by rewrite Hget, Htrue.
Qed.

End Bookkeeping.

Lemma refusing_ui_well_formed names n title description :
  well_formed_creation (jira (mkEnv Render.str Json.loads Scenario.two_keys
                                (λ _ _ _, GenError "503 unavailable")
                                (λ _, Scenario.refusing_ui names))
                          n (PostIssue title description)).
Proof.
  unfold well_formed_creation, created_key_of. cbn.
  destruct title as [| | |s| |]; cbn; try done.
  destruct (String.eqb s "ui"); cbn; [done|]. eauto.
Qed.

Lemma three_tasks_well_formed :
  Forall well_formed_task [Scenario.task "api"; Scenario.task "ui"; Scenario.task "tests"].
Proof.
  repeat constructor; unfold well_formed_task; cbn; eauto 10.
Qed.

(** Three tasks, the second refused by the tracker. *)
Lemma create_and_link_tasks_bookkeeping_witness :
  let env := Scenario.second_creation_fails in
  let parent := VStr "CPG-10" in
  let tasks := [Scenario.task "api"; Scenario.task "ui"; Scenario.task "tests"] in
  ∃ keys mapping w' d,
    create_and_link_tasks env parent Scenario.three_tasks initial_world
      = (Ret (keys, mapping), w') ∧
    extends initial_world w' d ∧
    Forall2 (λ task post, Py.getitem task "title" = Ret post.1) tasks (issue_posts d) ∧
    keys = created_keys d ∧
    (∃ kks, Forall2 (λ k kk, Py.hash k = Ret kk) keys kks ∧
            dom mapping = list_to_set kks ∧
            (NoDup kks →
             size mapping = length keys ∧
             Forall2 (λ k task, map_get mapping k = Ret task)
               keys (tasks_created tasks d))) ∧
    (∀ k, k ∈ keys → ∃ task, task ∈ tasks ∧ map_get mapping k = Ret task) ∧
    link_attempts d
      = (if Py.truthy (VStr "Blocks")
         then (λ k, (parent, k, VStr "Blocks")) <$> keys
         else []).
Proof.
  eapply (create_and_link_tasks_bookkeeping Scenario.second_creation_fails
            (VStr "CPG-10") Scenario.three_tasks).
  - vm_compute. reflexivity.
  - vm_compute. reflexivity.
  - reflexivity.
  - exact three_tasks_well_formed.
  - apply refusing_ui_well_formed.
Defined.

(** The same run, evaluated: two keys, two entries, two link requests. *)
Example second_creation_refused :
  ∃ mapping w',
    create_and_link_tasks Scenario.second_creation_fails (VStr "CPG-10")
      Scenario.three_tasks initial_world
    = (Ret ([VStr "CPG-api"; VStr "CPG-tests"], mapping), w') ∧
    size mapping = 2%nat ∧
    mapping !! Py.KStr "CPG-api" = Some (Scenario.task "api") ∧
    mapping !! Py.KStr "CPG-tests" = Some (Scenario.task "tests") ∧
    length (issue_posts (trace w')) = 3%nat ∧
    link_attempts (trace w')
    = [(VStr "CPG-10", VStr "CPG-api", VStr "Blocks");
       (VStr "CPG-10", VStr "CPG-tests", VStr "Blocks")].
Proof.
  eexists _, _. split; [vm_compute; reflexivity|].
  repeat split; vm_compute; reflexivity.
Qed.

(** Every key of that run has its task data. *)
Lemma created_keys_have_task_data_witness :
  let env := Scenario.second_creation_fails in
  Forall (λ task_key,
            ∃ kk task_data,
              Py.hash task_key = Ret kk ∧
              Scenario.two_created !! kk = Some task_data ∧
              map_get Scenario.two_created task_key = Ret task_data ∧
              Py.truthy task_data = true ∧
              ∀ w1, process_task env Scenario.two_created task_key w1
                    = run_task_tests env task_key task_data w1)
    [VStr "CPG-api"; VStr "CPG-tests"].
Proof.
  apply (created_keys_have_task_data Scenario.second_creation_fails
           (VStr "CPG-10") Scenario.three_tasks initial_world
           [VStr "CPG-api"; VStr "CPG-tests"] Scenario.two_created
           (create_and_link_tasks Scenario.second_creation_fails (VStr "CPG-10")
              Scenario.three_tasks initial_world).2).
  vm_compute. reflexivity.
Defined.

(** ** Choice of the link type *)

Lemma find_first_match {A} (p : A → bool) (before : list A) x after :
  p x = true → (∀ u, u ∈ before → p u = false) →
  List.find p (before ++ x :: after) = Some x.
Proof.
  intros Hx. induction before as [|b before IH]; intros Hbefore; cbn.
  - by rewrite Hx.
  - rewrite (Hbefore b) by left. apply IH. intros u Hu. apply Hbefore. by right.
Qed.

Lemma find_no_match {A} (p : A → bool) (l : list A) :
  (∀ u, u ∈ l → p u = false) → List.find p l = None.
Proof.
  induction l as [|b l IH]; intros Hl; cbn; [done|].
  rewrite (Hl b) by left. apply IH. intros u Hu. apply Hl. by right.
Qed.

(** [t in names] *)
Lemma name_among t (names : list pyval) :
  existsb (Py.eq_str t) names = true ↔ VStr t ∈ names.
Proof.
  rewrite existsb_exists. split.
  - intros (v & Hin & Heq). destruct v; try done. cbn in Heq.
    apply String.eqb_eq in Heq as ->. by apply list_elem_of_In.
  - intros Hin. exists (VStr t). split; [by apply list_elem_of_In|].
    cbn. apply String.eqb_refl.
Qed.

Lemma name_not_among t (names : list pyval) :
  VStr t ∉ names → existsb (Py.eq_str t) names = false.
Proof.
  intros Hnot. destruct (existsb _ _) eqn:Hex; [|done].
  by apply name_among in Hex.
Qed.

Lemma preferred_names_true t :
  t ∈ preferred_link_types → Py.truthy (VStr t) = true.
Proof.
  unfold preferred_link_types. intros Ht.
  repeat (apply elem_of_cons in Ht as [->|Ht]; [done|]). inversion Ht.
Qed.

Section LinkType.

Variable env : Env.

(** Without a link type in use, the call sends no link request at all. *)
Lemma no_link_type_no_link parent_ticket_key task_definitions w :
  (get_jira_issue_link_types env w).1 = Ret (VList []) →
  ∃ d, extends w (create_and_link_tasks env parent_ticket_key task_definitions w).2 d ∧
       link_attempts d = [].
Proof.
  intros Hfetch.
  destruct (get_jira_issue_link_types_run env w) as (d0 & Hext0 & Hex0).
  apply fetched_types_only in Hex0 as (_ & _ & Hlinks0).
  unfold create_and_link_tasks. unfold bind at 1.
  destruct (get_jira_issue_link_types env w) as [[available|e] w0]; [|done].
  cbn [fst snd] in *. injection Hfetch as ->.
  unfold bind at 1, lift.
  change (select_link_type (VList [])) with (Ret (A:=pyval) VNone).
  cbn [Py.truthy]. unfold bind at 1, print, emit. unfold bind at 1.
  destruct (Py.iter task_definitions) as [tasks|e]; cbn [fst snd].
  - match goal with |- context [create_tasks env ?p ?lt tasks ?acc ?w1] =>
      destruct (create_tasks env p lt tasks acc w1) as [r w'] eqn:Hrun;
      apply create_tasks_run in Hrun as (d2 & Hext2 & Hno & _)
    end.
    eexists (d0 ++ [_] ++ d2)%list. split.
    + eapply extends_trans; [done|]. eapply extends_trans; [|done]. done.
    + rewrite !link_attempts_app, Hlinks0, Hno by done. done.
  - eexists (d0 ++ [_])%list. split; [by eapply extends_trans|].
    by rewrite link_attempts_app, Hlinks0.
Qed.

End LinkType.

(** The scenario of the specification: no preferred name among the link
    types of the tracker, so each created task is linked with the first
    available type. *)
Example fallback_link_type_used :
  link_attempts
    (trace (create_and_link_tasks Scenario.unfamiliar_link_types (VStr "CPG-10")
              (VList [Scenario.task "api"; Scenario.task "db"; Scenario.task "tests"])
              initial_world).2)
  = [(VStr "CPG-10", VStr "CPG-api", VStr "Cloners");
     (VStr "CPG-10", VStr "CPG-db", VStr "Cloners");
     (VStr "CPG-10", VStr "CPG-tests", VStr "Cloners")].
Proof. vm_compute. reflexivity. Qed.

(** ** Test cases *)

Section TestCases.

Variable env : Env.

Lemma create_test_case_missing_field task_key d field w :
  field ∈ test_case_fields → Py.dict_lookup field d = None →
  is_Raise (create_test_case env task_key (VDict d) w).1.
Proof.
  intros Hfield Hnone. unfold create_test_case, test_case_fields in *.
  unfold bind, lift, print, emit, Py.getitem.
  repeat (apply elem_of_cons in Hfield as [->|Hfield]);
    [..|inversion Hfield];
    repeat match goal with
           | |- context [Py.dict_lookup ?f d] =>
               destruct (Py.dict_lookup f d) eqn:?; simplify_eq; cbn; try done
           | |- context [Py.join ?s ?v] =>
               destruct (Py.join s v) eqn:?; simplify_eq; cbn; try done
           end.
Qed.

Lemma create_test_cases_missing_field task_key test_cases d field :
  VDict d ∈ test_cases → field ∈ test_case_fields → Py.dict_lookup field d = None →
  ∀ created_test_keys w,
    is_Raise (create_test_cases env task_key test_cases created_test_keys w).1.
Proof.
  intros Hin Hfield Hnone.
  induction test_cases as [|test_case rest IH]; [inversion Hin|].
  intros created_test_keys w. cbn [create_test_cases]. unfold bind at 1.
  apply elem_of_cons in Hin as [<-|Hin].
  - pose proof (create_test_case_missing_field task_key d field w Hfield Hnone) as Hraise.
    by destruct (create_test_case env task_key (VDict d) w) as [[v|e] w1].
  - destruct (create_test_case env task_key test_case w) as [[v|e] w1]; [|done].
    destruct (Py.truthy v); [|by apply IH].
    unfold bind, print, sleep, emit. by apply IH.
Qed.

Lemma create_test_case_first_missing task_key d field w :
  first_missing d = Some field →
  (∀ steps, Py.dict_lookup "steps" d = Some steps →
            ∃ joined, Py.join ", " steps = Ret joined) →
  (create_test_case env task_key (VDict d) w).1 = Raise (KeyError field).
Proof.
  unfold first_missing, test_case_fields, create_test_case. cbn [List.find].
  unfold bind, lift, print, emit, Py.getitem. intros Hfirst Hsteps.
  destruct (Py.dict_lookup "test_id" d); [|by simplify_eq].
  destruct (Py.dict_lookup "test_name" d); [|by simplify_eq].
  destruct (Py.dict_lookup "priority" d); [|by simplify_eq].
  destruct (Py.dict_lookup "description" d); [|by simplify_eq].
  destruct (Py.dict_lookup "steps" d) as [steps|]; [|by simplify_eq].
  destruct (Hsteps steps eq_refl) as [joined ->]. cbn.
  destruct (Py.dict_lookup "expected_result" d); by simplify_eq.
Qed.

(** C10. Once the planner has returned a list, the loop reads the six
    fields of each element with a plain subscript. An element that is
    a dict lacking one of them makes the call raise, wherever it stands
    in the list; when it stands first (and its [steps], if present, can
    be joined) what is raised is the [KeyError] of the first field
    missing in the order of the reads. *)
Theorem test_case_fields_unguarded task_key task_data summary w test_cases w1 :
  Py.getitem task_data "summary" = Ret summary →
  generate_test_cases_for_task env summary task_key w = (Ret (VList test_cases), w1) →
  (∀ d field,
     VDict d ∈ test_cases → field ∈ test_case_fields → Py.dict_lookup field d = None →
     is_Raise (process_and_create_test_cases env task_key task_data w).1) ∧
  (∀ d rest field,
     test_cases = VDict d :: rest →
     first_missing d = Some field →
     (∀ steps, Py.dict_lookup "steps" d = Some steps →
               ∃ joined, Py.join ", " steps = Ret joined) →
     (process_and_create_test_cases env task_key task_data w).1 = Raise (KeyError field)).
Proof.
  intros Hsummary Hplan.
  assert (Hloop : ∀ first rest, test_cases = first :: rest →
            ∃ w2, process_and_create_test_cases env task_key task_data w
                  = create_test_cases env task_key test_cases [] w2).
  { intros first rest ->. unfold process_and_create_test_cases.
    unfold bind at 1, lift. rewrite Hsummary. unfold bind at 1. rewrite Hplan.
    cbn [Py.truthy Py.len Py.iter]. unfold bind, lift, print, emit. by eexists. }
  split.
  - intros d field Hin Hfield Hnone.
    destruct test_cases as [|first rest]; [inversion Hin|].
    destruct (Hloop first rest eq_refl) as [w2 ->].
    by eapply create_test_cases_missing_field.
  - intros d rest field -> Hfirst Hsteps.
    destruct (Hloop _ _ eq_refl) as [w2 ->].
    cbn [create_test_cases]. unfold bind at 1.
    pose proof (create_test_case_first_missing task_key d field w2 Hfirst Hsteps) as Hraise.
    destruct (create_test_case env task_key (VDict d) w2) as [[v|e] w3];
      cbn [fst] in *; by simplify_eq.
Qed.

End TestCases.

(** The generator answers [[{"test_id": "TC-1"}]]: reading [test_name]
    raises. *)
Lemma test_case_fields_unguarded_witness :
  (process_and_create_test_cases TestCaseExample.env (VStr "CPG-api")
     (Scenario.task "api") initial_world).1
  = Raise (KeyError "test_name").
Proof.
  apply (proj2 (test_case_fields_unguarded TestCaseExample.env (VStr "CPG-api")
                  (Scenario.task "api") (VStr "Build the api") initial_world
                  [VDict [("test_id", VStr "TC-1")]]
                  (generate_test_cases_for_task TestCaseExample.env
                     (VStr "Build the api") (VStr "CPG-api") initial_world).2
                  eq_refl ltac:(vm_compute; reflexivity))
           [("test_id", VStr "TC-1")] [] "test_name").
  - reflexivity.
  - reflexivity.
  - intros steps Hsteps. discriminate Hsteps.
Defined.

(** ** The planner *)

(** C1, as stated, fails: with every key of the pool failing, the
    exhaustion error leaves [generate_subtasks_from_requirement]; no value
    is returned. *)
Lemma planner_propagates_exhaustion :
  (generate_with_gemini_resilience Scenario.all_keys_fail
     (subtasks_prompt "Add login page") initial_world).1 = Raise exhausted ∧
  (generate_subtasks_from_requirement Scenario.all_keys_fail "Add login page"
     initial_world).1 = Raise exhausted ∧
  ¬ ∃ v, (generate_subtasks_from_requirement Scenario.all_keys_fail "Add login page"
            initial_world).1 = Ret v.
Proof.
  split; [vm_compute; reflexivity|]. split; [vm_compute; reflexivity|].
  intros [v Hv]. vm_compute in Hv. discriminate Hv.
Qed.

Section Planner.

Variable env : Env.

(** What leaves the generator leaves the code that continues it, in the
    state the generator left. *)
Lemma generator_error_propagates prompt_text w (k : string → M pyval) e w1 :
  generate_with_gemini_resilience env prompt_text w = (Raise e, w1) →
  bind (generate_with_gemini_resilience env prompt_text) k w = (Raise e, w1).
Proof. intros Hgen. unfold bind. by rewrite Hgen. Qed.

(** C1, amended. When the generator returns a text, each planner returns
    what the parser makes of it: [None] when the parser fails, and no
    decode error leaves the planner. When the generator raises, the
    planner raises the same error in the state the generator left, so it
    neither returns a value nor tries again: when the attempts of the
    call, one per key of the pool, all fail, the exhaustion error leaves
    the planner after exactly these attempts. *)
Theorem planner_failure_modes w :
  (active_gemini_key_index w < length (gemini_api_keys env))%nat →
  (∀ requirement,
     (∀ raw w1,
        generate_with_gemini_resilience env (subtasks_prompt requirement) w = (Ret raw, w1) →
        generate_subtasks_from_requirement env requirement w
          = parse_json_from_text env raw w1 ∧
        ((parse_json_from_text env raw w1).1 = Ret VNone →
         (generate_subtasks_from_requirement env requirement w).1 = Ret VNone) ∧
        ∀ msg, (generate_subtasks_from_requirement env requirement w).1
               ≠ Raise (JSONDecodeError msg)) ∧
     (∀ e w1,
        generate_with_gemini_resilience env (subtasks_prompt requirement) w
          = (Raise e, w1) →
        generate_subtasks_from_requirement env requirement w = (Raise e, w1)) ∧
     (Forall (λ a, is_text a.2 = false)
        (attempt_at env (subtasks_prompt requirement) (active_gemini_key_index w)
           (generations w) <$> seq 0 (length (gemini_api_keys env))) →
      ∃ w1 d,
        generate_subtasks_from_requirement env requirement w = (Raise exhausted, w1) ∧
        trace w1 = (trace w ++ d)%list ∧
        attempts d
          = attempt_at env (subtasks_prompt requirement) (active_gemini_key_index w)
              (generations w) <$> seq 0 (length (gemini_api_keys env)))) ∧
  (∀ task_summary parent_key,
     let prompt := test_cases_prompt env task_summary parent_key in
     let w0 := (print (Str.nl +:+ "Generating test cases for task "
                       +:+ py_str env parent_key +:+ "...") w).2 in
     (∀ raw w1,
        generate_with_gemini_resilience env prompt w0 = (Ret raw, w1) →
        generate_test_cases_for_task env task_summary parent_key w
          = parse_json_from_text env raw w1 ∧
        ((parse_json_from_text env raw w1).1 = Ret VNone →
         (generate_test_cases_for_task env task_summary parent_key w).1 = Ret VNone) ∧
        ∀ msg, (generate_test_cases_for_task env task_summary parent_key w).1
               ≠ Raise (JSONDecodeError msg)) ∧
     (∀ e w1,
        generate_with_gemini_resilience env prompt w0 = (Raise e, w1) →
        generate_test_cases_for_task env task_summary parent_key w = (Raise e, w1)) ∧
     (Forall (λ a, is_text a.2 = false)
        (attempt_at env prompt (active_gemini_key_index w) (generations w)
           <$> seq 0 (length (gemini_api_keys env))) →
      ∃ w1 d,
        generate_test_cases_for_task env task_summary parent_key w
          = (Raise exhausted, w1) ∧
        trace w1 = (trace w ++ d)%list ∧
        attempts d
          = attempt_at env prompt (active_gemini_key_index w) (generations w)
              <$> seq 0 (length (gemini_api_keys env)))).
Proof.
  intros Hc. split.
  - intros requirement. split; [|split].
    + intros raw w1 Hgen.
      assert (Heq : generate_subtasks_from_requirement env requirement w
                    = parse_json_from_text env raw w1).
      { unfold generate_subtasks_from_requirement, bind. by rewrite Hgen. }
      rewrite Heq. split; [done|]. split; [done|].
      intros msg. apply parse_never_raises_decode.
    + intros e w1 Hgen. by apply generator_error_propagates.
    + intros Hfail.
      destruct (generate_exhausts env _ w Hc Hfail) as (w1 & d & Hgen & Htr & Hatt).
      exists w1, d. split; [by apply generator_error_propagates|done].
  - intros task_summary parent_key prompt w0.
    assert (Hstep : ∀ r w1,
              generate_with_gemini_resilience env prompt w0 = (r, w1) →
              generate_test_cases_for_task env task_summary parent_key w
              = match r with
                | Ret raw => parse_json_from_text env raw w1
                | Raise e => (Raise e, w1)
                end).
    { intros r w1 Hgen. unfold generate_test_cases_for_task. unfold bind at 1.
      unfold print at 1, emit. unfold bind. subst prompt w0.
      unfold print, emit in Hgen. cbn [snd] in Hgen. by rewrite Hgen. }
    split; [|split].
    + intros raw w1 Hgen. rewrite (Hstep _ _ Hgen). split; [done|]. split; [done|].
      intros msg. apply parse_never_raises_decode.
    + intros e w1 Hgen. by rewrite (Hstep _ _ Hgen).
    + intros Hfail.
      destruct (generate_exhausts env prompt w0 Hc Hfail) as (w1 & d & Hgen & Htr & Hatt).
      exists w1, (EvPrint (Str.nl +:+ "Generating test cases for task "
                           +:+ py_str env parent_key +:+ "...") :: d).
      split; [by rewrite (Hstep _ _ Hgen)|].
      split; [|exact Hatt].
      subst w0. unfold print, emit in Htr. cbn [snd trace] in Htr.
      by rewrite Htr, <- app_assoc.
Qed.

End Planner.

(** Both keys fail: the planner raises the exhaustion error after one
    attempt per key. *)
Lemma planner_failure_modes_witness :
  ∃ w1 d,
    generate_subtasks_from_requirement Scenario.all_keys_fail "Add login page"
      initial_world = (Raise exhausted, w1) ∧
    trace w1 = (trace initial_world ++ d)%list ∧
    attempts d = [(0%nat, GenError "503 unavailable"); (1%nat, GenError "503 unavailable")].
Proof.
  apply (proj2 (proj2 (proj1 (planner_failure_modes Scenario.all_keys_fail initial_world
                                ltac:(cbn; lia))
                         "Add login page"))).
  by repeat constructor.
Defined.

(** The generator answers prose: the planner returns [None]. *)
Example planner_returns_none_on_prose :
  (generate_subtasks_from_requirement
     (Scenario.scripted Scenario.two_keys [GenText "Sorry, I cannot help with that."] [])
     "Add login page" initial_world).1 = Ret VNone.
Proof. vm_compute. reflexivity. Qed.

(** ** The workflow *)

(** C2, as stated, fails: when the tracker refuses the parent issue, [main]
    returns after that one request and the project is never queried. *)
Lemma no_report_without_parent :
  (main MainExample.tracker_down MainExample.requirement initial_world).1 = Ret tt ∧
  length (exchanges (trace (main MainExample.tracker_down MainExample.requirement
                              initial_world).2)) = 1%nat ∧
  ¬ ∃ response,
      (GetSearch, response)
      ∈ exchanges (trace (main MainExample.tracker_down MainExample.requirement
                            initial_world).2).
Proof.
  split; [vm_compute; reflexivity|]. split; [vm_compute; reflexivity|].
  intros [response Hin]. vm_compute in Hin.
  apply elem_of_cons in Hin as [Heq|Hin]; [discriminate Heq|inversion Hin].
Qed.

Section Main.

Variable env : Env.

Lemma report_is_last_request w :
  last_request (trace (get_project_issues env w).2) = Some GetSearch.
Proof.
  destruct (get_project_issues_run env w) as (d & Hext & Hex).
  unfold last_request, extends in *. rewrite Hext, exchanges_app, Hex.
  by rewrite last_snoc.
Qed.

(** C2, amended. When the tracker does not create the parent issue, [main]
    returns after that single request, without the report. When it
    does, the run either ends with the query of the project issues as
    its last request, or an exception raised by an earlier stage left
    [main]; in particular a run that returns has made the query, and so
    has a run in which the planner returned nothing to work on. *)
Theorem report_after_parent main_requirement w :
  let epic := PostIssue (VStr ("Epic: " +:+ main_requirement))
                ("This is the main parent ticket for the requirement: "
                 +:+ main_requirement) in
  let response := jira env (requests w) epic in
  (∀ key, created_key_of response = Ret key → Py.truthy key = false →
     ∃ d w', main env main_requirement w = (Ret tt, w') ∧
             extends w w' d ∧ exchanges d = [(epic, response)]) ∧
  (∀ key, created_key response = Some key →
     last_request (trace (main env main_requirement w).2) = Some GetSearch ∨
     is_Raise (main env main_requirement w).1) ∧
  (∀ key w', created_key response = Some key →
     main env main_requirement w = (Ret tt, w') →
     last_request (trace w') = Some GetSearch) ∧
  (∀ key, created_key response = Some key →
     let w1 := (create_jira_issue env (VStr ("Epic: " +:+ main_requirement))
                  ("This is the main parent ticket for the requirement: "
                   +:+ main_requirement)
                  (print (Str.nl +:+ "Creating a parent ticket for the main requirement...")
                     w).2).2 in
     let w2 := (print (Str.nl +:+ "Generating development tasks with Gemini...") w1).2 in
     ∀ subtask_definitions w3,
       generate_subtasks_from_requirement env main_requirement w2
         = (Ret subtask_definitions, w3) →
       Py.truthy subtask_definitions = false →
       last_request (trace (main env main_requirement w).2) = Some GetSearch).
Proof.
  intros epic response.
  assert (Hstart : ∃ d1 w1,
            extends w w1 d1 ∧ exchanges d1 = [(epic, response)] ∧
            create_jira_issue env (VStr ("Epic: " +:+ main_requirement))
              ("This is the main parent ticket for the requirement: "
               +:+ main_requirement)
              (print (Str.nl +:+ "Creating a parent ticket for the main requirement...") w).2
            = (created_key_of response, w1)).
  { unfold print, emit. cbn [snd].
    match goal with |- context [create_jira_issue env ?t ?de ?w0] =>
      destruct (create_jira_issue_run env t de w0) as (d1 & w1 & Hrun1 & Hext1 & Hex1)
    end.
    cbn [requests] in *. fold epic in Hrun1, Hex1. fold response in Hrun1, Hex1.
    eexists (_ :: d1), w1. split; [|split; [|done]].
    - unfold extends in *. cbn [trace] in Hext1. by rewrite Hext1, <- app_assoc.
    - cbn. exact Hex1. }
  destruct Hstart as (d1 & w1 & Hext1 & Hex1 & Hparent).
  unfold print at 1, emit at 1 in Hparent. cbn [snd] in Hparent.
  assert (Hmain : ∀ key r w', created_key response = Some key →
            main env main_requirement w = (r, w') →
            last_request (trace w') = Some GetSearch ∨ is_Raise r).
  { intros key r w' Hkey Hrun. unfold created_key in Hkey.
    unfold main in Hrun. unfold bind at 1 in Hrun. unfold print at 1, emit at 1 in Hrun.
    unfold bind at 1 in Hrun. rewrite Hparent in Hrun.
    destruct (created_key_of response) as [k|e]; [|done].
    destruct (Py.truthy k); [|done]. simplify_eq. cbn [negb] in Hrun.
    unfold bind at 1 in Hrun. unfold print at 1, emit at 1 in Hrun.
    unfold bind at 1 in Hrun.
    match type of Hrun with context [generate_subtasks_from_requirement env ?r ?w0] =>
      destruct (generate_subtasks_from_requirement env r w0) as [[subtasks|e] w2]
    end; [|injection Hrun as <- <-; by right].
    unfold bind at 1 in Hrun.
    match type of Hrun with context [(if Py.truthy subtasks then ?a else ?b) w2] =>
      destruct ((if Py.truthy subtasks then a else b) w2) as [[[]|e] w3]
    end; [|injection Hrun as <- <-; by right].
    left. unfold bind in Hrun.
    pose proof (report_is_last_request w3) as Hlast.
    destruct (get_project_issues env w3) as [[v|e] w4];
      injection Hrun as <- <-; exact Hlast. }
  split; [|split; [|split]].
  - intros key Hkey Hfalse.
    unfold main. unfold bind at 1. unfold print at 1, emit at 1.
    unfold bind at 1. rewrite Hparent, Hkey, Hfalse.
    cbn [negb]. unfold print, emit.
    eexists (d1 ++ [_])%list, _. split; [reflexivity|]. split.
    + unfold extends in *. cbn [trace]. by rewrite Hext1, app_assoc.
    + by rewrite exchanges_app, Hex1.
  - intros key Hkey.
    destruct (main env main_requirement w) as [r w'] eqn:Hrun. by eapply Hmain.
  - intros key w' Hkey Hrun. by destruct (Hmain key _ _ Hkey Hrun).
  - intros key Hkey w1' w2 subtask_definitions w3 Hplan Hfalse. subst w1' w2.
    unfold created_key in Hkey.
    unfold print, emit in Hplan. cbn [snd] in Hplan.
    rewrite Hparent in Hplan. cbn [snd] in Hplan.
    unfold main. unfold bind at 1. unfold print at 1, emit at 1.
    unfold bind at 1. rewrite Hparent.
    destruct (created_key_of response) as [k|e]; [|done].
    destruct (Py.truthy k); [|done]. cbn [negb].
    unfold bind at 1. unfold print at 1, emit at 1. unfold bind at 1. rewrite Hplan.
    unfold bind at 1. rewrite Hfalse. unfold print at 1, emit at 1.
    unfold bind.
    match goal with |- context [get_project_issues env ?w4] =>
      pose proof (report_is_last_request w4) as Hlast;
      by destruct (get_project_issues env w4) as [[v|e] w5]
    end.
Qed.

End Main.

(** The tracker creates the parent and the generator answers prose: no
    task is planned and the report is the last request. *)
Lemma report_after_parent_witness :
  last_request (trace (main MainExample.prose_answer MainExample.requirement
                         initial_world).2) = Some GetSearch.
Proof.
  eapply (proj2 (proj2 (proj2 (report_after_parent MainExample.prose_answer
                                 MainExample.requirement initial_world)))
            (VStr "CPG-10")).
  - reflexivity.
  - vm_compute. reflexivity.
  - reflexivity.
Defined.

(** The tracker creates the parent and refuses the three planned tasks:
    no test case is generated and the report is the last request. *)
Example report_after_refused_tasks :
  (main MainExample.tasks_refused MainExample.requirement initial_world).1 = Ret tt ∧
  fst <$> exchanges (trace (main MainExample.tasks_refused MainExample.requirement
                              initial_world).2)
  = [PostIssue (VStr "Epic: Add login page")
       "This is the main parent ticket for the requirement: Add login page";
     GetLinkTypes;
     PostIssue (VStr "api")
       (Str.lines ["Build the api"; ""; "Category: Backend"; "Component: api";
                   "Parent Requirement: CPG-10"]);
     PostIssue (VStr "ui")
       (Str.lines ["Build the ui"; ""; "Category: Backend"; "Component: ui";
                   "Parent Requirement: CPG-10"]);
     PostIssue (VStr "tests")
       (Str.lines ["Build the tests"; ""; "Category: Backend"; "Component: tests";
                   "Parent Requirement: CPG-10"]);
     GetSearch].
Proof. split; vm_compute; reflexivity. Qed.

(** The tracker creates the parent and every key of the generator fails:
    the exhaustion error leaves [main] before the report. *)
Example exhaustion_leaves_main :
  (main MainExample.generator_down MainExample.requirement initial_world).1
  = Raise exhausted ∧
  last_request (trace (main MainExample.generator_down MainExample.requirement
                         initial_world).2)
  = Some (PostIssue (VStr "Epic: Add login page")
            "This is the main parent ticket for the requirement: Add login page").
Proof. split; vm_compute; reflexivity. Qed.

(** ** The generator: pauses, diagnostics, state *)

Lemma pauses_app evs1 evs2 : pauses (evs1 ++ evs2) = (pauses evs1 ++ pauses evs2)%list.
Proof.
  induction evs1 as [|e evs1 IH]; [done|].
  destruct e; simpl; by rewrite ?IH.
Qed.

Lemma printed_app evs1 evs2 : printed (evs1 ++ evs2) = (printed evs1 ++ printed evs2)%list.
Proof.
  induction evs1 as [|e evs1 IH]; [done|].
  destruct e; simpl; by rewrite ?IH.
Qed.

Section GeneratorLog.

Variable env : Env.
Local Abbreviation N := (length (gemini_api_keys env)).

(** The cursor after a failure is the start index exactly when the failed
    attempt was the last one of the cycle. *)
Lemma wraps_at_end start k :
  (start < N)%nat → (k < N)%nat →
  ((((start + k) mod N + 1) mod N =? start)%nat = true ↔ S k = N).
Proof.
  intros Hstart Hk. rewrite Nat.eqb_eq.
  rewrite Nat.Div0.add_mod_idemp_l. split.
  - intros Heq. destruct (decide (S k = N)) as [|Hne]; [done|].
    assert (S k = 0)%nat; [|lia].
    apply (rotation_injective N start); [lia|lia|].
    rewrite Nat.add_0_r, (Nat.mod_small start) by done.
    rewrite <- Heq. f_equal. lia.
  - intros Heq. replace (start + k + 1)%nat with (start + 1 * N)%nat by lia.
    rewrite Nat.Div0.mod_add. by apply Nat.mod_small.
Qed.

Lemma attempt_loop_round remaining prompt_text start_index :
  attempt_loop env (S remaining) prompt_text start_index
  = try_except
      (bind (initialize_gemini_model env) (λ generative_model,
         generate_content env generative_model prompt_text))
      (λ error,
         bind (current_key env) (λ key,
         bind (print ("Gemini key " +:+ str_of_key key +:+
                      " encountered an error: " +:+ exn_str error)) (λ _,
         bind (if Str.contains "429" (exn_str error) || Str.contains "quota" (exn_str error)
               then sleep 1 else ret tt) (λ _,
         bind get_index (λ i,
         bind (set_index ((i + 1) mod N)%nat) (λ _,
         bind get_index (λ i',
         bind (if (i' =? start_index)%nat then sleep 2 else ret tt) (λ _,
         attempt_loop env remaining prompt_text start_index)))))))).
Proof. reflexivity. Qed.

Lemma attempt_loop_log prompt_text start_index remaining :
  ∀ w r w',
    (start_index < N)%nat → (S remaining ≤ N)%nat →
    active_gemini_key_index w = ((start_index + (N - S remaining)) mod N)%nat →
    attempt_loop env (S remaining) prompt_text start_index w = (r, w') →
    ∃ d,
      extends w w' d ∧
      pauses d = (short_pauses (attempts d)
                  ++ match r with Raise _ => [2%nat] | Ret _ => [] end)%list ∧
      printed d = failure_lines env (attempts d) ∧
      exchanges d = [] ∧
      (∀ e, r = Raise e → last d = Some (EvSleep 2)).
Proof.
  induction remaining as [|remaining IH]; intros w r w' Hstart Hrem Hcur Hrun.
  all: assert (Hc : (active_gemini_key_index w < N)%nat)
         by (rewrite Hcur; apply Nat.mod_upper_bound; lia).
  all: destruct (lookup_lt_is_Some_2 _ _ Hc) as [key Hkey].
  all: assert (Hnth : nth (active_gemini_key_index w) (gemini_api_keys env) None = key)
         by (by apply nth_lookup_Some with (d := None) in Hkey).
  all: rewrite attempt_loop_round in Hrun.
  all: unfold try_except, bind, initialize_gemini_model, current_key in Hrun.
  all: rewrite Hkey in Hrun; unfold generate_content in Hrun.
  all: destruct (gemini env (generations w) key prompt_text) as [t|msg] eqn:Ho.
  all: try (injection Hrun as <- <-;
            exists [EvGenerate (active_gemini_key_index w) (GenText t)];
            by repeat split).
  all: cbn [active_gemini_key_index generations requests trace] in Hrun.
  all: rewrite Hkey in Hrun.
  all: unfold print, sleep, emit, get_index, set_index, ret, raise in Hrun.
  all: cbn [exn_str] in Hrun; fold (rate_limited msg) in Hrun.
  - assert (Hwrap : (((active_gemini_key_index w + 1) mod N =? start_index)%nat = true)).
    { rewrite Hcur. apply wraps_at_end; lia. }
    destruct (rate_limited msg) eqn:Hlimit; cbn in Hrun; rewrite Hwrap in Hrun;
      cbn in Hrun; injection Hrun as <- <-; eexists; (split;
        [unfold extends; cbn [trace]; rewrite <- !app_assoc; reflexivity|]);
      cbn; unfold failure_line; rewrite ?Hlimit, Hnth; cbn; by repeat split.
  - assert (Hwrap : (((active_gemini_key_index w + 1) mod N =? start_index)%nat = false)).
    { rewrite Hcur. destruct (_ =? _)%nat eqn:Heq; [|done].
      apply wraps_at_end in Heq; lia. }
    assert (Hnext : (((active_gemini_key_index w + 1) mod N)%nat
                     = ((start_index + (N - S remaining)) mod N)%nat)).
    { rewrite Hcur, Nat.Div0.add_mod_idemp_l. f_equal. lia. }
    destruct (rate_limited msg) eqn:Hlimit; cbn -[attempt_loop Nat.modulo] in Hrun;
      rewrite Hwrap in Hrun; cbn -[attempt_loop Nat.modulo] in Hrun;
      (apply IH in Hrun as (d & Hext & Hpauses & Hprinted & Hquiet & Hlast);
       [|done|lia|exact Hnext]);
      unfold extends in Hext; cbn [trace] in Hext;
      (eexists; split;
        [unfold extends; rewrite Hext, <- !app_assoc; reflexivity|]);
      cbn -[last]; unfold failure_line at 1;
      rewrite ?Hlimit, Hnth, Hpauses, Hprinted, Hquiet;
      cbn -[last]; (repeat split; try done);
      intros e He; by rewrite !last_cons, (Hlast e He).
Qed.

Lemma generate_log prompt_text w r w' :
  (active_gemini_key_index w < N)%nat →
  generate_with_gemini_resilience env prompt_text w = (r, w') →
  ∃ d,
    extends w w' d ∧
    pauses d = (short_pauses (attempts d)
                ++ match r with Raise _ => [2%nat] | Ret _ => [] end)%list ∧
    printed d = failure_lines env (attempts d) ∧
    exchanges d = [] ∧
    (∀ e, r = Raise e → last d = Some (EvSleep 2)).
Proof.
  intros Hc Hrun. unfold generate_with_gemini_resilience, bind, get_index in Hrun.
  assert (∃ n, N = S n) as [n Hn] by (exists (pred N); lia).
  rewrite Hn in Hrun. apply attempt_loop_log in Hrun; [done|done|lia|].
  rewrite Hn, Nat.sub_diag, Nat.add_0_r, <- Hn. symmetry. by apply Nat.mod_small.
Qed.

(** X1. The pauses of a call are one second after each failed attempt
    whose error text has "429" or "quota" in it, in the order of the
    attempts, and, when the pool is exhausted, two seconds once, as the
    last thing the call does before it raises; a call that returns a text
    never makes the long pause. *)
Theorem backoff_pauses prompt_text w r w' :
  (active_gemini_key_index w < N)%nat →
  generate_with_gemini_resilience env prompt_text w = (r, w') →
  ∃ d,
    extends w w' d ∧
    pauses d = (short_pauses (attempts d)
                ++ match r with Raise _ => [2%nat] | Ret _ => [] end)%list ∧
    (∀ e, r = Raise e → last d = Some (EvSleep 2)).
Proof.
  intros Hc Hrun.
  destruct (generate_log prompt_text w r w' Hc Hrun) as (d & Hext & Hp & _ & _ & Hlast).
  by exists d.
Qed.

(** X2. Each failed attempt prints one line, which shows the API key the
    attempt used in clear and the text of the error; a call prints nothing
    else. *)
Theorem failed_attempts_print_their_key prompt_text w r w' :
  (active_gemini_key_index w < N)%nat →
  generate_with_gemini_resilience env prompt_text w = (r, w') →
  ∃ d,
    extends w w' d ∧
    printed d = failure_lines env (attempts d) ∧
    ∀ i msg, (i, GenError msg) ∈ attempts d →
             EvPrint (failure_line env i msg) ∈ d.
Proof.
  intros Hc Hrun.
  destruct (generate_log prompt_text w r w' Hc Hrun) as (d & Hext & _ & Hp & _ & _).
  exists d. split; [done|]. split; [done|].
  intros i msg Hin.
  assert (Hline : failure_line env i msg ∈ printed d).
  { rewrite Hp. unfold failure_lines. apply list_elem_of_omap.
    exists (i, GenError msg). by split. }
  clear -Hline. induction d as [|e d IH]; [inversion Hline|].
  destruct e; cbn in Hline; try (right; by apply IH).
  apply elem_of_cons in Hline as [->|Hline]; [left|right; by apply IH].
Qed.

(** X3. A call sends no request to the tracker and advances the count of
    generation attempts by the number of attempts it made; a call that
    exhausts the pool leaves the cursor where it was at call entry, after
    as many attempts as there are keys. With an empty pool the call
    raises at once and changes nothing. *)
Theorem generator_state_accounting prompt_text w :
  (N = 0%nat →
   generate_with_gemini_resilience env prompt_text w = (Raise exhausted, w)) ∧
  ((active_gemini_key_index w < N)%nat →
   ∀ r w', generate_with_gemini_resilience env prompt_text w = (r, w') →
     ∃ d,
       extends w w' d ∧
       exchanges d = [] ∧
       requests w' = requests w ∧
       generations w' = (generations w + length (attempts d))%nat ∧
       (∀ e, r = Raise e →
          active_gemini_key_index w' = active_gemini_key_index w ∧
          generations w' = (generations w + N)%nat)).
Proof.
  split.
  - intros Hempty. unfold generate_with_gemini_resilience, bind, get_index.
    by rewrite Hempty.
  - intros Hc r w' Hrun.
    destruct (generate_log prompt_text w r w' Hc Hrun) as (d & Hext & _ & _ & Hquiet & _).
    apply generate_run in Hrun as (m & d' & _ & Hext' & Hatt & Hreq & Hgen & Hres); [|done].
    assert (d' = d) as ->.
    { unfold extends in Hext. rewrite Hext in Hext'. by apply app_inv_head in Hext'. }
    exists d. split; [done|]. split; [done|]. split; [done|].
    split; [by rewrite Hatt, length_fmap, length_seq|].
    intros e ->. destruct Hres as (_ & -> & Hcur & _). by split.
Qed.

End GeneratorLog.

(** Key 0 is over quota, key 1 answers: one short pause, no long one. *)
Lemma backoff_pauses_witness :
  ∃ d,
    extends initial_world
      (generate_with_gemini_resilience Scenario.second_key_answers "p" initial_world).2 d ∧
    pauses d = [1%nat].
Proof.
  destruct (backoff_pauses Scenario.second_key_answers "p" initial_world (Ret "[]")
              (generate_with_gemini_resilience Scenario.second_key_answers "p"
                 initial_world).2)
    as (d & Hext & Hpauses & _).
  - cbn. lia.
  - vm_compute. reflexivity.
  - exists d. split; [exact Hext|].
    assert (Hd : d = [EvGenerate 0 (GenError "429 quota exceeded");
                      EvPrint "Gemini key key-1 encountered an error: 429 quota exceeded";
                      EvSleep 1; EvGenerate 1 (GenText "[]")]).
    { unfold extends in Hext. vm_compute in Hext. symmetry. exact Hext. }
    rewrite Hpauses, Hd. vm_compute. reflexivity.
Defined.

(** Both keys fail: both keys are printed. *)
Lemma failed_attempts_print_their_key_witness :
  ∃ d,
    extends initial_world
      (generate_with_gemini_resilience Scenario.all_keys_fail "p" initial_world).2 d ∧
    printed d = failure_lines Scenario.all_keys_fail (attempts d).
Proof.
  destruct (failed_attempts_print_their_key Scenario.all_keys_fail "p" initial_world
              (Raise exhausted)
              (generate_with_gemini_resilience Scenario.all_keys_fail "p"
                 initial_world).2)
    as (d & Hext & Hprinted & _).
  - cbn. lia.
  - vm_compute. reflexivity.
  - by exists d.
Defined.

(** Both keys fail: two attempts, cursor back on key 0. *)
Lemma generator_state_accounting_witness :
  ∃ d,
    extends initial_world
      (generate_with_gemini_resilience Scenario.all_keys_fail "p" initial_world).2 d ∧
    exchanges d = [] ∧
    active_gemini_key_index
      (generate_with_gemini_resilience Scenario.all_keys_fail "p" initial_world).2
    = 0%nat.
Proof.
  destruct (proj2 (generator_state_accounting Scenario.all_keys_fail "p" initial_world)
              ltac:(cbn; lia) (Raise exhausted)
              (generate_with_gemini_resilience Scenario.all_keys_fail "p"
                 initial_world).2
              ltac:(vm_compute; reflexivity))
    as (d & Hext & Hquiet & _ & _ & Hraise).
  exists d. split; [exact Hext|]. split; [exact Hquiet|].
  by destruct (Hraise exhausted eq_refl) as [-> _].
Defined.

Example pauses_when_exhausted :
  pauses (trace (generate_with_gemini_resilience Scenario.all_keys_fail "p"
                   initial_world).2) = [2%nat].
Proof. vm_compute. reflexivity. Qed.

(** ** Relations every step of the workflow respects *)

Section Respects.

Variable env : Env.
Variable R : World → World → Prop.
Hypothesis R_refl : ∀ w, R w w.
Hypothesis R_trans : ∀ w1 w2 w3, R w1 w2 → R w2 w3 → R w1 w3.
Hypothesis R_print : ∀ line, respects R (print line).
Hypothesis R_sleep : ∀ seconds, respects R (sleep seconds).
Hypothesis R_http : ∀ req, respects R (http env req).
Hypothesis R_generate :
  ∀ prompt_text, respects R (generate_with_gemini_resilience env prompt_text).

Lemma respects_ret {A} (a : A) : respects R (ret a).
Proof. intros w. apply R_refl. Qed.

Lemma respects_raise {A} (e : exn) : respects R (raise (A:=A) e).
Proof. intros w. apply R_refl. Qed.

Lemma respects_lift {A} (r : result A) : respects R (lift r).
Proof. intros w. apply R_refl. Qed.

Lemma respects_bind {A B} (m : M A) (k : A → M B) :
  respects R m → (∀ a, respects R (k a)) → respects R (bind m k).
Proof.
  intros Hm Hk w. unfold bind. specialize (Hm w).
  destruct (m w) as [[a|e] w1]; cbn [snd] in *; [|done].
  eapply R_trans; [exact Hm|apply Hk].
Qed.

Lemma respects_decode {A} (m : M A) (handler : string → M A) :
  respects R m → (∀ msg, respects R (handler msg)) →
  respects R (try_except_decode m handler).
Proof.
  intros Hm Hh w. unfold try_except_decode. specialize (Hm w).
  destruct (m w) as [[a|e] w1]; cbn [snd] in *; [done|].
  destruct e; try done. eapply R_trans; [exact Hm|apply Hh].
Qed.

Lemma respects_for_each {A} (body : A → M unit) (items : list A) :
  (∀ x, respects R (body x)) → respects R (for_each body items).
Proof.
  intros Hbody. induction items as [|x items IH]; [apply respects_ret|].
  cbn [for_each]. apply respects_bind; [apply Hbody|by intros _].
Qed.

Ltac respect :=
  repeat first
    [ apply respects_ret
    | apply respects_raise
    | apply respects_lift
    | apply R_print
    | apply R_sleep
    | apply R_http
    | apply R_generate
    | apply respects_for_each; intros ?
    | apply respects_bind; [|intros ?]
    | match goal with
      | |- respects _ (if ?b then _ else _) => destruct b
      | |- respects _ (match ?x with _ => _ end) => destruct x
      end ].

Lemma respects_create_jira_issue title description :
  respects R (create_jira_issue env title description).
Proof. unfold create_jira_issue. respect. Qed.

Lemma respects_create_jira_child_issue parent title description :
  respects R (create_jira_child_issue env parent title description).
Proof. unfold create_jira_child_issue. respect. Qed.

Lemma respects_print_issue issue : respects R (print_issue env issue).
Proof. unfold print_issue. respect. Qed.

Lemma respects_get_project_issues : respects R (get_project_issues env).
Proof. unfold get_project_issues. respect. Qed.

Lemma respects_print_link_type link_type : respects R (print_link_type env link_type).
Proof. unfold print_link_type. respect. Qed.

Lemma respects_get_jira_issue_link_types : respects R (get_jira_issue_link_types env).
Proof. unfold get_jira_issue_link_types. respect. Qed.

Lemma respects_link_jira_issues source target relationship :
  respects R (link_jira_issues env source target relationship).
Proof. unfold link_jira_issues. respect. Qed.

Lemma respects_parse_json_from_text raw_text :
  respects R (parse_json_from_text env raw_text).
Proof.
  unfold parse_json_from_text. apply respects_decode; [|intros msg]; respect.
Qed.

Lemma respects_generate_subtasks main_requirement :
  respects R (generate_subtasks_from_requirement env main_requirement).
Proof.
  unfold generate_subtasks_from_requirement. respect.
  all: apply respects_parse_json_from_text.
Qed.

Lemma respects_generate_test_cases task_summary parent_key :
  respects R (generate_test_cases_for_task env task_summary parent_key).
Proof.
  unfold generate_test_cases_for_task. respect.
  all: apply respects_parse_json_from_text.
Qed.

Lemma respects_create_tasks parent_ticket_key link_type_to_use tasks :
  ∀ acc, respects R (create_tasks env parent_ticket_key link_type_to_use tasks acc).
Proof.
  induction tasks as [|task rest IH]; intros acc; cbn [create_tasks]; respect;
    apply IH.
Qed.

Lemma respects_create_and_link_tasks parent_ticket_key task_definitions :
  respects R (create_and_link_tasks env parent_ticket_key task_definitions).
Proof.
  unfold create_and_link_tasks. respect; apply respects_create_tasks.
Qed.

Lemma respects_create_test_case task_key test_case :
  respects R (create_test_case env task_key test_case).
Proof.
  unfold create_test_case. respect.
Qed.

Lemma respects_create_test_cases task_key test_cases :
  ∀ created_test_keys,
    respects R (create_test_cases env task_key test_cases created_test_keys).
Proof.
  induction test_cases as [|test_case rest IH]; intros created_test_keys;
    cbn [create_test_cases]; respect; apply IH.
Qed.

Lemma respects_process_and_create_test_cases task_key task_data :
  respects R (process_and_create_test_cases env task_key task_data).
Proof.
  unfold process_and_create_test_cases. respect;
    first [apply respects_parse_json_from_text | apply respects_create_test_cases].
Qed.

Lemma respects_process_task task_data_map task_key :
  respects R (process_task env task_data_map task_key).
Proof.
  unfold process_task, run_task_tests. respect;
    first [apply respects_parse_json_from_text | apply respects_create_test_cases].
Qed.

Lemma respects_print_titles tasks : ∀ i, respects R (print_titles env i tasks).
Proof.
  induction tasks as [|task rest IH]; intros i; cbn [print_titles]; respect. apply IH.
Qed.

Lemma respects_main main_requirement : respects R (main env main_requirement).
Proof.
  unfold main. respect;
    first [ apply respects_parse_json_from_text
          | apply respects_print_titles
          | apply respects_create_tasks
          | apply respects_create_test_cases ].
Qed.

(** What [main] does after the request for the parent issue. *)
Lemma respects_main_after_parent main_requirement w :
  R (create_jira_issue env (VStr ("Epic: " +:+ main_requirement))
       ("This is the main parent ticket for the requirement: " +:+ main_requirement)
       (print (Str.nl +:+ "Creating a parent ticket for the main requirement...") w).2).2
    (main env main_requirement w).2.
Proof.
  unfold main. unfold bind at 1. unfold print at 1 2, emit at 1 2. cbn [snd].
  unfold bind at 1.
  match goal with |- context [create_jira_issue env ?t ?de ?w0] =>
    destruct (create_jira_issue env t de w0) as [[parent_ticket_key|e] w1]
  end; cbn [snd]; [|apply R_refl].
  match goal with |- R w1 (?m w1).2 => cut (respects R m); [intros H; apply H|] end.
  respect;
    first [ apply respects_parse_json_from_text
          | apply respects_print_titles
          | apply respects_create_tasks
          | apply respects_create_test_cases ].
Qed.

End Respects.

(** ** What the stages leave alone *)

Lemma extends_inj w w' d1 d2 : extends w w' d1 → extends w w' d2 → d1 = d2.
Proof. unfold extends. intros H1 H2. rewrite H1 in H2. by apply app_inv_head in H2. Qed.

Section Without.

Context {B : Type} (obs : list Event → list B).
Hypothesis obs_app : ∀ d1 d2, obs (d1 ++ d2) = (obs d1 ++ obs d2)%list.
Hypothesis obs_nil : obs [] = [].

Lemma without_refl w : without obs w w.
Proof. exists []. split; [apply extends_refl|done]. Qed.

Lemma without_trans w1 w2 w3 :
  without obs w1 w2 → without obs w2 w3 → without obs w1 w3.
Proof.
  intros (d1 & H1 & Ho1) (d2 & H2 & Ho2). exists (d1 ++ d2)%list.
  split; [by eapply extends_trans|]. by rewrite obs_app, Ho1, Ho2.
Qed.

Lemma without_emit e : obs [e] = [] → respects (without obs) (emit e).
Proof. intros He w. by exists [e]. Qed.

End Without.

Lemma grows_refl w : grows w w.
Proof. exists []. apply extends_refl. Qed.

Lemma grows_trans w1 w2 w3 : grows w1 w2 → grows w2 w3 → grows w1 w3.
Proof. intros [d1 H1] [d2 H2]. exists (d1 ++ d2)%list. by eapply extends_trans. Qed.

Lemma same_generator_state_refl w : same_generator_state w w.
Proof. by split. Qed.

Lemma same_generator_state_trans w1 w2 w3 :
  same_generator_state w1 w2 → same_generator_state w2 w3 → same_generator_state w1 w3.
Proof. intros [H1 H2] [H3 H4]. split; congruence. Qed.

Lemma http_without {B} (obs : list Event → list B) env req :
  (∀ resp, obs [EvHttp req resp] = []) → respects (without obs) (http env req).
Proof. intros Hobs w. eexists [_]. split; [done|]. apply Hobs. Qed.

(** Discharges the premises of a [respects] lemma for [without obs]. *)
Ltac without_premises obs_app :=
  first [ by apply without_refl
        | apply without_trans; apply obs_app
        | intros; by apply without_emit
        | intros; by apply http_without ].

Section Frames.

Variable env : Env.

Lemma attempt_loop_quiet prompt_text start_index remaining :
  ∀ w, without exchanges w (attempt_loop env remaining prompt_text start_index w).2.
Proof.
  induction remaining as [|remaining IH]; intros w.
  { by apply (without_refl exchanges). }
  rewrite attempt_loop_round.
  unfold try_except, bind, initialize_gemini_model, current_key, generate_content.
  destruct (gemini_api_keys env !! active_gemini_key_index w) as [key|] eqn:Hkey;
    [|rewrite Hkey; by apply (without_refl exchanges)].
  destruct (gemini env (generations w) key prompt_text) as [t|msg];
    [by eexists [_]|].
  cbn [active_gemini_key_index generations requests trace]. rewrite Hkey.
  unfold print, sleep, emit, get_index, set_index, ret.
  repeat (case_match; simplify_eq;
          cbn [active_gemini_key_index generations requests trace fst snd]).
  all: match goal with
       | |- without _ _ (attempt_loop _ _ _ _ ?w1).2 =>
           destruct (IH w1) as (d & Hext & Hq)
       end.
  all: unfold extends in Hext; cbn [trace] in Hext.
  all: eexists; split;
         [unfold extends; rewrite Hext, <- !app_assoc; reflexivity|by cbn].
Qed.

Lemma generate_quiet prompt_text :
  respects (without exchanges) (generate_with_gemini_resilience env prompt_text).
Proof.
  intros w. unfold generate_with_gemini_resilience, bind, get_index.
  apply attempt_loop_quiet.
Qed.

Lemma generate_subtasks_quiet main_requirement :
  respects (without exchanges) (generate_subtasks_from_requirement env main_requirement).
Proof.
  apply (respects_generate_subtasks env (without exchanges));
    first [apply generate_quiet | without_premises exchanges_app].
Qed.

Lemma generate_test_cases_quiet task_summary parent_key :
  respects (without exchanges) (generate_test_cases_for_task env task_summary parent_key).
Proof.
  apply (respects_generate_test_cases env (without exchanges));
    first [apply generate_quiet | without_premises exchanges_app].
Qed.

(** X4. Nothing but the generator touches the generator's state: creating
    and linking the tasks, and the final report, leave the cursor and the
    count of generation attempts as they found them and make no
    generation attempt, whatever the tracker answers and whether or not
    they raise. *)
Theorem tracker_stages_leave_generator_alone parent_ticket_key task_definitions w :
  same_generator_state w
    (create_and_link_tasks env parent_ticket_key task_definitions w).2 ∧
  without attempts w (create_and_link_tasks env parent_ticket_key task_definitions w).2 ∧
  same_generator_state w (get_project_issues env w).2 ∧
  without attempts w (get_project_issues env w).2.
Proof.
  split; [|split; [|split]].
  - apply (respects_create_and_link_tasks env same_generator_state);
      [apply same_generator_state_refl|apply same_generator_state_trans|..]; by intros.
  - apply (respects_create_and_link_tasks env (without attempts));
      without_premises attempts_app.
  - apply (respects_get_project_issues env same_generator_state);
      [apply same_generator_state_refl|apply same_generator_state_trans|..]; by intros.
  - apply (respects_get_project_issues env (without attempts));
      without_premises attempts_app.
Qed.

(** X5. A run of [main] entered with the cursor inside the pool ends with
    the cursor inside the pool, however it ends: no stage of the workflow
    takes the cursor out of the list of keys. The same holds for each of
    the two planners. *)
Theorem main_keeps_cursor_in_pool main_requirement w :
  in_pool env w →
  in_pool env (main env main_requirement w).2 ∧
  in_pool env (generate_subtasks_from_requirement env main_requirement w).2 ∧
  ∀ task_summary parent_key,
    in_pool env (generate_test_cases_for_task env task_summary parent_key w).2.
Proof.
  intros Hpool.
  pose (R := λ w w' : World, in_pool env w → in_pool env w').
  assert (HR_refl : ∀ w, R w w) by (by intros w0 H0).
  assert (HR_trans : ∀ w1 w2 w3, R w1 w2 → R w2 w3 → R w1 w3)
    by (intros w1 w2 w3 H12 H23 H1; by apply H23, H12).
  assert (HR_print : ∀ line, respects R (print line)) by (by intros line w0 H0).
  assert (HR_sleep : ∀ seconds, respects R (sleep seconds)) by (by intros n w0 H0).
  assert (HR_http : ∀ req, respects R (http env req)) by (by intros req w0 H0).
  assert (HR_gen : ∀ prompt_text,
            respects R (generate_with_gemini_resilience env prompt_text)).
  { intros prompt_text w0 H0. by apply generate_keeps_cursor. }
  split; [|split; [|intros task_summary parent_key]].
  - by apply (respects_main env R HR_refl HR_trans HR_print HR_sleep HR_http HR_gen).
  - by apply (respects_generate_subtasks env R HR_refl HR_trans HR_print HR_gen).
  - by apply (respects_generate_test_cases env R HR_refl HR_trans HR_print HR_gen).
Qed.

(** X6. The two planners send no request to the tracker: whatever the
    generator answers, wherever the cursor stands and whether or not they
    raise, what they do is generation attempts, pauses and printed
    lines. *)
Theorem planners_send_no_request w :
  (∀ main_requirement,
     without exchanges w (generate_subtasks_from_requirement env main_requirement w).2) ∧
  (∀ task_summary parent_key,
     without exchanges w
       (generate_test_cases_for_task env task_summary parent_key w).2).
Proof.
  split.
  - intros main_requirement. by apply generate_subtasks_quiet.
  - intros task_summary parent_key. by apply generate_test_cases_quiet.
Qed.

End Frames.

(** The parent is created and the generator answers prose: the cursor is
    still on a key of the pool when [main] returns. *)
Lemma main_keeps_cursor_in_pool_witness :
  in_pool MainExample.prose_answer
    (main MainExample.prose_answer MainExample.requirement initial_world).2.
Proof.
  apply (proj1 (main_keeps_cursor_in_pool MainExample.prose_answer
                  MainExample.requirement initial_world ltac:(unfold in_pool; cbn; lia))).
Defined.

(** ** One round of the loop over the tasks *)

Section Rounds.

Variable env : Env.

Lemma create_jira_issue_round title description w :
  ∃ d w',
    create_jira_issue env title description w
      = (created_key_of (jira env (requests w) (PostIssue title description)), w') ∧
    extends w w' d ∧
    exchanges d = [(PostIssue title description,
                    jira env (requests w) (PostIssue title description))] ∧
    pauses d = [] ∧ attempts d = [].
Proof.
  destruct (create_jira_issue_run env title description w) as (d & w' & Hrun & Hext & Hex).
  exists d, w'. repeat (split; [done|]).
  assert (Hp : without pauses w (create_jira_issue env title description w).2).
  { apply (respects_create_jira_issue env (without pauses)); without_premises pauses_app. }
  assert (Ha : without attempts w (create_jira_issue env title description w).2).
  { apply (respects_create_jira_issue env (without attempts)); without_premises attempts_app. }
  rewrite Hrun in Hp, Ha. cbn [snd] in Hp, Ha.
  destruct Hp as (d1 & Hext1 & Hp). destruct Ha as (d2 & Hext2 & Ha).
  rewrite (extends_inj _ _ _ _ Hext Hext1) at 1.
  by rewrite (extends_inj _ _ _ _ Hext Hext2).
Qed.

Lemma create_jira_child_issue_round parent title description w :
  ∃ d w',
    create_jira_child_issue env parent title description w
      = (created_key_of (jira env (requests w) (PostSubtask parent title description)), w') ∧
    extends w w' d ∧
    exchanges d = [(PostSubtask parent title description,
                    jira env (requests w) (PostSubtask parent title description))] ∧
    pauses d = [] ∧ attempts d = [].
Proof.
  destruct (create_jira_child_issue_run env parent title description w)
    as (d & w' & Hrun & Hext & Hex).
  exists d, w'. repeat (split; [done|]).
  assert (Hp : without pauses w
                 (create_jira_child_issue env parent title description w).2).
  { apply (respects_create_jira_child_issue env (without pauses)); without_premises pauses_app. }
  assert (Ha : without attempts w
                 (create_jira_child_issue env parent title description w).2).
  { apply (respects_create_jira_child_issue env (without attempts)); without_premises attempts_app. }
  rewrite Hrun in Hp, Ha. cbn [snd] in Hp, Ha.
  destruct Hp as (d1 & Hext1 & Hp). destruct Ha as (d2 & Hext2 & Ha).
  rewrite (extends_inj _ _ _ _ Hext Hext1) at 1.
  by rewrite (extends_inj _ _ _ _ Hext Hext2).
Qed.

Lemma link_jira_issues_round source target relationship w :
  ∃ d w' b,
    link_jira_issues env source target relationship w = (Ret (VBool b), w') ∧
    extends w w' d ∧
    (∃ response, exchanges d = [(PostLink source target relationship, response)]) ∧
    pauses d = [].
Proof.
  destruct (link_jira_issues_run env source target relationship w)
    as (d & w' & b & Hrun & Hext & Hex).
  exists d, w', b. split; [done|]. split; [done|]. split; [eauto|].
  assert (Hp : without pauses w (link_jira_issues env source target relationship w).2).
  { apply (respects_link_jira_issues env (without pauses)); without_premises pauses_app. }
  rewrite Hrun in Hp. cbn [snd] in Hp. destruct Hp as (d1 & Hext1 & Hp).
  by rewrite (extends_inj _ _ _ _ Hext Hext1).
Qed.

Variables parent_ticket_key link_type_to_use : pyval.

(** A round either stops the loop by raising, or hands the rest of the tasks
    to the loop. It raises before any request when the task lacks a field,
    and after the creation request when the response cannot be read or the
    key cannot be a dict key. *)
Lemma create_tasks_round task rest acc w r w' :
  create_tasks env parent_ticket_key link_type_to_use (task :: rest) acc w = (r, w') →
  (is_Raise r ∧ ¬ well_formed_task task ∧ w' = w) ∨
  (well_formed_task task ∧
   ∃ d1 w1 title description response,
     Py.getitem task "title" = Ret title ∧
     extends w w1 d1 ∧
     exchanges d1 = [(PostIssue title description, response)] ∧
     pauses d1 = [] ∧
     ((is_Raise r ∧ w' = w1) ∨
      (created_key response = None ∧
       create_tasks env parent_ticket_key link_type_to_use rest acc w1 = (r, w')) ∨
      (∃ k kk d2 w2,
         created_key response = Some k ∧ Py.hash k = Ret kk ∧
         extends w1 w2 d2 ∧
         (if Py.truthy link_type_to_use
          then (∃ response2,
                  exchanges d2 = [(PostLink parent_ticket_key k link_type_to_use,
                                   response2)]) ∧
               pauses d2 = [1%nat]
          else d2 = []) ∧
         create_tasks env parent_ticket_key link_type_to_use rest
           ((acc.1 ++ [k])%list, <[kk:=task]> acc.2) w2 = (r, w')))).
Proof.
  intros Hrun. cbn [create_tasks] in Hrun. unfold bind at 1 2 3 4, lift in Hrun.
  destruct (Py.getitem task "summary") as [summary|e] eqn:Hsummary;
    [|injection Hrun as <- <-; left; repeat split; try done;
      intros (? & ? & ? & ? & ? & ? & ? & ?); congruence].
  destruct (Py.getitem task "category") as [category|e] eqn:Hcategory;
    [|injection Hrun as <- <-; left; repeat split; try done;
      intros (? & ? & ? & ? & ? & ? & ? & ?); congruence].
  destruct (Py.getitem task "component") as [component|e] eqn:Hcomponent;
    [|injection Hrun as <- <-; left; repeat split; try done;
      intros (? & ? & ? & ? & ? & ? & ? & ?); congruence].
  destruct (Py.getitem task "title") as [title|e] eqn:Htitle;
    [|injection Hrun as <- <-; left; repeat split; try done;
      intros (? & ? & ? & ? & ? & ? & ? & ?); congruence].
  right. split; [by exists summary, category, component, title|].
  unfold bind at 1 in Hrun.
  match type of Hrun with context [create_jira_issue env title ?desc w] =>
    destruct (create_jira_issue_round title desc w)
      as (d1 & w1 & Hrun1 & Hext1 & Hex1 & Hp1 & _);
    rewrite Hrun1 in Hrun;
    exists d1, w1, title, desc, (jira env (requests w) (PostIssue title desc));
    set (response := jira env (requests w) (PostIssue title desc)) in *
  end.
  repeat (split; [done|]).
  assert (Hcreated : created_key response
                     = match created_key_of response with
                       | Ret key => if Py.truthy key then Some key else None
                       | Raise _ => None
                       end) by done.
  destruct (created_key_of response) as [k|e];
    [|injection Hrun as <- <-; by left].
  destruct (Py.truthy k) eqn:Hk.
  - unfold bind at 1, lift in Hrun.
    destruct (Py.hash k) as [kk|e] eqn:Hhash;
      [|injection Hrun as <- <-; by left].
    right. right. destruct (Py.truthy link_type_to_use) eqn:Hlt.
    + unfold bind, sleep, emit in Hrun.
      match type of Hrun with context [link_jira_issues env ?a ?b ?c ?w0] =>
        destruct (link_jira_issues_round a b c w0)
          as (d2 & w2 & linked & Hrun2 & Hext2 & Hex2 & Hp2);
        rewrite Hrun2 in Hrun
      end.
      unfold ret in Hrun.
      exists k, kk, (EvSleep 1 :: d2), w2. repeat (split; [done|]). split.
      { unfold extends in *. cbn [trace] in Hext2. by rewrite Hext2, <- app_assoc. }
      split; [|done]. split; [done|]. cbn. by rewrite Hp2.
    + unfold bind, ret in Hrun. exists k, kk, [], w1.
      repeat (split; [done|]). split; [apply extends_refl|]. by split.
  - right. left. by split.
Qed.

End Rounds.
(** ** Budget and pacing of the task stage *)

Lemma paced_nil n : paced n [].
Proof. repeat split; cbn; lia. Qed.

Lemma paced_app n1 n2 d1 d2 : paced n1 d1 → paced n2 d2 → paced (n1 + n2) (d1 ++ d2).
Proof.
  intros (Hx1 & Hi1 & Hl1 & Hp1) (Hx2 & Hi2 & Hl2 & Hp2).
  unfold paced.
  rewrite exchanges_app, issue_posts_app, link_attempts_app, created_keys_app, pauses_app.
  rewrite !length_app, Hp1, Hp2, replicate_add. repeat split; try done; lia.
Qed.

Lemma paced_creation title description response d :
  exchanges d = [(PostIssue title description, response)] → pauses d = [] →
  paced 1 d.
Proof.
  intros Hex Hp. destruct (posted_issue_only _ _ _ _ Hex) as (Hposts & Hkeys & Hlinks).
  unfold paced. rewrite Hex, Hposts, Hlinks, Hp. cbn. repeat split; try done; lia.
Qed.

Lemma paced_round title description response k outward type_name response2 d1 d2 :
  exchanges d1 = [(PostIssue title description, response)] → pauses d1 = [] →
  created_key response = Some k →
  exchanges d2 = [(PostLink outward k type_name, response2)] → pauses d2 = [1%nat] →
  paced 1 (d1 ++ d2).
Proof.
  intros Hex1 Hp1 Hk Hex2 Hp2.
  destruct (posted_issue_only _ _ _ _ Hex1) as (Hposts1 & Hkeys1 & Hlinks1).
  destruct (posted_link_only _ _ _ _ _ Hex2) as (Hposts2 & Hkeys2 & Hlinks2).
  unfold paced.
  rewrite exchanges_app, issue_posts_app, link_attempts_app, created_keys_app, pauses_app.
  rewrite Hex1, Hex2, Hposts1, Hposts2, Hkeys1, Hkeys2, Hlinks1, Hlinks2, Hp1, Hp2, Hk.
  cbn. repeat split; try done; lia.
Qed.

Section Budget.

Variable env : Env.
Variables parent_ticket_key link_type_to_use : pyval.

Lemma create_tasks_paced tasks :
  ∀ acc w r w',
    create_tasks env parent_ticket_key link_type_to_use tasks acc w = (r, w') →
    ∃ d, extends w w' d ∧ paced (length tasks) d.
Proof.
  induction tasks as [|task rest IH]; intros acc w r w' Hrun.
  { injection Hrun as <- <-. exists []. split; [apply extends_refl|apply paced_nil]. }
  apply create_tasks_round in Hrun
    as [(_ & _ & ->)|(_ & d1 & w1 & title & description & response & _ & Hext1 & Hex1 & Hp1
                      & [(_ & ->)|[(_ & Hrun)|(k & kk & d2 & w2 & Hk & _ & Hext2 & Hd2 & Hrun)]])].
  - exists []. split; [apply extends_refl|apply paced_nil].
  - exists d1. split; [done|]. rewrite <- (app_nil_r d1).
    apply (paced_app 1 (length rest)); [by eapply paced_creation|apply paced_nil].
  - apply IH in Hrun as (d & Hext & Hpaced). exists (d1 ++ d)%list.
    split; [by eapply extends_trans|].
    apply (paced_app 1 (length rest)); [by eapply paced_creation|done].
  - apply IH in Hrun as (d & Hext & Hpaced). exists ((d1 ++ d2) ++ d)%list.
    split; [eapply extends_trans; [by eapply extends_trans|done]|].
    apply (paced_app 1 (length rest)); [|done].
    destruct (Py.truthy link_type_to_use).
    + destruct Hd2 as [[response2 Hex2] Hp2]. by eapply paced_round.
    + subst d2. rewrite app_nil_r. by eapply paced_creation.
Qed.

(** A task that lacks one of its four fields ends the loop: the tasks
    after it get no creation request. *)
Lemma create_tasks_abort pre bad post :
  ¬ well_formed_task bad →
  ∀ acc w r w',
    create_tasks env parent_ticket_key link_type_to_use (pre ++ bad :: post) acc w
      = (r, w') →
    is_Raise r ∧ ∃ d, extends w w' d ∧ (length (issue_posts d) ≤ length pre)%nat.
Proof.
  intros Hbad. induction pre as [|task pre IH]; intros acc w r w' Hrun.
  all: cbn [app] in Hrun.
  all: apply create_tasks_round in Hrun
    as [(Hraise & _ & ->)
       |(Hwf & d1 & w1 & title & description & response & _ & Hext1 & Hex1 & Hp1
         & [(Hraise & ->)|[(_ & Hrun)|(k & kk & d2 & w2 & Hk & _ & Hext2 & Hd2 & Hrun)]])];
    try done.
  all: try (split; [done|]; exists []; split; [apply extends_refl|cbn; lia]).
  - split; [done|]. exists d1. split; [done|].
    destruct (posted_issue_only _ _ _ _ Hex1) as (-> & _). cbn. lia.
  - apply IH in Hrun as (Hraise & d & Hext & Hlen). split; [done|].
    exists (d1 ++ d)%list. split; [by eapply extends_trans|].
    destruct (posted_issue_only _ _ _ _ Hex1) as (Hposts & _).
    rewrite issue_posts_app, length_app, Hposts. cbn. lia.
  - apply IH in Hrun as (Hraise & d & Hext & Hlen). split; [done|].
    exists ((d1 ++ d2) ++ d)%list.
    split; [eapply extends_trans; [by eapply extends_trans|done]|].
    destruct (posted_issue_only _ _ _ _ Hex1) as (Hposts & _).
    assert (Hnone : issue_posts d2 = []).
    { destruct (Py.truthy link_type_to_use); [|by subst d2].
      destruct Hd2 as [[response2 Hex2] _].
      by destruct (posted_link_only _ _ _ _ _ Hex2) as (-> & _). }
    rewrite !issue_posts_app, !length_app, Hposts, Hnone. cbn. lia.
Qed.

End Budget.
Lemma length_omap_le {A B} (f : A → option B) (l : list A) :
  (length (omap f l) ≤ length l)%nat.
Proof. induction l as [|x l IH]; cbn; [done|]. destruct (f x); cbn; lia. Qed.

Lemma for_each_raises {A} (body : A → M unit) (items : list A) x :
  x ∈ items → (∀ w, is_Raise (body x w).1) → ∀ w, is_Raise (for_each body items w).1.
Proof.
  intros Hin Hbody. induction items as [|y items IH]; intros w; [inversion Hin|].
  cbn [for_each]. unfold bind.
  apply elem_of_cons in Hin as [<-|Hin].
  - specialize (Hbody w). by destruct (body x w) as [[[]|e] w1].
  - destruct (body y w) as [[[]|e] w1]; [|done]. by apply IH.
Qed.

Section Stage.

Variable env : Env.

(** The call fetches the link types, and either raises before the loop
    over the tasks or is that loop. *)
Lemma create_and_link_tasks_stage parent_ticket_key task_definitions w r w' :
  create_and_link_tasks env parent_ticket_key task_definitions w = (r, w') →
  ∃ d0 w0,
    extends w w0 d0 ∧
    exchanges d0 = [(GetLinkTypes, jira env (requests w) GetLinkTypes)] ∧
    pauses d0 = [] ∧
    ((is_Raise r ∧ w' = w0) ∨
     (∃ available link_type_to_use tasks,
        (get_jira_issue_link_types env w).1 = Ret available ∧
        select_link_type available = Ret link_type_to_use ∧
        Py.iter task_definitions = Ret tasks ∧
        create_tasks env parent_ticket_key link_type_to_use tasks ([], ∅) w0 = (r, w'))).
Proof.
  intros Hrun.
  destruct (get_jira_issue_link_types_run env w) as (d0 & Hext0 & Hex0).
  assert (Hp0 : without pauses w (get_jira_issue_link_types env w).2).
  { apply (respects_get_jira_issue_link_types env (without pauses));
      without_premises pauses_app. }
  destruct Hp0 as (d0' & Hext0' & Hp0).
  rewrite <- (extends_inj _ _ _ _ Hext0 Hext0') in Hp0. clear d0' Hext0'.
  unfold create_and_link_tasks in Hrun. unfold bind at 1 in Hrun.
  destruct (get_jira_issue_link_types env w) as [[available|e] w0];
    cbn [fst snd] in *.
  2:{ injection Hrun as <- <-. exists d0, w0. repeat (split; [done|]). by left. }
  unfold bind at 1, lift in Hrun.
  destruct (select_link_type available) as [link_type_to_use|e] eqn:Hselect.
  2:{ injection Hrun as <- <-. exists d0, w0. repeat (split; [done|]). by left. }
  unfold bind at 1 in Hrun.
  assert (∃ line,
            (let w1 := mkWorld (active_gemini_key_index w0) (generations w0)
                         (requests w0) (trace w0 ++ [EvPrint line]) in
             bind (lift (Py.iter task_definitions))
               (λ tasks, create_tasks env parent_ticket_key link_type_to_use tasks ([], ∅))
               w1 = (r, w'))) as [line Hrest].
  { destruct (Py.truthy link_type_to_use); unfold print, emit in Hrun; by eexists. }
  cbn zeta in Hrest. unfold bind, lift in Hrest.
  exists (d0 ++ [EvPrint line])%list,
    (mkWorld (active_gemini_key_index w0) (generations w0) (requests w0)
       (trace w0 ++ [EvPrint line])).
  split; [eapply extends_trans; [exact Hext0|done]|].
  rewrite exchanges_app, pauses_app, Hex0, Hp0. repeat (split; [done|]).
  destruct (Py.iter task_definitions) as [tasks|e].
  - right. by exists available, link_type_to_use, tasks.
  - injection Hrest as <- <-. by left.
Qed.

Lemma select_link_type_offered available link_type_to_use :
  select_link_type available = Ret link_type_to_use →
  Py.truthy link_type_to_use = true →
  ∃ names, link_type_names available = Ret names ∧ link_type_to_use ∈ names.
Proof.
  unfold select_link_type.
  destruct (link_type_names available) as [names|e] eqn:Hnames; [|done].
  cbn [rbind]. intros Hselect Htrue. exists names. split; [done|].
  destruct (List.find _ preferred_link_types) as [t|] eqn:Hfind.
  - apply find_some in Hfind as [Hin Hamong]. apply name_among in Hamong.
    rewrite preferred_names_true in Hselect by (by apply list_elem_of_In).
    cbn in Hselect. by injection Hselect as <-.
  - cbn [Py.truthy negb andb] in Hselect.
    destruct (Py.truthy available) eqn:Havailable;
      [|injection Hselect as <-; done].
    unfold link_type_names in Hnames.
    destruct available as [| | |s|[|first rest]|d]; try done.
    + cbn in Hselect, Hnames. destruct s as [|c s]; [done|]. by cbn in Hselect.
    + cbn in Hselect, Hnames. rewrite Hselect in Hnames.
      destruct (rmap _ rest) as [others|e]; [|done].
      injection Hnames as <-. left.
Qed.

Lemma create_tasks_links parent_ticket_key link_type_to_use tasks :
  ∀ acc w r w',
    create_tasks env parent_ticket_key link_type_to_use tasks acc w = (r, w') →
    ∃ d,
      extends w w' d ∧
      Forall (λ link, link.1.1 = parent_ticket_key ∧ link.1.2 ∈ created_keys d ∧
                      link.2 = link_type_to_use ∧ Py.truthy link_type_to_use = true)
        (link_attempts d).
Proof.
  induction tasks as [|task rest IH]; intros acc w r w' Hrun.
  { injection Hrun as <- <-. exists []. split; [apply extends_refl|constructor]. }
  apply create_tasks_round in Hrun
    as [(_ & _ & ->)|(_ & d1 & w1 & title & description & response & _ & Hext1 & Hex1 & Hp1
                      & [(_ & ->)|[(_ & Hrun)|(k & kk & d2 & w2 & Hk & _ & Hext2 & Hd2 & Hrun)]])].
  - exists []. split; [apply extends_refl|constructor].
  - exists d1. split; [done|].
    destruct (posted_issue_only _ _ _ _ Hex1) as (_ & _ & ->). constructor.
  - apply IH in Hrun as (d & Hext & Hall). exists (d1 ++ d)%list.
    split; [by eapply extends_trans|].
    destruct (posted_issue_only _ _ _ _ Hex1) as (_ & _ & Hlinks1).
    rewrite link_attempts_app, created_keys_app, Hlinks1. cbn [app].
    eapply Forall_impl; [exact Hall|]. intros link (? & ? & ? & ?).
    repeat split; try done. apply elem_of_app. by right.
  - apply IH in Hrun as (d & Hext & Hall). exists ((d1 ++ d2) ++ d)%list.
    split; [eapply extends_trans; [by eapply extends_trans|done]|].
    destruct (posted_issue_only _ _ _ _ Hex1) as (_ & Hkeys1 & Hlinks1).
    rewrite Hk in Hkeys1. cbn in Hkeys1.
    rewrite !link_attempts_app, !created_keys_app, Hlinks1, Hkeys1. cbn [app].
    apply Forall_app. split.
    + destruct (Py.truthy link_type_to_use) eqn:Htrue; [|subst d2; constructor].
      destruct Hd2 as [[response2 Hex2] _].
      destruct (posted_link_only _ _ _ _ _ Hex2) as (_ & _ & ->).
      constructor; [|constructor]. repeat split; try done. cbn. left.
    + eapply Forall_impl; [exact Hall|]. intros link (? & ? & ? & ?).
      repeat split; try done. right. apply elem_of_app. by right.
Qed.

(** X7. The task stage on [n] tasks sends the request for the link
    types first and then nothing but issue creations and link requests:
    at most one creation per task and no more links than created keys,
    hence at most [1 + 2 n] requests; and it pauses for one second per
    link request and not otherwise. This holds for the runs that raise
    as for those that return. *)
Theorem task_stage_budget parent_ticket_key task_definitions tasks w :
  Py.iter task_definitions = Ret tasks →
  ∃ d rest,
    extends w (create_and_link_tasks env parent_ticket_key task_definitions w).2 d ∧
    exchanges d = (GetLinkTypes, jira env (requests w) GetLinkTypes) :: rest ∧
    length rest = (length (issue_posts d) + length (link_attempts d))%nat ∧
    (length (issue_posts d) ≤ length tasks)%nat ∧
    (length (link_attempts d) ≤ length (created_keys d))%nat ∧
    (length (exchanges d) ≤ 1 + 2 * length tasks)%nat ∧
    pauses d = replicate (length (link_attempts d)) 1%nat.
Proof.
  intros Hiter.
  destruct (create_and_link_tasks env parent_ticket_key task_definitions w)
    as [r w'] eqn:Hrun.
  apply create_and_link_tasks_stage in Hrun
    as (d0 & w0 & Hext0 & Hex0 & Hp0
        & [(_ & ->)|(available & link_type_to_use & tasks' & _ & _ & Hiter' & Hloop)]).
  all: destruct (fetched_types_only _ _ Hex0) as (Hposts0 & Hkeys0 & Hlinks0).
  - exists d0, []. cbn [snd]. rewrite Hex0, Hposts0, Hkeys0, Hlinks0, Hp0. cbn.
    repeat split; try done; lia.
  - rewrite Hiter in Hiter'. injection Hiter' as <-.
    apply create_tasks_paced in Hloop as (d & Hext & Hx & Hi & Hl & Hp).
    exists (d0 ++ d)%list, (exchanges d). cbn [snd].
    split; [by eapply extends_trans|].
    rewrite exchanges_app, issue_posts_app, link_attempts_app, created_keys_app, pauses_app.
    rewrite Hex0, Hposts0, Hkeys0, Hlinks0, Hp0. cbn [app length].
    pose proof (length_omap_le (λ post, created_key post.2) (issue_posts d)) as Hck.
    fold (created_keys d) in Hck.
    repeat split; try done; lia.
Qed.

(** X8. A task definition that lacks one of the four fields the loop
    reads ends the stage with an exception when the loop gets to it:
    only the tasks before it can have been sent to the tracker, and
    nothing is returned for those that were created. *)
Theorem malformed_task_ends_stage parent_ticket_key task_definitions pre bad post w :
  Py.iter task_definitions = Ret (pre ++ bad :: post)%list →
  ¬ well_formed_task bad →
  is_Raise (create_and_link_tasks env parent_ticket_key task_definitions w).1 ∧
  ∃ d,
    extends w (create_and_link_tasks env parent_ticket_key task_definitions w).2 d ∧
    (length (issue_posts d) ≤ length pre)%nat.
Proof.
  intros Hiter Hbad.
  destruct (create_and_link_tasks env parent_ticket_key task_definitions w)
    as [r w'] eqn:Hrun.
  apply create_and_link_tasks_stage in Hrun
    as (d0 & w0 & Hext0 & Hex0 & Hp0
        & [(Hraise & ->)|(available & link_type_to_use & tasks' & _ & _ & Hiter' & Hloop)]).
  all: destruct (fetched_types_only _ _ Hex0) as (Hposts0 & _).
  - split; [done|]. exists d0. split; [done|]. rewrite Hposts0. cbn. lia.
  - rewrite Hiter in Hiter'. injection Hiter' as <-.
    apply create_tasks_abort in Hloop as (Hraise & d & Hext & Hlen); [|done].
    split; [done|]. exists (d0 ++ d)%list. split; [by eapply extends_trans|].
    by rewrite issue_posts_app, Hposts0.
Qed.

(** Printing a link type reads its three fields. *)
Lemma print_link_type_raises link_type field :
  field ∈ ["name"; "inward"; "outward"] →
  is_Raise (Py.getitem link_type field) →
  ∀ w, is_Raise (print_link_type env link_type w).1.
Proof.
  intros Hfield Hraise w. unfold print_link_type, bind, lift, print, emit.
  repeat (apply elem_of_cons in Hfield as [->|Hfield]);
    [..|inversion Hfield];
    repeat (destruct (Py.getitem link_type _); try done).
Qed.

(** X9. The listing of the link types reads [name], [inward] and
    [outward] of every available type: one type that lacks one of them
    makes the task stage raise after its first request, so that no issue
    is created for any task. *)
Theorem malformed_link_type_stops_creation parent_ticket_key task_definitions w
    body link_types link_type field :
  let response := jira env (requests w) GetLinkTypes in
  status_code response = 200 →
  json response = Ret body →
  Py.get body "issueLinkTypes" (VList []) = Ret (VList link_types) →
  link_type ∈ link_types →
  field ∈ ["name"; "inward"; "outward"] →
  is_Raise (Py.getitem link_type field) →
  is_Raise (create_and_link_tasks env parent_ticket_key task_definitions w).1 ∧
  ∃ d,
    extends w (create_and_link_tasks env parent_ticket_key task_definitions w).2 d ∧
    exchanges d = [(GetLinkTypes, response)].
Proof.
  intros response Hstatus Hbody Htypes Hin Hfield Hmissing.
  assert (Hfetch : is_Raise (get_jira_issue_link_types env w).1).
  { unfold get_jira_issue_link_types. unfold bind at 1, http. fold response.
    rewrite Hstatus. cbn [Z.eqb Pos.eqb]. unfold bind at 1, lift. rewrite Hbody.
    unfold bind at 1. rewrite Htypes. unfold bind at 1, print, emit.
    unfold bind at 1. cbn [Py.iter]. unfold bind at 1.
    match goal with |- context [for_each ?b ?l ?w1] =>
      pose proof (for_each_raises b l link_type Hin
                    (print_link_type_raises link_type field Hfield Hmissing) w1) as Hloop;
      destruct (for_each b l w1) as [[[]|e] w2]
    end; done. }
  destruct (get_jira_issue_link_types_run env w) as (d0 & Hext0 & Hex0).
  destruct (create_and_link_tasks env parent_ticket_key task_definitions w)
    as [r w'] eqn:Hrun.
  unfold create_and_link_tasks in Hrun. unfold bind at 1 in Hrun.
  destruct (get_jira_issue_link_types env w) as [[available|e] w0]; [done|].
  injection Hrun as <- <-. split; [done|]. by exists d0.
Qed.

(** X10. Every link request of the task stage goes from the parent to a
    key that an issue creation of this stage returned, with the one link
    type the stage chose, and that type is the name of a link type the
    tracker offered in answer to the stage's first request. *)
Theorem links_use_an_offered_type parent_ticket_key task_definitions w :
  ∃ d,
    extends w (create_and_link_tasks env parent_ticket_key task_definitions w).2 d ∧
    ∀ outward inward type_name,
      (outward, inward, type_name) ∈ link_attempts d →
      outward = parent_ticket_key ∧ inward ∈ created_keys d ∧
      ∃ available names,
        (get_jira_issue_link_types env w).1 = Ret available ∧
        link_type_names available = Ret names ∧
        type_name ∈ names.
Proof.
  destruct (create_and_link_tasks env parent_ticket_key task_definitions w)
    as [r w'] eqn:Hrun.
  apply create_and_link_tasks_stage in Hrun
    as (d0 & w0 & Hext0 & Hex0 & Hp0
        & [(_ & ->)|(available & link_type_to_use & tasks & Hfetch & Hselect & _ & Hloop)]).
  all: destruct (fetched_types_only _ _ Hex0) as (_ & Hkeys0 & Hlinks0).
  - exists d0. split; [done|]. rewrite Hlinks0. intros ??? Hin. inversion Hin.
  - apply create_tasks_links in Hloop as (d & Hext & Hall).
    exists (d0 ++ d)%list. cbn [snd]. split; [by eapply extends_trans|].
    rewrite link_attempts_app, created_keys_app, Hlinks0, Hkeys0. cbn [app].
    intros outward inward type_name Hin.
    rewrite Forall_forall in Hall.
    destruct (Hall _ Hin) as (Hout & Hinward & Htype & Htrue). cbn in *.
    repeat (split; [done|]). exists available.
    destruct (select_link_type_offered _ _ Hselect Htrue) as (names & Hnames & Hoffered).
    exists names. by subst.
Qed.

End Stage.

(** Three tasks, the second refused: at most seven requests. *)
Lemma task_stage_budget_witness :
  ∃ d rest,
    extends initial_world
      (create_and_link_tasks Scenario.second_creation_fails StageExample.parent
         Scenario.three_tasks initial_world).2 d ∧
    exchanges d = (GetLinkTypes, Scenario.link_types ["Blocks"]) :: rest ∧
    (length (exchanges d) ≤ 7)%nat ∧
    pauses d = replicate (length (link_attempts d)) 1%nat.
Proof.
  destruct (task_stage_budget Scenario.second_creation_fails StageExample.parent
              Scenario.three_tasks
              [Scenario.task "api"; Scenario.task "ui"; Scenario.task "tests"]
              initial_world eq_refl)
    as (d & rest & Hext & Hex & _ & _ & _ & Hlen & Hpauses).
  exists d, rest. split; [exact Hext|]. split; [exact Hex|]. split; [exact Hlen|].
  exact Hpauses.
Defined.

(** The second of three tasks has only a title. *)
Lemma malformed_task_ends_stage_witness :
  is_Raise (create_and_link_tasks Scenario.second_creation_fails StageExample.parent
              StageExample.incomplete_tasks initial_world).1.
Proof.
  apply (proj1 (malformed_task_ends_stage Scenario.second_creation_fails
                  StageExample.parent StageExample.incomplete_tasks
                  [Scenario.task "api"] StageExample.untitled [Scenario.task "tests"]
                  initial_world eq_refl ltac:(by intros (? & ? & ? & ? & ? & _)))).
Defined.

(** The one link type the tracker offers has no [inward]. *)
Lemma malformed_link_type_stops_creation_witness :
  is_Raise (create_and_link_tasks StageExample.bare_link_type StageExample.parent
              Scenario.three_tasks initial_world).1.
Proof.
  apply (proj1 (malformed_link_type_stops_creation StageExample.bare_link_type
                  StageExample.parent Scenario.three_tasks initial_world
                  (VDict [("issueLinkTypes", VList [VDict [("name", VStr "Blocks")]])])
                  [VDict [("name", VStr "Blocks")]] (VDict [("name", VStr "Blocks")])
                  "inward" eq_refl eq_refl eq_refl
                  ltac:(by constructor) ltac:(by do 2 constructor) I)).
Defined.

(** Every link of the scripted run starts at the parent. *)
Lemma links_use_an_offered_type_witness :
  ∃ d,
    extends initial_world
      (create_and_link_tasks Scenario.second_creation_fails StageExample.parent
         Scenario.three_tasks initial_world).2 d ∧
    ∀ outward inward type_name,
      (outward, inward, type_name) ∈ link_attempts d → outward = StageExample.parent.
Proof.
  destruct (links_use_an_offered_type Scenario.second_creation_fails StageExample.parent
              Scenario.three_tasks initial_world) as (d & Hext & Hall).
  exists d. split; [exact Hext|].
  intros outward inward type_name Hin. by destruct (Hall _ _ _ Hin) as [-> _].
Defined.
(** ** The link type in use *)

(** The selection, from the names of the available link types. *)
Lemma select_link_type_cases available names :
  link_type_names available = Ret names →
  ∃ link_type_to_use,
    select_link_type available = Ret link_type_to_use ∧
    (∀ before t after,
       preferred_link_types = (before ++ t :: after)%list →
       VStr t ∈ names → (∀ u, u ∈ before → VStr u ∉ names) →
       link_type_to_use = VStr t) ∧
    ((∀ u, u ∈ preferred_link_types → VStr u ∉ names) →
     link_type_to_use = match names with name :: _ => name | [] => VNone end).
Proof.
  intros Hnames. unfold select_link_type. rewrite Hnames. cbn [rbind].
  destruct (List.find (λ t, existsb (Py.eq_str t) names) preferred_link_types)
    as [found|] eqn:Hfind.
  - pose proof Hfind as Hfound. apply find_some in Hfound as [Hin Hamong].
    apply name_among in Hamong.
    rewrite preferred_names_true by (by apply list_elem_of_In). cbn [negb andb].
    exists (VStr found). split; [done|]. split.
    + intros before t after Hpref Ht Hbefore. rewrite Hpref in Hfind.
      rewrite find_first_match in Hfind; [by injection Hfind as ->|by apply name_among|].
      intros u Hu. by apply name_not_among, Hbefore.
    + intros Hnone. destruct (Hnone found); [by apply list_elem_of_In|done].
  - assert (Hnone : ∀ u, u ∈ preferred_link_types → VStr u ∉ names).
    { intros u Hu Hamong. apply name_among in Hamong.
      apply list_elem_of_In in Hu.
      by rewrite (find_none _ _ Hfind u Hu) in Hamong. }
    cbn [Py.truthy negb andb].
    assert (Hfallback : ∃ link_type_to_use,
              (if Py.truthy available
               then rbind (Py.getindex available 0) (λ first, Py.getitem first "name")
               else Ret VNone) = Ret link_type_to_use ∧
              link_type_to_use = match names with name :: _ => name | [] => VNone end).
    { unfold link_type_names in Hnames.
      destruct available as [| | |s|[|first rest]|[|[k v] d]]; try done.
      - destruct s as [|c s]; cbn in Hnames; [|done].
        injection Hnames as <-. by exists VNone.
      - injection Hnames as <-. by exists VNone.
      - cbn in Hnames |- *. destruct (Py.getitem first "name") as [name|e]; [|done].
        cbn in Hnames. destruct (rmap _ rest) as [others|e]; [|done].
        injection Hnames as <-. by exists name.
      - injection Hnames as <-. by exists VNone. }
    destruct Hfallback as (link_type_to_use & Hselect & Hname).
    exists link_type_to_use. split; [done|]. split; [|done].
    intros before t after Hpref Ht Hbefore. destruct (Hnone t); [|done].
    rewrite Hpref. apply elem_of_app. right. left.
Qed.

Section LinkTypeUse.

Variable env : Env.

(** C7, amended. The link type of a call is chosen from the names of the
    link types the tracker returned: the first preferred name that is
    among them; when no preferred name is, the name of the first
    available type; and none when no type is available. Every link
    request of the call goes from the parent to a created key with the
    chosen type, and a chosen type that is not true (an empty name, or
    none) is not used: the call then sends no link request. A call that
    returns has sent one creation request per task and, when the chosen
    type is true, one link request per created key, in order; with task
    definitions and creation responses that can be read it does
    return. *)
Theorem link_type_selection parent_ticket_key task_definitions w available w0 names
    tasks r w' :
  get_jira_issue_link_types env w = (Ret available, w0) →
  link_type_names available = Ret names →
  Py.iter task_definitions = Ret tasks →
  create_and_link_tasks env parent_ticket_key task_definitions w = (r, w') →
  ∃ link_type_to_use d,
    select_link_type available = Ret link_type_to_use ∧
    (∀ before t after,
       preferred_link_types = (before ++ t :: after)%list →
       VStr t ∈ names → (∀ u, u ∈ before → VStr u ∉ names) →
       link_type_to_use = VStr t) ∧
    ((∀ u, u ∈ preferred_link_types → VStr u ∉ names) →
     link_type_to_use = match names with name :: _ => name | [] => VNone end) ∧
    extends w w' d ∧
    Forall (λ link, link.1.1 = parent_ticket_key ∧ link.1.2 ∈ created_keys d ∧
                    link.2 = link_type_to_use ∧ Py.truthy link_type_to_use = true)
      (link_attempts d) ∧
    (names = [] → link_attempts d = []) ∧
    (Py.truthy link_type_to_use = false → link_attempts d = []) ∧
    (∀ keys mapping, r = Ret (keys, mapping) →
       Forall2 (λ task post, Py.getitem task "title" = Ret post.1) tasks (issue_posts d) ∧
       keys = created_keys d ∧
       link_attempts d
       = (if Py.truthy link_type_to_use
          then (λ k, (parent_ticket_key, k, link_type_to_use)) <$> keys
          else [])) ∧
    (Forall well_formed_task tasks →
     (∀ n title description,
        well_formed_creation (jira env n (PostIssue title description))) →
     ∃ keys mapping, r = Ret (keys, mapping)).
Proof.
  intros Hfetch Hnames Hiter Hrun.
  destruct (select_link_type_cases available names Hnames)
    as (link_type_to_use & Hselect & Hpreferred & Hfallback).
  exists link_type_to_use.
  destruct (get_jira_issue_link_types_run env w) as (d0 & Hext0 & Hex0).
  rewrite Hfetch in Hext0. cbn [snd] in Hext0.
  destruct (fetched_types_only _ _ Hex0) as (Hposts0 & Hkeys0 & Hlinks0).
  destruct (create_and_link_tasks_loop env parent_ticket_key task_definitions w
              available w0 link_type_to_use tasks Hfetch Hselect Hiter) as [line Hloop].
  rewrite Hloop in Hrun.
  pose proof Hrun as Hrun1. pose proof Hrun as Hrun2.
  apply create_tasks_links in Hrun1 as (d & Hext & Hall).
  apply create_tasks_run in Hrun2 as (d' & Hext' & Hno & Hout).
  rewrite <- (extends_inj _ _ _ _ Hext Hext') in Hno, Hout. clear d' Hext'.
  unfold extends in Hext. cbn [trace] in Hext.
  exists (d0 ++ [EvPrint line] ++ d)%list.
  assert (Hlinks : link_attempts (d0 ++ [EvPrint line] ++ d) = link_attempts d)
    by (by rewrite !link_attempts_app, Hlinks0).
  assert (Hkeys : created_keys (d0 ++ [EvPrint line] ++ d) = created_keys d)
    by (by rewrite !created_keys_app, Hkeys0).
  assert (Hposts : issue_posts (d0 ++ [EvPrint line] ++ d) = issue_posts d)
    by (by rewrite !issue_posts_app, Hposts0).
  rewrite Hlinks, Hkeys, Hposts.
  do 3 (split; [done|]).
  split. { unfold extends in *. by rewrite Hext, Hext0, <- !app_assoc. }
  split; [done|].
  assert (Hnot : Py.truthy link_type_to_use = false → link_attempts d = []) by done.
  split.
  { intros ->. apply Hnot. rewrite Hfallback; [done|]. intros u _ Hin. inversion Hin. }
  split; [done|]. split.
  - intros keys mapping Hret.
    destruct (Hout keys mapping Hret) as (Htitles & -> & Hsent & _).
    by cbn [fst app].
  - intros Htasks Hcreation.
    destruct (create_tasks_returns env parent_ticket_key link_type_to_use tasks
                Htasks Hcreation ([], ∅)
                (mkWorld (active_gemini_key_index w0) (generations w0) (requests w0)
                   (trace w0 ++ [EvPrint line]))) as (keys & mapping & Hret).
    rewrite Hrun in Hret. cbn [fst] in Hret. eauto.
Qed.

End LinkTypeUse.

(** C7, as stated, fails: the tracker offers one link type, whose name is
    empty and so is not a preferred name; three issues are created and
    none is linked, and the call prints that no link type was found. *)
Lemma fallback_name_unused :
  (get_jira_issue_link_types StageExample.empty_link_type_name initial_world).1
  = Ret (VList [VDict [("name", VStr ""); ("inward", VStr "in");
                       ("outward", VStr "out")]]) ∧
  match (create_and_link_tasks StageExample.empty_link_type_name StageExample.parent
           StageExample.three_other_tasks initial_world).1 with
  | Ret (keys, _) => keys = [VStr "CPG-api"; VStr "CPG-db"; VStr "CPG-tests"]
  | Raise _ => False
  end ∧
  link_attempts
    (trace (create_and_link_tasks StageExample.empty_link_type_name StageExample.parent
              StageExample.three_other_tasks initial_world).2) = [] ∧
  printed
    (trace (create_and_link_tasks StageExample.empty_link_type_name StageExample.parent
              StageExample.three_other_tasks initial_world).2) !! 2%nat
  = Some "Warning: No suitable issue link types found. Tasks will not be linked.".
Proof.
  split; [vm_compute; reflexivity|]. split; [vm_compute; reflexivity|].
  split; vm_compute; reflexivity.
Qed.

Lemma unfamiliar_names u :
  u ∈ preferred_link_types → VStr u ∉ [VStr "Cloners"; VStr "Duplicate"].
Proof.
  unfold preferred_link_types. intros Hu Hin.
  repeat (apply elem_of_cons in Hu as [->|Hu];
          [repeat (apply elem_of_cons in Hin as [Hin|Hin]; [discriminate Hin|]);
           inversion Hin|]).
  inversion Hu.
Qed.

(** No preferred name among the link types of the tracker: each of the
    three created tasks is linked with the first available type. *)
Lemma link_type_selection_witness :
  ∃ d,
    extends initial_world
      (create_and_link_tasks Scenario.unfamiliar_link_types StageExample.parent
         StageExample.three_other_tasks initial_world).2 d ∧
    link_attempts d
    = [(VStr "CPG-10", VStr "CPG-api", VStr "Cloners");
       (VStr "CPG-10", VStr "CPG-db", VStr "Cloners");
       (VStr "CPG-10", VStr "CPG-tests", VStr "Cloners")].
Proof.
  destruct (link_type_selection Scenario.unfamiliar_link_types StageExample.parent
              StageExample.three_other_tasks initial_world
              (VList [VDict [("name", VStr "Cloners"); ("inward", VStr "in");
                             ("outward", VStr "out")];
                      VDict [("name", VStr "Duplicate"); ("inward", VStr "in");
                             ("outward", VStr "out")]])
              (get_jira_issue_link_types Scenario.unfamiliar_link_types initial_world).2
              [VStr "Cloners"; VStr "Duplicate"]
              [Scenario.task "api"; Scenario.task "db"; Scenario.task "tests"]
              (create_and_link_tasks Scenario.unfamiliar_link_types StageExample.parent
                 StageExample.three_other_tasks initial_world).1
              (create_and_link_tasks Scenario.unfamiliar_link_types StageExample.parent
                 StageExample.three_other_tasks initial_world).2)
    as (link_type_to_use & d & _ & _ & Hfallback & Hext & _ & _ & _ & Hret & _).
  - vm_compute. reflexivity.
  - reflexivity.
  - reflexivity.
  - by destruct (create_and_link_tasks _ _ _ _).
  - exists d. split; [exact Hext|].
    assert (Hname : link_type_to_use = VStr "Cloners").
    { exact (Hfallback unfamiliar_names). }
    subst link_type_to_use.
    assert (Hkeys : match (create_and_link_tasks Scenario.unfamiliar_link_types
                             StageExample.parent StageExample.three_other_tasks
                             initial_world).1 with
                    | Ret (keys, _) => keys
                    | Raise _ => []
                    end = [VStr "CPG-api"; VStr "CPG-db"; VStr "CPG-tests"])
      by (vm_compute; reflexivity).
    destruct (create_and_link_tasks Scenario.unfamiliar_link_types StageExample.parent
                StageExample.three_other_tasks initial_world).1
      as [[keys mapping]|e]; [|discriminate Hkeys].
    subst keys. by destruct (Hret _ _ eq_refl) as (_ & _ & ->).
Defined.
(** ** The test-case stage *)

Lemma subtask_posts_app evs1 evs2 :
  subtask_posts (evs1 ++ evs2) = (subtask_posts evs1 ++ subtask_posts evs2)%list.
Proof. unfold subtask_posts. by rewrite exchanges_app, omap_app. Qed.

Lemma subtask_keys_app evs1 evs2 :
  subtask_keys (evs1 ++ evs2) = (subtask_keys evs1 ++ subtask_keys evs2)%list.
Proof. unfold subtask_keys. by rewrite subtask_posts_app, omap_app. Qed.

Lemma quiet_no_subtask d : exchanges d = [] → subtask_keys d = [].
Proof. intros Hq. unfold subtask_keys, subtask_posts. by rewrite Hq. Qed.

Lemma posted_subtask_only parent title description response d :
  exchanges d = [(PostSubtask parent title description, response)] →
  subtask_keys d = from_option (λ k, [k]) [] (created_key response).
Proof.
  intros Hex. unfold subtask_keys, subtask_posts. rewrite Hex. cbn.
  by destruct (created_key response).
Qed.

Section TestCaseStage.

Variable env : Env.

(** One test case: it raises before any request, or sends one subtask
    creation under the task and returns what the creation returns. *)
Lemma create_test_case_round task_key test_case w r w' :
  create_test_case env task_key test_case w = (r, w') →
  ∃ d,
    extends w w' d ∧ pauses d = [] ∧ attempts d = [] ∧
    ((is_Raise r ∧ exchanges d = []) ∨
     (∃ title description response,
        exchanges d = [(PostSubtask task_key title description, response)] ∧
        r = created_key_of response)).
Proof.
  intros Hrun.
  assert (Hp : without pauses w (create_test_case env task_key test_case w).2).
  { apply (respects_create_test_case env (without pauses)); without_premises pauses_app. }
  assert (Ha : without attempts w (create_test_case env task_key test_case w).2).
  { apply (respects_create_test_case env (without attempts));
      without_premises attempts_app. }
  rewrite Hrun in Hp, Ha. cbn [snd] in Hp, Ha.
  destruct Hp as (d & Hext & Hp). destruct Ha as (d' & Hext' & Ha).
  rewrite <- (extends_inj _ _ _ _ Hext Hext') in Ha. clear d' Hext'.
  exists d. repeat (split; [done|]).
  assert (Hstop : ∀ e w0,
            (Raise e, w0) = (r, w') →
            (∃ lines, trace w0 = (trace w ++ lines)%list ∧ exchanges lines = []) →
            (is_Raise r ∧ exchanges d = []) ∨
            (∃ title description response,
               exchanges d = [(PostSubtask task_key title description, response)] ∧
               r = created_key_of response)).
  { intros e w0 H (lines & Hlines & Hq). injection H as <- <-.
    unfold extends in Hext. rewrite Hlines in Hext.
    apply app_inv_head in Hext. subst d. left. by split. }
  unfold create_test_case in Hrun.
  unfold bind at 1, lift in Hrun.
  destruct (Py.getitem test_case "test_id") as [test_id|e];
    [|apply (Hstop _ _ Hrun); by exists []; rewrite app_nil_r].
  unfold bind at 1 in Hrun.
  destruct (Py.getitem test_case "test_name") as [test_name|e];
    [|apply (Hstop _ _ Hrun); by exists []; rewrite app_nil_r].
  unfold bind at 1 in Hrun.
  destruct (Py.getitem test_case "priority") as [priority|e];
    [|apply (Hstop _ _ Hrun); by exists []; rewrite app_nil_r].
  unfold bind at 1, print at 1, emit at 1 in Hrun. unfold bind at 1 in Hrun.
  destruct (Py.getitem test_case "description") as [description|e];
    [|apply (Hstop _ _ Hrun); by eexists [_]].
  unfold bind at 1, print at 1, emit at 1 in Hrun. unfold bind at 1 in Hrun.
  cbn [trace active_gemini_key_index generations requests] in Hrun.
  destruct (Py.getitem test_case "steps") as [steps|e];
    [|apply (Hstop _ _ Hrun); eexists [_; _]; cbn [trace];
      by rewrite <- !app_assoc].
  unfold bind at 1 in Hrun.
  destruct (Py.join ", " steps) as [joined|e];
    [|apply (Hstop _ _ Hrun); eexists [_; _]; cbn [trace];
      by rewrite <- !app_assoc].
  unfold bind at 1, print at 1, emit at 1 in Hrun. unfold bind at 1 in Hrun.
  cbn [trace active_gemini_key_index generations requests] in Hrun.
  destruct (Py.getitem test_case "expected_result") as [expected_result|e];
    [|apply (Hstop _ _ Hrun); eexists [_; _; _]; cbn [trace];
      by rewrite <- !app_assoc].
  unfold bind at 1, print at 1, emit at 1 in Hrun. unfold bind at 1 in Hrun.
  cbn [trace active_gemini_key_index generations requests] in Hrun.
  destruct (Py.iter steps) as [step_items|e];
    [|apply (Hstop _ _ Hrun); eexists [_; _; _; _]; cbn [trace];
      by rewrite <- !app_assoc].
  clear Hstop.
  right.
  match type of Hrun with context [create_jira_child_issue env ?p ?t ?de ?w0] =>
    destruct (create_jira_child_issue_run env p t de w0)
      as (d1 & w1 & Hrun1 & Hext1 & Hex1);
    rewrite Hrun1 in Hrun; injection Hrun as <- <-;
    exists t, de, (jira env (requests w0) (PostSubtask p t de))
  end.
  split; [|done].
  unfold extends in Hext, Hext1. cbn [trace] in Hext1. rewrite Hext1 in Hext.
  rewrite <- ?app_assoc in Hext. apply app_inv_head in Hext. subst d.
  cbn. exact Hex1.
Qed.

(** The loop over the test cases, for the runs that raise as for those
    that return. *)
Lemma create_test_cases_run task_key test_cases :
  ∀ created_test_keys w r w',
    create_test_cases env task_key test_cases created_test_keys w = (r, w') →
    ∃ d,
      extends w w' d ∧ attempts d = [] ∧
      Forall (λ x, ∃ title description, x.1 = PostSubtask task_key title description)
        (exchanges d) ∧
      (length (exchanges d) ≤ length test_cases)%nat ∧
      pauses d = replicate (length (subtask_keys d)) 1%nat ∧
      (∀ keys, r = Ret keys →
         keys = (created_test_keys ++ subtask_keys d)%list ∧
         length (exchanges d) = length test_cases).
Proof.
  induction test_cases as [|test_case rest IH]; intros created_test_keys w r w' Hrun.
  { injection Hrun as <- <-. exists []. split; [apply extends_refl|].
    do 4 (split; [done|]). intros keys [= <-]. by rewrite app_nil_r. }
  cbn [create_test_cases] in Hrun. unfold bind at 1 in Hrun.
  destruct (create_test_case env task_key test_case w) as [r1 w1] eqn:Hrun1.
  apply create_test_case_round in Hrun1
    as (d1 & Hext1 & Hp1 & Ha1 & [(Hraise & Hq1)|(title & description & response & Hex1 & ->)]).
  { destruct r1 as [k|e]; [done|]. injection Hrun as <- <-. exists d1.
    rewrite (quiet_no_subtask d1 Hq1), Hq1. cbn.
    do 3 (split; [done|]). split; [lia|]. by split. }
  pose proof (posted_subtask_only _ _ _ _ _ Hex1) as Hkeys1.
  unfold created_key in Hkeys1.
  destruct (created_key_of response) as [k|e].
  2:{ injection Hrun as <- <-. exists d1. rewrite Hkeys1, Hex1. cbn.
      do 2 (split; [done|]). split; [constructor; [by eexists _, _|done]|].
      split; [lia|]. by split. }
  destruct (Py.truthy k).
  - unfold bind at 1, print, emit in Hrun. unfold bind at 1, sleep, emit in Hrun.
    apply IH in Hrun as (d & Hext & Ha & Hall & Hlen & Hp & Hret).
    unfold extends in Hext. cbn [trace] in Hext.
    eexists (d1 ++ [_; EvSleep 1] ++ d)%list. split.
    { unfold extends in *. rewrite Hext, Hext1, <- !app_assoc. reflexivity. }
    rewrite !attempts_app, !exchanges_app, !pauses_app, !subtask_keys_app.
    rewrite Ha1, Ha, Hex1, Hp1, Hp, Hkeys1. cbn.
    split; [done|]. split; [constructor; [by eexists _, _|done]|].
    split; [lia|]. split; [done|].
    intros keys Hkeys. destruct (Hret keys Hkeys) as [-> Hlen'].
    split; [by rewrite <- app_assoc|lia].
  - apply IH in Hrun as (d & Hext & Ha & Hall & Hlen & Hp & Hret).
    exists (d1 ++ d)%list. split; [by eapply extends_trans|].
    rewrite !attempts_app, !exchanges_app, !pauses_app, !subtask_keys_app.
    rewrite Ha1, Ha, Hex1, Hp1, Hp, Hkeys1. cbn.
    split; [done|]. split; [constructor; [by eexists _, _|done]|].
    split; [lia|]. split; [done|].
    intros keys Hkeys. destruct (Hret keys Hkeys) as [-> Hlen'].
    split; [done|lia].
Qed.

(** What the planner of the test cases leaves in the trace. *)
Lemma generate_test_cases_log task_summary parent_key w r w' :
  in_pool env w →
  generate_test_cases_for_task env task_summary parent_key w = (r, w') →
  ∃ d,
    extends w w' d ∧ exchanges d = [] ∧
    (∀ v, r = Ret v → pauses d = short_pauses (attempts d)).
Proof.
  intros Hpool Hrun. unfold generate_test_cases_for_task in Hrun.
  unfold bind at 1, print, emit in Hrun. unfold bind at 1 in Hrun.
  match type of Hrun with context [generate_with_gemini_resilience env ?p ?w0] =>
    destruct (generate_with_gemini_resilience env p w0) as [r1 w1] eqn:Hgen;
    apply generate_log in Hgen as (d1 & Hext1 & Hp1 & _ & Hq1 & _); [|exact Hpool]
  end.
  unfold extends in Hext1. cbn [trace] in Hext1.
  destruct r1 as [raw|e].
  - assert (Hp : without pauses w1 (parse_json_from_text env raw w1).2).
    { apply (respects_parse_json_from_text env (without pauses));
        without_premises pauses_app. }
    assert (Ha : without attempts w1 (parse_json_from_text env raw w1).2).
    { apply (respects_parse_json_from_text env (without attempts));
        without_premises attempts_app. }
    assert (Hq : without exchanges w1 (parse_json_from_text env raw w1).2).
    { apply (respects_parse_json_from_text env (without exchanges));
        without_premises exchanges_app. }
    rewrite Hrun in Hp, Ha, Hq. cbn [snd] in Hp, Ha, Hq.
    destruct Hp as (d2 & Hext2 & Hp2). destruct Ha as (d2' & Hext2' & Ha2).
    destruct Hq as (d2'' & Hext2'' & Hq2).
    rewrite <- (extends_inj _ _ _ _ Hext2 Hext2') in Ha2.
    rewrite <- (extends_inj _ _ _ _ Hext2 Hext2'') in Hq2. clear d2' d2'' Hext2' Hext2''.
    eexists ([_] ++ d1 ++ d2)%list. split.
    { unfold extends in *. rewrite Hext2, Hext1, <- !app_assoc. reflexivity. }
    rewrite !exchanges_app, !pauses_app, !attempts_app, Hq1, Hq2, Hp1, Hp2, Ha2.
    cbn. split; [done|]. intros _ _. by rewrite !app_nil_r.
  - injection Hrun as <- <-. eexists ([_] ++ d1)%list. split.
    { unfold extends. rewrite Hext1, <- !app_assoc. reflexivity. }
    rewrite exchanges_app, Hq1. by split.
Qed.

(** X11. The test-case stage sends nothing but subtask creations under
    the task it was called for. When it returns, the keys it returns are
    the keys of the creations that succeeded, in order, and its pauses
    are those of the generator's rate-limited attempts followed by one
    second per created subtask. *)
Theorem test_case_stage_bookkeeping task_key task_data w r w' :
  in_pool env w →
  process_and_create_test_cases env task_key task_data w = (r, w') →
  ∃ d,
    extends w w' d ∧
    Forall (λ x, ∃ title description, x.1 = PostSubtask task_key title description)
      (exchanges d) ∧
    ∀ keys, r = Ret keys →
      keys = subtask_keys d ∧
      pauses d = (short_pauses (attempts d) ++ replicate (length keys) 1%nat)%list.
Proof.
  intros Hpool Hrun. unfold process_and_create_test_cases in Hrun.
  unfold bind at 1, lift in Hrun.
  destruct (Py.getitem task_data "summary") as [summary|e].
  2:{ injection Hrun as <- <-. exists []. split; [apply extends_refl|]. by split. }
  unfold bind at 1 in Hrun.
  destruct (generate_test_cases_for_task env summary task_key w) as [r1 w1] eqn:Hplan.
  apply generate_test_cases_log in Hplan as (d1 & Hext1 & Hq1 & Hp1); [|exact Hpool].
  destruct r1 as [test_case_definitions|e].
  2:{ injection Hrun as <- <-. exists d1. rewrite Hq1. by do 2 (split; [done|]). }
  specialize (Hp1 _ eq_refl).
  destruct (Py.truthy test_case_definitions).
  2:{ injection Hrun as <- <-. exists d1. rewrite Hq1. do 2 (split; [done|]).
      intros keys [= <-]. by rewrite (quiet_no_subtask d1 Hq1), Hp1, app_nil_r. }
  unfold bind at 1 in Hrun.
  destruct (Py.len test_case_definitions) as [n|e].
  2:{ injection Hrun as <- <-. exists d1. rewrite Hq1. by do 2 (split; [done|]). }
  unfold bind at 1, print, emit in Hrun. unfold bind at 1 in Hrun.
  destruct (Py.iter test_case_definitions) as [test_cases|e].
  2:{ injection Hrun as <- <-. eexists (d1 ++ [_])%list.
      split; [by eapply extends_trans|]. rewrite exchanges_app, Hq1. by split. }
  apply create_test_cases_run in Hrun as (d2 & Hext2 & Ha2 & Hall & _ & Hp2 & Hret).
  unfold extends in Hext2. cbn [trace] in Hext2.
  eexists (d1 ++ [_] ++ d2)%list. split.
  { unfold extends in *. rewrite Hext2, Hext1, <- !app_assoc. reflexivity. }
  rewrite !exchanges_app, !pauses_app, !attempts_app, !subtask_keys_app.
  rewrite Hq1, (quiet_no_subtask d1 Hq1), Ha2, Hp1, Hp2. cbn.
  split; [done|]. intros keys Hkeys. destruct (Hret keys Hkeys) as [-> _].
  by rewrite app_nil_r.
Qed.

End TestCaseStage.

(** Key 0 is over quota, key 1 plans one test case and the tracker
    creates its subtask: one key is returned. *)
Lemma test_case_stage_bookkeeping_witness :
  ∃ d,
    extends initial_world
      (process_and_create_test_cases StageExample.one_subtask (VStr "CPG-11")
         (Scenario.task "api") initial_world).2 d ∧
    subtask_keys d = [VStr "CPG-21"] ∧
    pauses d = (short_pauses (attempts d) ++ [1%nat])%list.
Proof.
  destruct (test_case_stage_bookkeeping StageExample.one_subtask (VStr "CPG-11")
              (Scenario.task "api") initial_world (Ret [VStr "CPG-21"])
              (process_and_create_test_cases StageExample.one_subtask (VStr "CPG-11")
                 (Scenario.task "api") initial_world).2)
    as (d & Hext & _ & Hret).
  - unfold in_pool. cbn. lia.
  - vm_compute. reflexivity.
  - destruct (Hret _ eq_refl) as [Hkeys Hpauses]. exists d. by repeat split.
Defined.
(** ** The workflow, stage by stage *)

Lemma without_grows {B} (obs : list Event → list B) w w' : without obs w w' → grows w w'.
Proof. intros (d & Hext & _). by exists d. Qed.

Section MainStages.

Variable env : Env.

Lemma grows_main_after_parent main_requirement w :
  grows
    (create_jira_issue env (VStr ("Epic: " +:+ main_requirement))
       ("This is the main parent ticket for the requirement: " +:+ main_requirement)
       (print (Str.nl +:+ "Creating a parent ticket for the main requirement...") w).2).2
    (main env main_requirement w).2.
Proof.
  apply (respects_main_after_parent env grows);
    first [ apply grows_refl | apply grows_trans
          | intros; intros w0; by eexists [_]
          | intros prompt_text w0; eapply without_grows, generate_quiet ].
Qed.

Lemma create_jira_issue_unreadable title description w e :
  created_key_of (jira env (requests w) (PostIssue title description)) = Raise e →
  create_jira_issue env title description w
  = (Raise e,
     mkWorld (active_gemini_key_index w) (generations w) (S (requests w))
       (trace w ++ [EvHttp (PostIssue title description)
                      (jira env (requests w) (PostIssue title description))])).
Proof.
  unfold created_key_of, create_jira_issue. unfold bind at 1, http.
  destruct (status_code _ =? 201); [|done].
  unfold bind, lift.
  destruct (json _) as [body|e']; cbn [rbind]; [|by intros [= ->]].
  destruct (Py.getitem body "key"); [done|by intros [= ->]].
Qed.

(** The first thing [main] does is the request for the parent issue. *)
Lemma main_parent_request main_requirement w :
  let epic := PostIssue (VStr ("Epic: " +:+ main_requirement))
                ("This is the main parent ticket for the requirement: "
                 +:+ main_requirement) in
  let response := jira env (requests w) epic in
  ∃ d1 w1,
    extends w w1 d1 ∧ exchanges d1 = [(epic, response)] ∧
    create_jira_issue env (VStr ("Epic: " +:+ main_requirement))
      ("This is the main parent ticket for the requirement: " +:+ main_requirement)
      (print (Str.nl +:+ "Creating a parent ticket for the main requirement...") w).2
    = (created_key_of response, w1).
Proof.
  intros epic response. unfold print, emit. cbn [snd].
  match goal with |- context [create_jira_issue env ?t ?de ?w0] =>
    destruct (create_jira_issue_run env t de w0) as (d1 & w1 & Hrun1 & Hext1 & Hex1)
  end.
  cbn [requests] in *. fold epic in Hrun1, Hex1. fold response in Hrun1, Hex1.
  eexists (_ :: d1), w1. split; [|split; [|done]].
  - unfold extends in *. cbn [trace] in Hext1. by rewrite Hext1, <- app_assoc.
  - cbn. exact Hex1.
Qed.

(** X12. [main] keeps no record of what it created: every run starts
    with the request that creates the parent issue, so a second run for
    the same requirement asks the tracker for a second parent, whatever
    the first run did. *)
Theorem rerun_posts_parent_again main_requirement w :
  let epic := PostIssue (VStr ("Epic: " +:+ main_requirement))
                ("This is the main parent ticket for the requirement: "
                 +:+ main_requirement) in
  let w1 := (main env main_requirement w).2 in
  let w2 := (main env main_requirement w1).2 in
  ∃ d1 d2 rest1 rest2,
    extends w w1 d1 ∧ extends w1 w2 d2 ∧
    exchanges d1 = (epic, jira env (requests w) epic) :: rest1 ∧
    exchanges d2 = (epic, jira env (requests w1) epic) :: rest2.
Proof.
  intros epic w1 w2.
  assert (Hfirst : ∀ w0, ∃ d rest,
            extends w0 (main env main_requirement w0).2 d ∧
            exchanges d = (epic, jira env (requests w0) epic) :: rest).
  { intros w0.
    destruct (main_parent_request main_requirement w0) as (d & wp & Hext & Hex & Hrun).
    pose proof (grows_main_after_parent main_requirement w0) as [d' Hext'].
    rewrite Hrun in Hext'. cbn [snd] in Hext'.
    exists (d ++ d')%list, (exchanges d'). split; [by eapply extends_trans|].
    by rewrite exchanges_app, Hex. }
  destruct (Hfirst w) as (d1 & rest1 & Hext1 & Hex1).
  destruct (Hfirst w1) as (d2 & rest2 & Hext2 & Hex2).
  by exists d1, d2, rest1, rest2.
Qed.

(** X13. A response to the parent request that says 201 and cannot be
    read (no JSON body, or a body without [key]) is not treated as a
    refusal: the exception leaves [main] right after that request, with
    neither the abort message nor the report. *)
Theorem unreadable_parent_response_ends_main main_requirement w e :
  let epic := PostIssue (VStr ("Epic: " +:+ main_requirement))
                ("This is the main parent ticket for the requirement: "
                 +:+ main_requirement) in
  let response := jira env (requests w) epic in
  created_key_of response = Raise e →
  ∃ w',
    main env main_requirement w = (Raise e, w') ∧
    extends w w'
      [EvPrint (Str.nl +:+ "Creating a parent ticket for the main requirement...");
       EvHttp epic response].
Proof.
  intros epic response Hkey. eexists. unfold main.
  unfold bind at 1. unfold print at 1, emit at 1. unfold bind at 1.
  rewrite (create_jira_issue_unreadable _ _ _ e) by exact Hkey.
  split; [reflexivity|]. unfold extends. cbn [trace requests].
  by rewrite <- app_assoc.
Qed.

Lemma print_titles_raises tasks task :
  task ∈ tasks → is_Raise (Py.getitem task "title") →
  ∀ i w, is_Raise (print_titles env i tasks w).1.
Proof.
  intros Hin Htitle. induction tasks as [|t rest IH]; intros i w; [inversion Hin|].
  cbn [print_titles]. unfold bind at 1, lift.
  apply elem_of_cons in Hin as [<-|Hin].
  - by destruct (Py.getitem task "title").
  - destruct (Py.getitem t "title"); [|done].
    unfold bind, print, emit. by apply IH.
Qed.

(** X14. The planned tasks are listed by title before any of them is
    sent to the tracker: a plan with an entry that has no [title] makes
    [main] raise in the listing, after the parent issue was created and
    before the request for the link types, so the parent stays without
    tasks and the report is not made. *)
Theorem plan_without_title_ends_main main_requirement w key subtask_definitions w3
    tasks task :
  let epic := PostIssue (VStr ("Epic: " +:+ main_requirement))
                ("This is the main parent ticket for the requirement: "
                 +:+ main_requirement) in
  let response := jira env (requests w) epic in
  let w1 := (create_jira_issue env (VStr ("Epic: " +:+ main_requirement))
               ("This is the main parent ticket for the requirement: "
                +:+ main_requirement)
               (print (Str.nl +:+ "Creating a parent ticket for the main requirement...")
                  w).2).2 in
  let w2 := (print (Str.nl +:+ "Generating development tasks with Gemini...") w1).2 in
  created_key response = Some key →
  generate_subtasks_from_requirement env main_requirement w2
    = (Ret subtask_definitions, w3) →
  Py.truthy subtask_definitions = true →
  Py.iter subtask_definitions = Ret tasks →
  task ∈ tasks →
  is_Raise (Py.getitem task "title") →
  is_Raise (main env main_requirement w).1 ∧
  ∃ d,
    extends w (main env main_requirement w).2 d ∧
    exchanges d = [(epic, response)].
Proof.
  intros epic response w1 w2 Hkey Hplan Htrue Hiter Hin Htitle.
  destruct (main_parent_request main_requirement w) as (d1 & w1' & Hext1 & Hex1 & Hparent).
  fold epic in Hex1, Hparent. fold response in Hex1, Hparent.
  assert (w1 = w1') as Hw1 by (subst w1; by rewrite Hparent).
  clearbody w1. subst w1'. subst w2.
  pose proof (generate_subtasks_quiet env main_requirement
                (print (Str.nl +:+ "Generating development tasks with Gemini...") w1).2)
    as (d2 & Hext2 & Hq2).
  rewrite Hplan in Hext2. cbn [snd] in Hext2.
  unfold print at 1, emit at 1 in Hext2. unfold print at 1, emit at 1 in Hplan.
  cbn [snd] in Hext2, Hplan.
  unfold extends in Hext2. cbn [trace] in Hext2.
  unfold print at 1, emit at 1 in Hparent. cbn [snd] in Hparent.
  unfold created_key in Hkey.
  destruct (main env main_requirement w) as [r w'] eqn:Hrun. cbn [fst snd].
  unfold main in Hrun. unfold bind at 1 in Hrun. unfold print at 1, emit at 1 in Hrun.
  unfold bind at 1 in Hrun. rewrite Hparent in Hrun.
  destruct (created_key_of response) as [k|e]; [|done].
  destruct (Py.truthy k); [|done]. cbn [negb] in Hrun.
  unfold bind at 1 in Hrun. unfold print at 1, emit at 1 in Hrun.
  unfold bind at 1 in Hrun. rewrite Hplan in Hrun.
  unfold bind at 1 in Hrun. rewrite Htrue in Hrun.
  unfold bind at 1 in Hrun. unfold print at 1, emit at 1 in Hrun.
  unfold bind at 1, lift in Hrun. rewrite Hiter in Hrun. unfold bind at 1 in Hrun.
  match type of Hrun with context [print_titles env 1 tasks ?w4] =>
    pose proof (print_titles_raises tasks task Hin Htitle 1%nat w4) as Hraise;
    assert (Hq : without exchanges w4 (print_titles env 1 tasks w4).2)
      by (apply (respects_print_titles env (without exchanges));
          without_premises exchanges_app);
    destruct (print_titles env 1 tasks w4) as [[[]|e] w5]; [done|]
  end.
  injection Hrun as <- <-. cbn [fst snd] in *. split; [done|].
  destruct Hq as (d3 & Hext3 & Hq3). unfold extends in Hext3. cbn [trace] in Hext3.
  eexists (d1 ++ [_] ++ d2 ++ [_] ++ d3)%list. split.
  { unfold extends in *. rewrite Hext3, Hext2, Hext1, <- !app_assoc. reflexivity. }
  rewrite !exchanges_app, Hex1, Hq2, Hq3. done.
Qed.

(** X15. A task whose test-case plan is empty or could not be parsed gets
    no subtask and no request at all; the workflow reports zero created
    test cases for it, pauses two seconds and goes on. *)
Theorem empty_plan_is_reported task_key task_data summary title w test_case_definitions w1 :
  let w0 := (print (Str.nl +:+ "--- Processing task " +:+ py_str env task_key +:+ ": "
                    +:+ py_str env title +:+ " ---") w).2 in
  Py.getitem task_data "summary" = Ret summary →
  Py.getitem task_data "title" = Ret title →
  generate_test_cases_for_task env summary task_key w0 = (Ret test_case_definitions, w1) →
  Py.truthy test_case_definitions = false →
  ∃ d w',
    run_task_tests env task_key task_data w = (Ret tt, w') ∧
    extends w w' (d ++ [EvPrint ("Created " +:+ pretty 0%nat
                                 +:+ " test case subtasks for " +:+ py_str env task_key);
                        EvSleep 2]) ∧
    exchanges d = [].
Proof.
  intros w0 Hsummary Htitle Hplan Hfalse.
  pose proof (generate_test_cases_quiet env summary task_key w0) as (d & Hext & Hq).
  rewrite Hplan in Hext. cbn [snd] in Hext. subst w0.
  unfold print at 1, emit at 1 in Hext. unfold print at 1, emit at 1 in Hplan.
  cbn [snd] in Hext, Hplan.
  unfold extends in Hext. cbn [trace] in Hext.
  eexists (EvPrint _ :: d), _. unfold run_task_tests.
  unfold bind at 1, lift. rewrite Htitle. unfold bind at 1. unfold print at 1, emit at 1.
  unfold bind at 1. unfold process_and_create_test_cases.
  unfold bind at 1, lift. rewrite Hsummary. unfold bind at 1. rewrite Hplan, Hfalse.
  unfold ret, bind, print, sleep, emit. cbn [length].
  split; [reflexivity|]. split; [|exact Hq].
  unfold extends. cbn [trace]. rewrite Hext, <- !app_assoc. reflexivity.
Qed.

End MainStages.

(** A 201 without a body in answer to the parent request. *)
Lemma unreadable_parent_response_ends_main_witness :
  (main StageExample.parent_unreadable MainExample.requirement initial_world).1
  = Raise (JSONDecodeError "Expecting value").
Proof.
  destruct (unreadable_parent_response_ends_main StageExample.parent_unreadable
              MainExample.requirement initial_world (JSONDecodeError "Expecting value")
              eq_refl)
    as (w' & Hrun & _).
  by rewrite Hrun.
Defined.

(** The generator answers an object: the listing draws its keys, which
    are strings and have no [title]. *)
Lemma plan_without_title_ends_main_witness :
  is_Raise (main StageExample.object_answer MainExample.requirement initial_world).1.
Proof.
  pose (w2 :=
    (print (Str.nl +:+ "Generating development tasks with Gemini...")
       (create_jira_issue StageExample.object_answer
          (VStr ("Epic: " +:+ MainExample.requirement))
          ("This is the main parent ticket for the requirement: "
           +:+ MainExample.requirement)
          (print (Str.nl +:+ "Creating a parent ticket for the main requirement...")
             initial_world).2).2).2).
  apply (proj1 (plan_without_title_ends_main StageExample.object_answer
                  MainExample.requirement initial_world (VStr "CPG-10")
                  (VDict [("summary", VStr "Build it")])
                  (generate_subtasks_from_requirement StageExample.object_answer
                     MainExample.requirement w2).2
                  [VStr "summary"] (VStr "summary")
                  eq_refl ltac:(vm_compute; reflexivity) eq_refl eq_refl
                  ltac:(by constructor) I)).
Defined.

(** The generator plans no test case for the task. *)
Lemma empty_plan_is_reported_witness :
  (run_task_tests StageExample.nothing_planned (VStr "CPG-11") (Scenario.task "api")
     initial_world).1 = Ret tt.
Proof.
  destruct (empty_plan_is_reported StageExample.nothing_planned (VStr "CPG-11")
              (Scenario.task "api") (VStr "Build the api") (VStr "api") initial_world
              (VList [])
              (generate_test_cases_for_task StageExample.nothing_planned
                 (VStr "Build the api") (VStr "CPG-11")
                 (print (Str.nl +:+ "--- Processing task "
                         +:+ py_str StageExample.nothing_planned (VStr "CPG-11") +:+ ": "
                         +:+ py_str StageExample.nothing_planned (VStr "api") +:+ " ---")
                    initial_world).2).2)
    as (d & w' & Hrun & _).
  - reflexivity.
  - reflexivity.
  - vm_compute. reflexivity.
  - reflexivity.
  - by rewrite Hrun.
Defined.
(** ** The report *)

Section Report.

Variable env : Env.

(** An issue without [fields] is listed from the empty default, which has
    no [summary]. *)
Lemma print_issue_without_fields d w :
  Py.dict_lookup "fields" d = None → is_Raise (print_issue env (VDict d) w).1.
Proof.
  intros Hnone. unfold print_issue, bind, lift, ret.
  cbn [Py.get Py.getitem]. rewrite Hnone.
  cbn [from_option Py.dict_lookup Py.truthy id].
  by destruct (Py.dict_lookup "key" d).
Qed.

(** X16. The default the report takes for an issue without [fields]
    does not protect the listing: one such issue among those the tracker
    returns makes the report raise, after its one request, and nothing is
    returned. *)
Theorem report_needs_fields w body issues d :
  let response := jira env (requests w) GetSearch in
  status_code response = 200 →
  json response = Ret body →
  Py.get body "issues" (VList []) = Ret (VList issues) →
  VDict d ∈ issues →
  Py.dict_lookup "fields" d = None →
  is_Raise (get_project_issues env w).1 ∧
  ∃ done,
    extends w (get_project_issues env w).2 done ∧
    exchanges done = [(GetSearch, response)].
Proof.
  intros response Hstatus Hbody Hissues Hin Hnone.
  split; [|apply get_project_issues_run].
  unfold get_project_issues. unfold bind at 1, http. fold response.
  rewrite Hstatus. cbn [Z.eqb Pos.eqb]. unfold bind at 1, lift. rewrite Hbody.
  unfold bind at 1. rewrite Hissues. unfold bind at 1. cbn [Py.len].
  unfold bind at 1, print, emit. unfold bind at 1. cbn [Py.iter]. unfold bind at 1.
  match goal with |- context [for_each ?b ?l ?w1] =>
    pose proof (for_each_raises b l (VDict d) Hin
                  (λ w0, print_issue_without_fields d w0 Hnone) w1) as Hloop;
    destruct (for_each b l w1) as [[[]|e] w2]
  end; done.
Qed.

End Report.

(** The search returns an issue that has a key and nothing else. *)
Lemma report_needs_fields_witness :
  is_Raise (get_project_issues StageExample.issue_without_fields initial_world).1.
Proof.
  apply (proj1 (report_needs_fields StageExample.issue_without_fields initial_world
                  (VDict [("issues", VList [VDict [("key", VStr "CPG-3")]])])
                  [VDict [("key", VStr "CPG-3")]] [("key", VStr "CPG-3")]
                  eq_refl eq_refl eq_refl ltac:(by constructor) eq_refl)).
Defined.
(** ** The order of the stages *)

Lemma outside_app allowed evs1 evs2 :
  outside allowed (evs1 ++ evs2) = (outside allowed evs1 ++ outside allowed evs2)%list.
Proof. unfold outside. by rewrite exchanges_app, List.filter_app. Qed.

Lemma outside_allowed allowed d :
  outside allowed d = [] → Forall (λ x, allowed x.1 = true) (exchanges d).
Proof.
  unfold outside. induction (exchanges d) as [|x l IH]; cbn; [constructor|].
  destruct (allowed x.1) eqn:Hx; cbn; [|done].
  intros Hl. constructor; [done|by apply IH].
Qed.

Lemma quiet_outside allowed w w' :
  without exchanges w w' → without (outside allowed) w w'.
Proof. intros (d & Hext & Hq). exists d. split; [done|]. unfold outside. by rewrite Hq. Qed.

Lemma paced_task_stage n d : paced n d → outside task_stage_request d = [].
Proof.
  intros (Hlen & _). unfold outside, issue_posts, link_attempts in *.
  assert (Hle : ∀ l : list (Request * Response),
            (length (omap (λ x, match x.1 with
                                | PostIssue title _ => Some (title, x.2)
                                | _ => None
                                end) l)
             + length (omap (λ x, match x.1 with
                                  | PostLink outward inward type_name =>
                                      Some (outward, inward, type_name)
                                  | _ => None
                                  end) l) ≤ length l)%nat).
  { induction l as [|[req resp] l IH]; cbn; [lia|]. destruct req; cbn; lia. }
  induction (exchanges d) as [|[req resp] l IH]; [done|].
  specialize (Hle l). destruct req; cbn in *; try lia; apply IH; lia.
Qed.

Section Phases.

Variable env : Env.

Lemma task_stage_requests parent_ticket_key task_definitions :
  respects (without (outside task_stage_request))
    (create_and_link_tasks env parent_ticket_key task_definitions).
Proof.
  intros w.
  destruct (create_and_link_tasks env parent_ticket_key task_definitions w)
    as [r w'] eqn:Hrun.
  apply create_and_link_tasks_stage in Hrun
    as (d0 & w0 & Hext0 & Hex0 & Hp0
        & [(_ & ->)|(available & link_type_to_use & tasks & _ & _ & _ & Hloop)]).
  - exists d0. split; [done|]. unfold outside. by rewrite Hex0.
  - apply create_tasks_paced in Hloop as (d & Hext & Hpaced).
    exists (d0 ++ d)%list. split; [by eapply extends_trans|].
    rewrite outside_app, (paced_task_stage _ _ Hpaced). unfold outside. by rewrite Hex0.
Qed.

Lemma create_test_cases_requests task_key test_cases :
  ∀ created_test_keys,
    respects (without (outside subtask_request))
      (create_test_cases env task_key test_cases created_test_keys).
Proof.
  intros created_test_keys w.
  destruct (create_test_cases env task_key test_cases created_test_keys w)
    as [r w'] eqn:Hrun.
  apply create_test_cases_run in Hrun as (d & Hext & _ & Hall & _).
  exists d. split; [done|]. unfold outside.
  induction Hall as [|[req resp] l (title & description & Hreq) _ IH]; [done|].
  cbn in Hreq. subst req. exact IH.
Qed.

Lemma process_task_requests task_data_map task_key :
  respects (without (outside subtask_request)) (process_task env task_data_map task_key).
Proof.
  assert (Hrefl : ∀ w, without (outside subtask_request) w w)
    by (intros w; by apply without_refl).
  assert (Htrans : ∀ w1 w2 w3,
            without (outside subtask_request) w1 w2 →
            without (outside subtask_request) w2 w3 →
            without (outside subtask_request) w1 w3)
    by (intros w1 w2 w3; apply without_trans, outside_app).
  assert (Hprint : ∀ line, respects (without (outside subtask_request)) (print line))
    by (intros line; by apply without_emit).
  assert (Hsleep : ∀ seconds, respects (without (outside subtask_request)) (sleep seconds))
    by (intros seconds; by apply without_emit).
  assert (Hgen : ∀ prompt_text,
            respects (without (outside subtask_request))
              (generate_with_gemini_resilience env prompt_text))
    by (intros prompt_text w; apply quiet_outside, generate_quiet).
  unfold process_task, run_task_tests, process_and_create_test_cases.
  repeat first
    [ apply respects_ret; exact Hrefl
    | apply respects_lift; exact Hrefl
    | apply Hprint
    | apply Hsleep
    | apply create_test_cases_requests
    | apply respects_generate_test_cases; [exact Hrefl|exact Htrans|exact Hprint|exact Hgen]
    | apply respects_bind; [exact Htrans| |intros ?]
    | match goal with
      | |- respects _ (if ?b then _ else _) => destruct b
      end ].
Qed.

End Phases.

Section MainPhases.

Variable env : Env.

(** What [main] does with a plan that is true: the listing, the task
    stage, then the test-case stage for each created key. *)
Lemma planned_work_phases parent_ticket_key subtask_definitions w r w' :
  (print (Str.nl +:+ "Gemini generated the following tasks:") ;;
   tasks <- lift (Py.iter subtask_definitions) ;;
   print_titles env 1 tasks ;;
   print (Str.nl +:+ "Creating and linking Jira tickets for these tasks...") ;;
   created <- create_and_link_tasks env parent_ticket_key subtask_definitions ;;
   match created.1 with
   | [] => ret tt
   | _ :: _ =>
       print (Str.nl +:+ "== Generating Test Cases for "
              +:+ pretty (length created.1) +:+ " Tasks ==") ;;
       for_each (process_task env created.2) created.1
   end) w = (r, w') →
  ∃ wm,
    without (outside task_stage_request) w wm ∧
    without (outside subtask_request) wm w'.
Proof.
  intros Hrun.
  assert (Hrefl : ∀ P w0, without (outside P) w0 w0)
    by (intros P w0; by apply without_refl).
  assert (Htrans : ∀ P w1 w2 w3,
            without (outside P) w1 w2 → without (outside P) w2 w3 →
            without (outside P) w1 w3)
    by (intros P w1 w2 w3; apply without_trans, outside_app).
  assert (Hline : ∀ P line w0, without (outside P) w0 (print line w0).2)
    by (intros P line w0; by apply without_emit).
  unfold bind at 1 in Hrun.
  pose proof (Hline task_stage_request
                (Str.nl +:+ "Gemini generated the following tasks:") w) as H1.
  destruct (print (Str.nl +:+ "Gemini generated the following tasks:") w)
    as [[[]|e] w1]; cbn [snd] in H1;
    [|injection Hrun as <- <-; by exists w1].
  unfold bind at 1, lift in Hrun.
  destruct (Py.iter subtask_definitions) as [tasks|e];
    [|injection Hrun as <- <-; by exists w1].
  unfold bind at 1 in Hrun.
  assert (H2 : without (outside task_stage_request) w1 (print_titles env 1 tasks w1).2).
  { apply quiet_outside.
    apply (respects_print_titles env (without exchanges));
      without_premises exchanges_app. }
  destruct (print_titles env 1 tasks w1) as [[[]|e] w2]; cbn [snd] in H2;
    [|injection Hrun as <- <-; exists w2; split; [by eapply Htrans|done]].
  unfold bind at 1 in Hrun.
  match type of Hrun with context [print ?line w2] =>
    pose proof (Hline task_stage_request line w2) as H3;
    destruct (print line w2) as [[[]|e] w3]; cbn [snd] in H3;
      [|injection Hrun as <- <-; exists w3; split;
        [eapply Htrans; [by eapply Htrans|done]|done]]
  end.
  unfold bind at 1 in Hrun.
  pose proof (task_stage_requests env parent_ticket_key subtask_definitions w3) as H4.
  destruct (create_and_link_tasks env parent_ticket_key subtask_definitions w3)
    as [[created|e] w4]; cbn [snd] in H4;
    [|injection Hrun as <- <-; exists w4; split;
      [eapply Htrans; [eapply Htrans; [by eapply Htrans|done]|done]|done]].
  exists w4. split; [eapply Htrans; [eapply Htrans; [by eapply Htrans|done]|done]|].
  destruct created.1 as [|task_key rest] eqn:Hkeys.
  { injection Hrun as <- <-. apply Hrefl. }
  replace w' with
    ((print (Str.nl +:+ "== Generating Test Cases for "
             +:+ pretty (length (task_key :: rest)) +:+ " Tasks ==") ;;
      for_each (process_task env created.2) (task_key :: rest)) w4).2
    by (by rewrite Hrun).
  apply respects_bind; [apply Htrans|by apply without_emit|intros _].
  apply respects_for_each; [apply Hrefl|apply Htrans|].
  intros key. apply process_task_requests.
Qed.

(** X17. The requests of a run of [main] come in the order of its
    stages, however the run ends: first the creation of the parent issue;
    then those of the task stage, which are the request for the link
    types, issue creations and link requests; then creations of
    test-case subtasks and nothing else; and last, if at all, the one
    query of the report. No subtask is created before the task stage is
    over, and nothing is sent after the report. *)
Theorem main_phases main_requirement w :
  let epic := PostIssue (VStr ("Epic: " +:+ main_requirement))
                ("This is the main parent ticket for the requirement: "
                 +:+ main_requirement) in
  ∃ d tasks_stage tests_stage report,
    extends w (main env main_requirement w).2 d ∧
    exchanges d = ((epic, jira env (requests w) epic)
                   :: tasks_stage ++ tests_stage ++ report)%list ∧
    Forall (λ x, task_stage_request x.1 = true) tasks_stage ∧
    Forall (λ x, subtask_request x.1 = true) tests_stage ∧
    (report = [] ∨ ∃ response, report = [(GetSearch, response)]).
Proof.
  intros epic.
  destruct (main_parent_request env main_requirement w) as (d1 & w1 & Hext1 & Hex1 & Hparent).
  fold epic in Hex1, Hparent.
  unfold print at 1, emit at 1 in Hparent. cbn [snd] in Hparent.
  assert (Hshape : ∀ dq wq dT wT dS wS dR w',
            without exchanges w1 wq → extends w1 wq dq →
            extends wq wT dT → outside task_stage_request dT = [] →
            extends wT wS dS → outside subtask_request dS = [] →
            extends wS w' dR →
            (exchanges dR = [] ∨ ∃ response, exchanges dR = [(GetSearch, response)]) →
            ∃ d tasks_stage tests_stage report,
              extends w w' d ∧
              exchanges d = ((epic, jira env (requests w) epic)
                             :: tasks_stage ++ tests_stage ++ report)%list ∧
              Forall (λ x, task_stage_request x.1 = true) tasks_stage ∧
              Forall (λ x, subtask_request x.1 = true) tests_stage ∧
              (report = [] ∨ ∃ response, report = [(GetSearch, response)])).
  { intros dq wq dT wT dS wS dR w' (dq' & Hextq' & Hq) Hextq HextT HT HextS HS HextR HR.
    rewrite <- (extends_inj _ _ _ _ Hextq Hextq') in Hq. clear dq' Hextq'.
    exists (d1 ++ dq ++ dT ++ dS ++ dR)%list, (exchanges dT), (exchanges dS), (exchanges dR).
    split; [repeat (eapply extends_trans; [eassumption|]); done|].
    rewrite !exchanges_app, Hex1, Hq. cbn [app].
    split; [done|]. split; [by apply outside_allowed|].
    split; [by apply outside_allowed|]. destruct HR as [->|[response ->]]; eauto. }
  destruct (main env main_requirement w) as [r w'] eqn:Hrun. cbn [snd].
  unfold main in Hrun. unfold bind at 1 in Hrun. unfold print at 1, emit at 1 in Hrun.
  unfold bind at 1 in Hrun. rewrite Hparent in Hrun.
  assert (Hstop : ∀ wq, without exchanges w1 wq →
            ∃ d tasks_stage tests_stage report,
              extends w wq d ∧
              exchanges d = ((epic, jira env (requests w) epic)
                             :: tasks_stage ++ tests_stage ++ report)%list ∧
              Forall (λ x, task_stage_request x.1 = true) tasks_stage ∧
              Forall (λ x, subtask_request x.1 = true) tests_stage ∧
              (report = [] ∨ ∃ response, report = [(GetSearch, response)])).
  { intros wq Hq. pose proof Hq as (dq & Hextq & _).
    apply (Hshape dq wq [] wq [] wq [] wq); try done; try apply extends_refl.
    by left. }
  destruct (created_key_of (jira env (requests w) epic)) as [k|e].
  2:{ injection Hrun as <- <-. apply Hstop. by apply (without_refl exchanges). }
  destruct (negb (Py.truthy k)).
  { unfold print, emit in Hrun. injection Hrun as <- <-. apply Hstop. by eexists [_]. }
  unfold bind at 1 in Hrun. unfold print at 1, emit at 1 in Hrun.
  unfold bind at 1 in Hrun.
  match type of Hrun with context [generate_subtasks_from_requirement env _ ?w2] =>
    assert (Hplan : without exchanges w1
                      (generate_subtasks_from_requirement env main_requirement w2).2)
      by (apply (without_trans exchanges exchanges_app w1 w2);
          [by eexists [_]|apply generate_subtasks_quiet]);
    destruct (generate_subtasks_from_requirement env main_requirement w2)
      as [[subtask_definitions|e] w3]
  end; cbn [snd] in Hplan.
  2:{ injection Hrun as <- <-. by apply Hstop. }
  unfold bind at 1 in Hrun.
  destruct (Py.truthy subtask_definitions).
  - match type of Hrun with
    | match ?block w3 with _ => _ end = _ =>
        destruct (block w3) as [rm w4] eqn:Hmid
    end.
    apply planned_work_phases in Hmid as (wm & (dT & HextT & HT) & (dS & HextS & HS)).
    pose proof Hplan as (dq & Hextq & _).
    destruct rm as [[]|e].
    + unfold bind in Hrun.
      destruct (get_project_issues_run env w4) as (dR & HextR & HexR).
      assert (w' = (get_project_issues env w4).2) as ->
        by (destruct (get_project_issues env w4) as [[v|e] w5];
            by injection Hrun as <- <-).
      apply (Hshape dq w3 dT wm dS w4 dR); try done. right. by eexists.
    + injection Hrun as <- <-.
      apply (Hshape dq w3 dT wm dS w4 []); try done; [apply extends_refl|by left].
  - unfold print at 1, emit at 1 in Hrun. unfold bind in Hrun.
    match type of Hrun with context [get_project_issues env ?w4] =>
      destruct (get_project_issues_run env w4) as (dR & HextR & HexR);
      assert (w' = (get_project_issues env w4).2) as ->
        by (destruct (get_project_issues env w4) as [[v|e] w5];
            by injection Hrun as <- <-);
      assert (Hq4 : without exchanges w1 w4)
        by (eapply (without_trans exchanges exchanges_app); [exact Hplan|by eexists [_]])
    end.
    pose proof Hq4 as (dq & Hextq & _).
    eapply (Hshape dq _ [] _ [] _ dR); try done; try apply extends_refl.
    right. by eexists.
Qed.

End MainPhases.
